(** * The financial volatility pipeline of [dags/financial_pipeline.py]

    A shallow embedding of the Airflow DAG [financial_volatility_pipeline].
    The warehouse relations are lists of rows and SQL NULL is [None].  A task
    is a function from the state of the run (warehouse, XCom store, log) to
    the state it leaves and the exception it ended with, if any.  The
    scheduler is a function that attempts each task of the chain under the
    retry policy of [default_args] and skips what is downstream of a failed
    task.  The CSV file is the list of lines [COPY] reads after the header.

    PostgreSQL, Airflow and pandas are not part of the repository; their
    behaviour is written out where the DAG relies on it, next to the
    statement that does: three-valued logic, aggregates that skip NULL,
    [NULLS FIRST] under [ORDER BY ... DESC], [TRUNCATE] keeping the sequence
    of a [SERIAL] column and that sequence ending at 2147483647, the ranges
    of [DATE] and [BIGINT], a task being attempted [retries + 1] times, the
    report formatting a binary float.

    A [NUMERIC] is a decimal with the number of digits it displays after
    the point; sums, differences and products are exact and a quotient is
    rounded at the scale PostgreSQL selects for it (PostgreSQL 13 or later
    for the digits of a square root).  Left out: the special values NaN
    and infinity of [NUMERIC] and [DATE], which the types below cannot
    hold, and the limits of the [NUMERIC] format (131072 digits before the
    point, 16383 after) on the results of arithmetic; [COPY] does check
    them on input.  Where SQL leaves the order of rows open (ties of
    [ORDER BY], the groups of [GROUP BY]), the order is the one the
    functions below produce. *)

From Stdlib Require Import ZArith QArith Qround String Ascii List.
From Stdlib Require Import Qabs DecimalString.
From stdpp Require Import base option list sorting gmap strings.

Close Scope Q_scope.
Open Scope string_scope.
Open Scope list_scope.
Open Scope Z_scope.

(** ** Exceptions and results *)

Inductive db_error :=
| UndefinedTable
| NotNullViolation
| ForeignKeyViolation
| StringDataRightTruncation
| DivisionByZero
| BadCopyFileFormat
| InvalidTextRepresentation
| InvalidDatetimeFormat
| DatetimeFieldOverflow
| NumericValueOutOfRange
| SequenceGeneratorLimitExceeded.

(** The exceptions a task of this DAG can end with.  [AirflowFailException]
    is the one Airflow never retries; nothing in the DAG raises it. *)
Inductive exn :=
| FileNotFoundError
| TypeError
| AirflowException
| AirflowFailException
| DatabaseError (e : db_error).

Inductive result (A : Type) :=
| Ok (a : A)
| Raise (e : exn).

Arguments Ok {A} a.
Arguments Raise {A} e.

Definition bind {A B : Type} (m : result A) (k : A -> result B) : result B :=
  match m with
  | Ok a => k a
  | Raise e => Raise e
  end.

Notation "'let*' x ':=' m 'in' k" := (bind m (fun x => k))
  (at level 10, x name, m at level 100, k at level 200).

(** ** NUMERIC

    A [NUMERIC] value is a whole number of units of [10^-dscale], [dscale]
    being its display scale: 1.50 is [Numeric 150 2].  The functions follow
    PostgreSQL's [numeric.c]. *)

Record numeric := Numeric { unscaled : Z; dscale : nat }.

#[global] Instance numeric_eq_dec : EqDecision numeric.
Proof. solve_decision. Defined.

Definition pow10 (n : nat) : Z := 10 ^ Z.of_nat n.

(** The rational a [NUMERIC] stands for. *)
Definition num_value (x : numeric) : Q :=
  (inject_Z (unscaled x) / inject_Z (pow10 (dscale x)))%Q.

(** The units of [x] at a scale [s] that is not below its own. *)
Definition rescale (x : numeric) (s : nat) : Z :=
  unscaled x * pow10 (s - dscale x).

(** An integer taken as a NUMERIC, as in [lag = 0] or [x * 100]. *)
Definition numeric_of_Z (z : Z) : numeric := Numeric z 0.

Definition numeric_add (x y : numeric) : numeric :=
  let s := Nat.max (dscale x) (dscale y) in
  Numeric (rescale x s + rescale y s) s.

Definition numeric_sub (x y : numeric) : numeric :=
  let s := Nat.max (dscale x) (dscale y) in
  Numeric (rescale x s - rescale y s) s.

Definition numeric_compare (x y : numeric) : comparison :=
  let s := Nat.max (dscale x) (dscale y) in
  rescale x s ?= rescale y s.

Definition numeric_eqb (x y : numeric) : bool :=
  match numeric_compare x y with
  | Eq => true
  | _ => false
  end.

(** [n / d] rounded to the nearest integer, a half going away from zero. *)
Definition div_round (n d : Z) : Z :=
  Z.sgn n * Z.sgn d * ((2 * Z.abs n + Z.abs d) / (2 * Z.abs d)).

Definition round_var (x : numeric) (s : nat) : numeric :=
  if (dscale x <=? s)%nat then Numeric (rescale x s) s
  else Numeric (div_round (unscaled x) (pow10 (dscale x - s))) s.

Definition NUMERIC_DSCALE_MAX : nat := Z.to_nat 16383.

(** The exact product. *)
Definition mul_var (x y : numeric) : numeric :=
  Numeric (unscaled x * unscaled y) (dscale x + dscale y).

(** The operator [*]: the exact product, rounded if it has more decimals
    than a NUMERIC can store. *)
Definition numeric_mul (x y : numeric) : numeric :=
  let p := mul_var x y in
  if (dscale p <=? NUMERIC_DSCALE_MAX)%nat then p
  else round_var p NUMERIC_DSCALE_MAX.

Fixpoint digits10_fuel (fuel : nat) (a : Z) : nat :=
  match fuel with
  | O => O
  | S f => if a <? 10 then 1%nat else S (digits10_fuel f (a / 10))
  end.

(** The number of decimal digits of [a > 0]. *)
Definition digits10 (a : Z) : nat :=
  digits10_fuel (S (Z.to_nat (Z.log2 a))) a.

(** The digits of a NUMERIC are kept in base 10000, aligned on the decimal
    point.  [weight] is the position of the first digit that is not zero
    (0 for the units) and [first_digit] its value; both are 0 for zero. *)
Definition weight (x : numeric) : Z :=
  if unscaled x =? 0 then 0
  else (Z.of_nat (digits10 (Z.abs (unscaled x))) - 1 - Z.of_nat (dscale x)) / 4.

Definition first_digit (x : numeric) : Z :=
  if unscaled x =? 0 then 0
  else
    let k := Z.of_nat (dscale x) + 4 * weight x in
    if 0 <=? k then Z.abs (unscaled x) / 10 ^ k
    else Z.abs (unscaled x) * 10 ^ (- k).

(** The scale of a quotient: enough for 16 significant digits, going by an
    estimate of the quotient's weight; not less than the scale of either
    input; at most 1000. *)
Definition select_div_scale (x y : numeric) : nat :=
  let qweight :=
    weight x - weight y - (if first_digit x <=? first_digit y then 1 else 0) in
  let rscale := 16 - qweight * 4 in
  Z.to_nat (Z.min (Z.max (Z.max (Z.max rscale (Z.of_nat (dscale x)))
                              (Z.of_nat (dscale y))) 0) 1000).

(** The quotient rounded at [rscale] decimals; [y] is not zero. *)
Definition div_var (x y : numeric) (rscale : nat) : numeric :=
  Numeric (div_round (unscaled x * pow10 (dscale y + rscale))
                     (unscaled y * pow10 (dscale x))) rscale.

Definition numeric_div (x y : numeric) : numeric :=
  div_var x y (select_div_scale x y).

(** The square root of [x >= 0] rounded at [rscale] decimals: the integer
    nearest to [sqrt x * 10^rscale]. *)
Definition sqrt_var (x : numeric) (rscale : nat) : numeric :=
  Numeric ((Z.sqrt (4 * unscaled x * pow10 (2 * rscale) / pow10 (dscale x)) + 1) / 2)
          rscale.

(** ** SQL values

    A nullable column is an [option]; the arithmetic operators are strict
    (NULL in, NULL out) and [/] raises on a zero divisor. *)

Definition sql_sub (a b : option numeric) : option numeric :=
  match a, b with
  | Some x, Some y => Some (numeric_sub x y)
  | _, _ => None
  end.

Definition sql_mul (a b : option numeric) : option numeric :=
  match a, b with
  | Some x, Some y => Some (numeric_mul x y)
  | _, _ => None
  end.

Definition sql_div (a b : option numeric) : result (option numeric) :=
  match a, b with
  | Some x, Some y =>
      if numeric_eqb y (numeric_of_Z 0) then Raise (DatabaseError DivisionByZero)
      else Ok (Some (numeric_div x y))
  | _, _ => Ok None
  end.

(** [NULLIF(a, b)]: NULL when [a = b], else [a]. *)
Definition NULLIF (a : option numeric) (b : numeric) : option numeric :=
  match a with
  | Some x => if numeric_eqb x b then None else Some x
  | None => None
  end.

(** Three-valued [AND] and [=]. *)
Definition sql_and (a b : option bool) : option bool :=
  match a, b with
  | Some false, _ | _, Some false => Some false
  | Some true, Some true => Some true
  | _, _ => None
  end.

Definition sql_eqZ (a b : option Z) : option bool :=
  match a, b with
  | Some x, Some y => Some (x =? y)
  | _, _ => None
  end.

(** ** Dates

    A [DATE] is a day number, day 0 being 1970-01-01 (a Thursday). *)

Definition date := Z.

(** Year and month of a day number in the proleptic Gregorian calendar. *)
Definition civil_from_days (d : Z) : Z * Z :=
  let z := d + 719468 in
  let era := z / 146097 in
  let doe := z - era * 146097 in
  let yoe := (doe - doe / 1460 + doe / 36524 - doe / 146096) / 365 in
  let doy := doe - (365 * yoe + yoe / 4 - yoe / 100) in
  let mp := (5 * doy + 2) / 153 in
  let m := if mp <? 10 then mp + 3 else mp - 9 in
  let y := yoe + era * 400 in
  (if m <=? 2 then y + 1 else y, m).

(** There is no year 0: the year before 1 is -1 (1 BC). *)
Definition EXTRACT_YEAR (d : date) : Z :=
  let y := fst (civil_from_days d) in
  if y <=? 0 then y - 1 else y.
Definition EXTRACT_MONTH (d : date) : Z := snd (civil_from_days d).
(** Sunday is 0. *)
Definition EXTRACT_DOW (d : date) : Z := (d + 4) mod 7.
(** [DATE_TRUNC('week', d)]: the Monday on or before [d]. *)
Definition DATE_TRUNC_week (d : date) : date := d - (d + 3) mod 7.

(** ** Relations of the warehouse *)

Module Staging.
Record row := {
  date : option Z;
  symbol : option string;
  open : option numeric;
  high : option numeric;
  low : option numeric;
  close : option numeric;
  volume : option Z
}.
End Staging.

(** [ticker] and [data_id] are primary keys, hence never NULL. *)
Module DimInstrumento.
Record row := {
  ticker : string;
  nome_ativo : option string;
  tipo_ativo : option string
}.
End DimInstrumento.

Module DimTempo.
Record row := {
  data_id : Z;
  ano : option Z;
  mes : option Z;
  dia_da_semana : option Z
}.
End DimTempo.

Module Fact.
Record row := {
  id : Z;
  ticker : option string;
  data_id : option Z;
  open : option numeric;
  high : option numeric;
  low : option numeric;
  close : option numeric;
  volume : option Z;
  variacao_diaria : option numeric
}.
End Fact.

Module Vol.
Record row := {
  ticker : option string;
  week : option Z;
  vol : option numeric
}.
End Vol.

(** A relation that was never created is [None].  [fact_id_seq] is the last
    value handed out by the sequence behind [fact_movimentacao_diaria.id]. *)
Record Warehouse := {
  staging : option (list Staging.row);
  dim_instrumento : option (list DimInstrumento.row);
  dim_tempo : option (list DimTempo.row);
  fact_movimentacao_diaria : option (list Fact.row);
  fact_id_seq : Z;
  volatility_weekly : option (list Vol.row)
}.

Definition empty_warehouse : Warehouse :=
  {| staging := None; dim_instrumento := None; dim_tempo := None;
     fact_movimentacao_diaria := None; fact_id_seq := 0;
     volatility_weekly := None |}.

(** The state one DAG run works on: the warehouse, the XCom store keyed by
    (task id, key), and the lines written to the task log. *)
Record State := {
  wh : Warehouse;
  xcom : gmap (string * string) string;
  log : list string
}.

(** A line of the CSV file after the header: seven fields, each empty
    (NULL) or of the input syntax of its column's type, with the values
    they denote; or a line [COPY] cannot read, with the error it raises:
    [BadCopyFileFormat] for missing or extra fields, [InvalidDatetimeFormat]
    or [InvalidTextRepresentation] for a field that is no date or no
    number, [DatetimeFieldOverflow] for a day that its month does not
    have. *)
Inductive csv_line :=
| Fields (r : Staging.row)
| Unreadable (e : db_error).

(** The file system the worker sees: path to the lines of the file. *)
Record Env := {
  fs : gmap string (list csv_line)
}.

Definition with_wh (st : State) (w : Warehouse) : State :=
  {| wh := w; xcom := xcom st; log := log st |}.

Definition xcom_push (task_id key value : string) (st : State) : State :=
  {| wh := wh st; xcom := <[(task_id, key) := value]> (xcom st); log := log st |}.

(** [xcom_pull] answers [None] for a key nobody pushed. *)
Definition xcom_pull (task_ids key : string) (st : State) : option string :=
  xcom st !! (task_ids, key).

Definition set_staging (w : Warehouse) (rows : option (list Staging.row)) : Warehouse :=
  {| staging := rows; dim_instrumento := dim_instrumento w;
     dim_tempo := dim_tempo w;
     fact_movimentacao_diaria := fact_movimentacao_diaria w;
     fact_id_seq := fact_id_seq w; volatility_weekly := volatility_weekly w |}.

Definition set_dims (w : Warehouse) (di : option (list DimInstrumento.row))
  (dt : option (list DimTempo.row)) : Warehouse :=
  {| staging := staging w; dim_instrumento := di; dim_tempo := dt;
     fact_movimentacao_diaria := fact_movimentacao_diaria w;
     fact_id_seq := fact_id_seq w; volatility_weekly := volatility_weekly w |}.

Definition set_fact (w : Warehouse) (rows : option (list Fact.row)) (seq : Z) : Warehouse :=
  {| staging := staging w; dim_instrumento := dim_instrumento w;
     dim_tempo := dim_tempo w; fact_movimentacao_diaria := rows;
     fact_id_seq := seq; volatility_weekly := volatility_weekly w |}.

Definition set_volatility (w : Warehouse) (rows : option (list Vol.row)) : Warehouse :=
  {| staging := staging w; dim_instrumento := dim_instrumento w;
     dim_tempo := dim_tempo w;
     fact_movimentacao_diaria := fact_movimentacao_diaria w;
     fact_id_seq := fact_id_seq w; volatility_weekly := rows |}.

(** ** Tasks

    A task maps the state to the state it leaves and the exception it ended
    with, if any.  A failed SQL task leaves the relations as they were (its
    transaction is rolled back); values drawn from a sequence stay drawn. *)

Definition outcome : Type := State * option exn.

Definition done (st : State) : outcome := (st, None).
Definition failed_with (e : exn) (st : State) : outcome := (st, Some e).

(** [CREATE TABLE IF NOT EXISTS]. *)
Definition create_table_if_not_exists {R : Type} (t : option (list R)) : option (list R) :=
  match t with
  | None => Some []
  | Some rows => Some rows
  end.

(** *** setup_staging_table *)
Definition setup_staging_table (st : State) : outcome :=
  done (with_wh st (set_staging (wh st) (create_table_if_not_exists (staging (wh st))))).

(** *** locate_csv *)
Definition csv_path : string := "/opt/airflow/data/financial_market_750k.csv".

Definition _locate_csv (env : Env) (st : State) : outcome :=
  match fs env !! csv_path with
  | None => failed_with FileNotFoundError st
  | Some _ => done (xcom_push "locate_csv" "csv_path" csv_path st)
  end.

(** *** load_staging *)

Fixpoint all_spaces (s : string) : bool :=
  match s with
  | EmptyString => true
  | String c rest => Ascii.eqb c " "%char && all_spaces rest
  end.

(** Storing into [VARCHAR(n)]: a longer value is refused unless the excess
    is blank, in which case it is cut to [n] characters. *)
Definition store_varchar (n : nat) (v : option string) : result (option string) :=
  match v with
  | None => Ok None
  | Some s =>
      if (String.length s <=? n)%nat then Ok (Some s)
      else if all_spaces (substring n (String.length s - n) s)
           then Ok (Some (substring 0 n s))
           else Raise (DatabaseError StringDataRightTruncation)
  end.

(** The values a [DATE] holds: from 4714-11-24 BC up to 5874897-12-31. *)
Definition DATE_MIN : Z := -2440588.
Definition DATE_END : Z := 2145042906.

Definition store_date (v : option Z) : result (option Z) :=
  match v with
  | None => Ok None
  | Some d =>
      if (DATE_MIN <=? d) && (d <? DATE_END) then Ok (Some d)
      else Raise (DatabaseError DatetimeFieldOverflow)
  end.

(** A NUMERIC holds at most 131072 digits before the decimal point and
    16383 after it. *)
Definition numeric_fits (x : numeric) : bool :=
  (dscale x <=? NUMERIC_DSCALE_MAX)%nat
  && ((unscaled x =? 0)
      || (Z.of_nat (digits10 (Z.abs (unscaled x))) <=? 131072 + Z.of_nat (dscale x))).

Definition store_numeric (v : option numeric) : result (option numeric) :=
  match v with
  | None => Ok None
  | Some x =>
      if numeric_fits x then Ok (Some x)
      else Raise (DatabaseError NumericValueOutOfRange)
  end.

Definition store_bigint (v : option Z) : result (option Z) :=
  match v with
  | None => Ok None
  | Some z =>
      if (- 2 ^ 63 <=? z) && (z <? 2 ^ 63) then Ok (Some z)
      else Raise (DatabaseError NumericValueOutOfRange)
  end.

(** The fields of a record go into their columns from left to right; the
    first one its column refuses ends the [COPY]. *)
Definition copy_row (r : Staging.row) : result Staging.row :=
  let* d := store_date (Staging.date r) in
  let* sym := store_varchar 10 (Staging.symbol r) in
  let* o := store_numeric (Staging.open r) in
  let* h := store_numeric (Staging.high r) in
  let* l := store_numeric (Staging.low r) in
  let* c := store_numeric (Staging.close r) in
  let* v := store_bigint (Staging.volume r) in
  Ok {| Staging.date := d; Staging.symbol := sym;
        Staging.open := o; Staging.high := h;
        Staging.low := l; Staging.close := c;
        Staging.volume := v |}.

Definition copy_line (l : csv_line) : result Staging.row :=
  match l with
  | Fields r => copy_row r
  | Unreadable e => Raise (DatabaseError e)
  end.

(** [COPY staging (...) FROM STDIN WITH CSV HEADER]: append every record. *)
Fixpoint COPY_staging (data_file : list csv_line) (table : list Staging.row)
  : result (list Staging.row) :=
  match data_file with
  | [] => Ok table
  | l :: rest =>
      let* r' := copy_line l in
      COPY_staging rest (table ++ [r'])
  end.

Definition _load_staging (env : Env) (st : State) : outcome :=
  let csv_path := xcom_pull "locate_csv" "csv_path" st in
  match staging (wh st) with
  | None => failed_with (DatabaseError UndefinedTable) st
  | Some _ =>
      (* TRUNCATE TABLE staging *)
      let truncated : list Staging.row := [] in
      match csv_path with
      | None => failed_with TypeError st
      | Some path =>
          match fs env !! path with
          | None => failed_with FileNotFoundError st
          | Some data_file =>
              match COPY_staging data_file truncated with
              | Ok rows => done (with_wh st (set_staging (wh st) (Some rows)))
              | Raise e => failed_with e st
              end
          end
      end
  end.

(** *** run_data_quality_checks *)

Definition COUNT_star {R : Type} (rows : list R) : Z := Z.of_nat (length rows).

(** [SUM] over no rows is NULL. *)
Definition SUM (xs : list Z) : option Z :=
  match xs with
  | [] => None
  | _ => Some (fold_right Z.add 0 xs)
  end.

Definition is_null {A : Type} (v : option A) : bool :=
  match v with None => true | Some _ => false end.

Definition critical_null (r : Staging.row) : Z :=
  if is_null (Staging.close r) || is_null (Staging.date r) then 1 else 0.

Definition quality_check_sql (rows : list Staging.row) : option bool :=
  sql_and (Some (COUNT_star rows =? 750000))
          (sql_eqZ (SUM (map critical_null rows)) (Some 0)).

(** [SQLCheckOperator] fails unless the single value of the row is truthy. *)
Definition run_data_quality_checks (st : State) : outcome :=
  match staging (wh st) with
  | None => failed_with (DatabaseError UndefinedTable) st
  | Some rows =>
      match quality_check_sql rows with
      | Some true => done st
      | _ => failed_with AirflowException st
      end
  end.

(** *** create_dim_tables *)

Definition sql_concat (a b : option string) : option string :=
  match a, b with
  | Some x, Some y => Some (x ++ y)%string
  | _, _ => None
  end.

(** [SELECT DISTINCT symbol, 'Ativo ' || symbol, 'Acao' FROM staging].  A
    staged symbol has at most 10 characters, so each value fits the column
    it goes to. *)
Definition select_instrumentos (rows : list Staging.row)
  : list (option string * option string * option string) :=
  remove_dups
    (map (fun s => (Staging.symbol s,
                    sql_concat (Some "Ativo ") (Staging.symbol s),
                    Some "Acao")) rows).

(** [SELECT DISTINCT date, EXTRACT(YEAR ...), EXTRACT(MONTH ...),
    EXTRACT(DOW ...) FROM staging]. *)
Definition select_tempos (rows : list Staging.row)
  : list (option Z * option Z * option Z * option Z) :=
  remove_dups
    (map (fun s => (Staging.date s,
                    EXTRACT_YEAR <$> Staging.date s,
                    EXTRACT_MONTH <$> Staging.date s,
                    EXTRACT_DOW <$> Staging.date s)) rows).

(** [INSERT ... ON CONFLICT (ticker) DO NOTHING], row by row. *)
Fixpoint insert_dim_instrumento
  (sel : list (option string * option string * option string))
  (table : list DimInstrumento.row) : result (list DimInstrumento.row) :=
  match sel with
  | [] => Ok table
  | (None, _, _) :: _ => Raise (DatabaseError NotNullViolation)
  | (Some t, nome, tipo) :: rest =>
      if bool_decide (t ∈ map DimInstrumento.ticker table)
      then insert_dim_instrumento rest table
      else insert_dim_instrumento rest
             (table ++ [{| DimInstrumento.ticker := t;
                           DimInstrumento.nome_ativo := nome;
                           DimInstrumento.tipo_ativo := tipo |}])
  end.

(** [INSERT ... ON CONFLICT (data_id) DO NOTHING], row by row. *)
Fixpoint insert_dim_tempo
  (sel : list (option Z * option Z * option Z * option Z))
  (table : list DimTempo.row) : result (list DimTempo.row) :=
  match sel with
  | [] => Ok table
  | (None, _, _, _) :: _ => Raise (DatabaseError NotNullViolation)
  | (Some d, y, m, dow) :: rest =>
      if bool_decide (d ∈ map DimTempo.data_id table)
      then insert_dim_tempo rest table
      else insert_dim_tempo rest
             (table ++ [{| DimTempo.data_id := d; DimTempo.ano := y;
                           DimTempo.mes := m; DimTempo.dia_da_semana := dow |}])
  end.

Definition table_or_empty {R : Type} (t : option (list R)) : list R :=
  match t with
  | None => []
  | Some rows => rows
  end.

Definition create_dim_tables (st : State) : outcome :=
  match staging (wh st) with
  | None => failed_with (DatabaseError UndefinedTable) st
  | Some rows =>
      match insert_dim_instrumento (select_instrumentos rows)
              (table_or_empty (dim_instrumento (wh st))) with
      | Raise e => failed_with e st
      | Ok di =>
          match insert_dim_tempo (select_tempos rows)
                  (table_or_empty (dim_tempo (wh st))) with
          | Raise e => failed_with e st
          | Ok dt => done (with_wh st (set_dims (wh st) (Some di) (Some dt)))
          end
      end
  end.

(** *** load_fact_table *)

(** Ascending order with NULLs last. *)
Definition nulls_last {A : Type} (R : relation A) (a b : option A) : Prop :=
  match a, b with
  | Some x, Some y => R x y
  | _, None => True
  | None, Some _ => False
  end.

#[global] Instance nulls_last_dec {A : Type} (R : relation A) `{!RelDecision R} :
  RelDecision (nulls_last R).
Proof. intros [x|] [y|]; simpl; apply _. Defined.

(** The order the window needs: [PARTITION BY s.symbol ORDER BY s.date],
    that is, by symbol and, within a symbol, by date. *)
Definition window_le (r1 r2 : Staging.row) : Prop :=
  nulls_last String.le (Staging.symbol r1) (Staging.symbol r2)
  /\ (Staging.symbol r1 = Staging.symbol r2 ->
      nulls_last Z.le (Staging.date r1) (Staging.date r2)).

#[global] Instance window_le_dec : RelDecision window_le.
Proof. intros r1 r2. unfold window_le. apply _. Defined.

Definition window_sort (rows : list Staging.row) : list Staging.row :=
  merge_sort window_le rows.

(** [LAG(s.close) OVER (PARTITION BY s.symbol ORDER BY s.date)] along the
    sorted rows: the close of the row before, when it is of the same
    partition. *)
Fixpoint with_lag_close (prev : option Staging.row) (sorted : list Staging.row)
  : list (Staging.row * option numeric) :=
  match sorted with
  | [] => []
  | r :: rest =>
      let lag :=
        match prev with
        | Some p =>
            if bool_decide (Staging.symbol p = Staging.symbol r)
            then Staging.close p else None
        | None => None
        end in
      (r, lag) :: with_lag_close (Some r) rest
  end.

(** [(s.close - LAG) / NULLIF(LAG, 0) * 100]. *)
Definition variacao_expr (close lag : option numeric) : result (option numeric) :=
  let* q := sql_div (sql_sub close lag) (NULLIF lag (numeric_of_Z 0)) in
  Ok (sql_mul q (Some (numeric_of_Z 100))).

(** The sequence behind a [SERIAL] column is an [integer] one: it ends at
    2147483647 and does not cycle. *)
Definition SERIAL_MAX : Z := 2147483647.

Definition nextval (seq : Z) : result Z :=
  if seq <? SERIAL_MAX then Ok (seq + 1)
  else Raise (DatabaseError SequenceGeneratorLimitExceeded).

(** The rows of the [INSERT ... SELECT], each taking the next [id], with
    the value the sequence is left at: what was drawn stays drawn, also
    when a later row raises. *)
Fixpoint select_fact (seq : Z) (sel : list (Staging.row * option numeric))
  : Z * result (list Fact.row) :=
  match sel with
  | [] => (seq, Ok [])
  | (s, lag) :: rest =>
      match variacao_expr (Staging.close s) lag with
      | Raise e => (seq, Raise e)
      | Ok v =>
          match nextval seq with
          | Raise e => (seq, Raise e)
          | Ok i =>
              let '(seq', rows) := select_fact i rest in
              (seq',
               let* rows := rows in
               Ok ({| Fact.id := i; Fact.ticker := Staging.symbol s;
                      Fact.data_id := Staging.date s; Fact.open := Staging.open s;
                      Fact.high := Staging.high s; Fact.low := Staging.low s;
                      Fact.close := Staging.close s; Fact.volume := Staging.volume s;
                      Fact.variacao_diaria := v |} :: rows))
          end
      end
  end.

(** A NULL reference satisfies a foreign key. *)
Definition references {K : Type} `{EqDecision K} (k : option K) (keys : list K) : bool :=
  match k with
  | None => true
  | Some x => bool_decide (x ∈ keys)
  end.

Definition fk_ok (di : list DimInstrumento.row) (dt : list DimTempo.row)
  (f : Fact.row) : bool :=
  references (Fact.ticker f) (map DimInstrumento.ticker di)
  && references (Fact.data_id f) (map DimTempo.data_id dt).

Definition load_fact_table (st : State) : outcome :=
  let w := wh st in
  match dim_instrumento w, dim_tempo w, staging w with
  | Some di, Some dt, Some rows =>
      (* CREATE TABLE IF NOT EXISTS: a new SERIAL column starts at 1 *)
      let seq := match fact_movimentacao_diaria w with
                 | None => 0
                 | Some _ => fact_id_seq w
                 end in
      (* TRUNCATE TABLE leaves the sequence where it is *)
      let '(seq', selected) :=
        select_fact seq (with_lag_close None (window_sort rows)) in
      (* a failed statement undoes the table it created, sequence
         included, but not what it drew from a sequence that was there *)
      let rolled_back :=
        with_wh st (set_fact w (fact_movimentacao_diaria w)
                      (match fact_movimentacao_diaria w with
                       | None => fact_id_seq w
                       | Some _ => seq'
                       end)) in
      match selected with
      | Raise e => failed_with e rolled_back
      | Ok facts =>
          if forallb (fk_ok di dt) facts
          then done (with_wh st (set_fact w (Some facts) seq'))
          else failed_with (DatabaseError ForeignKeyViolation) rolled_back
      end
  | _, _, _ => failed_with (DatabaseError UndefinedTable) st
  end.

(** *** calculate_volatility_view *)

(** The sum an aggregate keeps: its scale is the largest of its inputs. *)
Definition numeric_sum (xs : list numeric) : numeric :=
  fold_left numeric_add xs (numeric_of_Z 0).

(** [STDDEV_SAMP]: NULL for fewer than two inputs.  The numerator
    [N * sum(x^2) - sum(x)^2] is exact; the variance is its quotient by
    [N * (N - 1)] and the result the square root of the variance, both
    rounded at the scale selected for that quotient. *)
Definition STDDEV_SAMP (xs : list numeric) : option numeric :=
  let n := Z.of_nat (length xs) in
  if n <=? 1 then None
  else
    let sumX := numeric_sum xs in
    let sumX2 := numeric_sum (map (fun x => mul_var x x) xs) in
    let numerator :=
      numeric_sub (mul_var (numeric_of_Z n) sumX2) (mul_var sumX sumX) in
    if unscaled numerator <=? 0 then Some (numeric_of_Z 0)
    else
      let denominator := numeric_of_Z (n * (n - 1)) in
      let rscale := select_div_scale numerator denominator in
      Some (sqrt_var (div_var numerator denominator rscale) rscale).

Definition week_key (f : Fact.row) : option string * option Z :=
  (Fact.ticker f, DATE_TRUNC_week <$> Fact.data_id f).

(** The query behind the materialized view: rows with a variation, grouped
    by (ticker, week). *)
Definition volatility_query (facts : list Fact.row) : list Vol.row :=
  let rows := filter (fun f => is_Some (Fact.variacao_diaria f)) facts in
  let groups := remove_dups (map week_key rows) in
  map (fun k =>
         {| Vol.ticker := fst k; Vol.week := snd k;
            Vol.vol := STDDEV_SAMP
                         (omap Fact.variacao_diaria
                            (filter (fun f => week_key f = k) rows)) |})
      groups.

(** [CREATE MATERIALIZED VIEW IF NOT EXISTS] fills a new view from the
    query; [REFRESH] replaces the contents by the query's current result. *)
Definition calculate_volatility_view (st : State) : outcome :=
  match fact_movimentacao_diaria (wh st) with
  | None => failed_with (DatabaseError UndefinedTable) st
  | Some facts =>
      done (with_wh st (set_volatility (wh st) (Some (volatility_query facts))))
  end.

(** *** report_top_volatility *)

(** [AVG] skips NULL inputs and is NULL when none is left; otherwise it is
    the quotient of their sum by their number. *)
Definition AVG (xs : list (option numeric)) : option numeric :=
  match omap id xs with
  | [] => None
  | vs => Some (numeric_div (numeric_sum vs)
                            (numeric_of_Z (Z.of_nat (length vs))))
  end.

(** [ORDER BY avg_volatility DESC]: larger first, and NULL before every
    number, as PostgreSQL orders a descending key. *)
Definition desc_nulls_first (a b : option string * option numeric) : Prop :=
  match snd a, snd b with
  | None, _ => True
  | Some _, None => False
  | Some x, Some y => (num_value y <= num_value x)%Q
  end.

#[global] Instance desc_nulls_first_dec : RelDecision desc_nulls_first.
Proof.
  intros [ta [x|]] [tb [y|]]; unfold desc_nulls_first; simpl.
  - destruct (Qlt_le_dec (num_value x) (num_value y)) as [H|H];
      [right | left; exact H].
    intros H'. exact (Qlt_not_le _ _ H H').
  - right. intros [].
  - left. exact I.
  - left. exact I.
Defined.

(** [AVG(vol)] of the group of one ticker. *)
Definition avg_volatility (view : list Vol.row) (t : option string) : option numeric :=
  AVG (map Vol.vol (filter (fun v => Vol.ticker v = t) view)).

(** [SELECT ticker, AVG(vol) ... GROUP BY ticker ORDER BY avg_volatility
    DESC LIMIT 1]. *)
Definition top_volatility_query (view : list Vol.row)
  : list (option string * option numeric) :=
  let groups := remove_dups (map Vol.ticker view) in
  let rows := map (fun t => (t, avg_volatility view t)) groups in
  take 1 (merge_sort desc_nulls_first rows).

Definition string_of_Z (z : Z) : string := NilZero.string_of_int (Z.to_int z).

(** Round to the nearest integer, ties to even. *)
Definition round_half_even (q : Q) : Z :=
  let f := Qfloor q in
  let r := (q - inject_Z f)%Q in
  match (r ?= 1 # 2)%Q with
  | Lt => f
  | Gt => f + 1
  | Eq => if Z.even f then f else f + 1
  end.

(** Powers of two. *)
Definition pow2 (e : Z) : Q :=
  if 0 <=? e then inject_Z (2 ^ e) else (1 # Z.to_pos (2 ^ (- e)))%Q.

(** The binary64 float nearest to [a > 0], a tie going to the even
    significand; [None] is infinity.  With [2^e <= a < 2^(e+1)], the floats
    around [a] are the multiples of [2^(e-52)], or of [2^-1074] below the
    normal range. *)
Definition binary64_of_Q (a : Q) : option Q :=
  let e0 := Z.log2 (Qnum a) - Z.log2 (Z.pos (Qden a)) in
  let e := if Qle_bool (pow2 e0) a then e0 else e0 - 1 in
  let ulp := pow2 (Z.max e (-1022) - 52) in
  let x := (inject_Z (round_half_even (a / ulp)) * ulp)%Q in
  if Qle_bool (pow2 1024) x then None else Some x.

(** [format(v, '.2f')] of the average as pandas hands it over: a NUMERIC
    reaches Python as a [Decimal], which [read_sql] turns into the nearest
    float; the float is then written with two decimals, its exact value
    rounded, a tie going to the even hundredth. *)
Definition format_2f (v : numeric) : string :=
  let sign := if unscaled v <? 0 then "-" else "" in
  if unscaled v =? 0 then "0.00"
  else
    match binary64_of_Q (Qabs (num_value v)) with
    | None => (sign ++ "inf")%string
    | Some x =>
        let h := round_half_even (x * 100)%Q in
        let frac := h mod 100 in
        let pad := if frac <? 10 then "0" else "" in
        (sign ++ string_of_Z (h / 100) ++ "." ++ pad ++ string_of_Z frac)%string
    end.

Definition no_data_message : string := "Nenhum dado de volatilidade disponível.".

Definition str (v : option string) : string :=
  match v with
  | None => "None"
  | Some s => s
  end.

(** The text of the summary; formatting a NULL average with [.2f] is a
    [TypeError]. *)
Definition report_message (df : list (option string * option numeric))
  : result string :=
  match df with
  | [] => Ok no_data_message
  | (ticker, avg_volatility) :: _ =>
      match avg_volatility with
      | None => Raise TypeError
      | Some v =>
          Ok ("Ativo " ++ str ticker ++ " registrou maior volatilidade média ("
              ++ format_2f v
              ++ "%) na semana. Recomenda-se revisar hedge e limites.")%string
      end
  end.

Definition _report_top_volatility (st : State) : outcome :=
  match volatility_weekly (wh st) with
  | None => failed_with (DatabaseError UndefinedTable) st
  | Some view =>
      match report_message (top_volatility_query view) with
      | Raise e => failed_with e st
      | Ok message =>
          done (xcom_push "report_top_volatility" "report_message" message st)
      end
  end.

(** *** log_execution_summary *)
Definition _log_execution_summary (st : State) : outcome :=
  let message := xcom_pull "report_top_volatility" "report_message" st in
  done {| wh := wh st; xcom := xcom st;
          log := log st ++ [("Resumo executivo: " ++ str message)%string] |}.

(** ** The DAG and its scheduler *)

Module default_args.
Definition owner : string := "data_team".
Definition retries : nat := 3.
Definition retry_delay_minutes : Z := 5.
End default_args.

Inductive TaskInstanceState := success | failed | upstream_failed.

#[global] Instance TaskInstanceState_eq_dec : EqDecision TaskInstanceState.
Proof. solve_decision. Defined.

Record Operator := {
  task_id : string;
  execute : Env -> State -> outcome
}.

Record TaskInstance := {
  ti_task_id : string;
  ti_state : TaskInstanceState;
  try_number : nat
}.

(** Airflow retries a failed attempt while retries are left, whatever was
    raised, except [AirflowFailException]. *)
Definition should_retry (e : exn) : bool :=
  match e with
  | AirflowFailException => false
  | _ => true
  end.

(** The attempts of one task; [try_number] is the attempt being made. *)
Fixpoint attempt (callable : State -> outcome) (retries_left try_number : nat)
  (st : State) : TaskInstanceState * nat * State :=
  match callable st with
  | (st', None) => (success, try_number, st')
  | (st', Some e) =>
      match retries_left with
      | S n =>
          if should_retry e then attempt callable n (S try_number) st'
          else (failed, try_number, st')
      | O => (failed, try_number, st')
      end
  end.

(** [a >> b >> ...]: each task has the one before as its only upstream and
    the default trigger rule, so it runs when that one succeeded and is
    [upstream_failed] otherwise. *)
Fixpoint run_chain (env : Env) (tasks : list Operator) (upstream_ok : bool)
  (st : State) : list TaskInstance * State :=
  match tasks with
  | [] => ([], st)
  | t :: rest =>
      if upstream_ok then
        let '(s, n, st') := attempt (execute t env) default_args.retries 1 st in
        let '(tis, st'') := run_chain env rest (bool_decide (s = success)) st' in
        ({| ti_task_id := task_id t; ti_state := s; try_number := n |} :: tis, st'')
      else
        let '(tis, st') := run_chain env rest false st in
        ({| ti_task_id := task_id t; ti_state := upstream_failed;
            try_number := 0 |} :: tis, st')
  end.

Definition dag : list Operator :=
  [ {| task_id := "setup_staging_table"; execute := fun _ => setup_staging_table |};
    {| task_id := "locate_csv"; execute := _locate_csv |};
    {| task_id := "load_staging"; execute := _load_staging |};
    {| task_id := "run_data_quality_checks"; execute := fun _ => run_data_quality_checks |};
    {| task_id := "create_dim_tables"; execute := fun _ => create_dim_tables |};
    {| task_id := "load_fact_table"; execute := fun _ => load_fact_table |};
    {| task_id := "calculate_volatility_view"; execute := fun _ => calculate_volatility_view |};
    {| task_id := "report_top_volatility"; execute := fun _ => _report_top_volatility |};
    {| task_id := "log_execution_summary"; execute := fun _ => _log_execution_summary |} ].

Inductive DagRunState := run_success | run_failed.

Record DagRun := {
  task_instances : list TaskInstance;
  final_state : State;
  run_state : DagRunState
}.

(** The run succeeded when its leaf tasks did; in a chain, the last task. *)
Definition leaf_state (tis : list TaskInstance) : DagRunState :=
  match last tis with
  | Some ti => if bool_decide (ti_state ti = success) then run_success else run_failed
  | None => run_success
  end.

(** A run starts with an XCom store and a log of its own. *)
Definition fresh_run (w : Warehouse) : State :=
  {| wh := w; xcom := ∅; log := [] |}.

Definition dag_run (env : Env) (w : Warehouse) : DagRun :=
  let '(tis, st) := run_chain env dag true (fresh_run w) in
  {| task_instances := tis; final_state := st; run_state := leaf_state tis |}.

Definition get_task_instance (tid : string) (run : DagRun) : option TaskInstance :=
  find (fun ti => bool_decide (ti_task_id ti = tid)) (task_instances run).

(** The warehouse after one more scheduled run. *)
Definition run_pipeline (env : Env) (w : Warehouse) : Warehouse :=
  wh (final_state (dag_run env w)).

(** ** States and task instances named in the statements *)

Definition skipped (t : Operator) : TaskInstance :=
  {| ti_task_id := task_id t; ti_state := upstream_failed; try_number := 0 |}.

Definition after_setup (w : Warehouse) : State :=
  with_wh (fresh_run w) (set_staging w (create_table_if_not_exists (staging w))).

Definition after_locate (w : Warehouse) : State :=
  xcom_push "locate_csv" "csv_path" csv_path (after_setup w).

Definition after_load (w : Warehouse) (rows : list Staging.row) : State :=
  with_wh (after_locate w) (set_staging (wh (after_locate w)) (Some rows)).

Definition downstream_of_gate : list Operator := drop 4 dag.
Definition downstream_of_locate : list Operator := drop 2 dag.

Definition ti (tid : string) (s : TaskInstanceState) (n : nat) : TaskInstance :=
  {| ti_task_id := tid; ti_state := s; try_number := n |}.


(** ** The statements of the specification, for comparison *)

(** The gate as the specification words it: the row count equals the
    expected count and no row has a NULL date or close. *)
Definition quality_gate_spec (expected : Z) (rows : list Staging.row) : bool :=
  (COUNT_star rows =? expected)
  && forallb (fun r => negb (is_null (Staging.date r))
                       && negb (is_null (Staging.close r))) rows.

(** ** Sample data *)

(** A record of the file with the four prices written as the whole
    number [c]. *)
Definition quote (d : Z) (s : string) (c : Z) : Staging.row :=
  {| Staging.date := Some d; Staging.symbol := Some s;
     Staging.open := Some (numeric_of_Z c); Staging.high := Some (numeric_of_Z c);
     Staging.low := Some (numeric_of_Z c); Staging.close := Some (numeric_of_Z c);
     Staging.volume := Some 1000 |}.

Definition xyz_quotes : list Staging.row :=
  [quote 19725 "XYZ" 9; quote 19723 "XYZ" 10; quote 19724 "XYZ" 12].

(** The file system with the CSV file holding the records [data]. *)
Definition env_of (data : list Staging.row) : Env :=
  {| fs := {[ csv_path := Fields <$> data ]} |}.

Definition no_file : Env := {| fs := ∅ |}.

(** A warehouse as an earlier run could have left it. *)
Definition earlier_warehouse : Warehouse :=
  {| staging := Some [quote 19716 "ABC" 50];
     dim_instrumento :=
       Some [{| DimInstrumento.ticker := "ABC";
                DimInstrumento.nome_ativo := Some "Ativo ABC";
                DimInstrumento.tipo_ativo := Some "Acao" |}];
     dim_tempo :=
       Some [{| DimTempo.data_id := 19716; DimTempo.ano := Some 2023;
                DimTempo.mes := Some 12; DimTempo.dia_da_semana := Some 1 |}];
     fact_movimentacao_diaria :=
       Some [{| Fact.id := 1; Fact.ticker := Some "ABC";
                Fact.data_id := Some 19716; Fact.open := Some (numeric_of_Z 50);
                Fact.high := Some (numeric_of_Z 50); Fact.low := Some (numeric_of_Z 50);
                Fact.close := Some (numeric_of_Z 50); Fact.volume := Some 1000;
                Fact.variacao_diaria := None |}];
     fact_id_seq := 1;
     volatility_weekly := Some [] |}.

(** The warehouse after a series of scheduled runs, one per environment. *)
Definition run_pipelines (envs : list Env) (w : Warehouse) : Warehouse :=
  fold_left (fun w env => run_pipeline env w) envs w.

Definition instrumentos (w : Warehouse) : list DimInstrumento.row :=
  table_or_empty (dim_instrumento w).

Definition tempos (w : Warehouse) : list DimTempo.row :=
  table_or_empty (dim_tempo w).

(** The dimensions of [w] have unique keys and still hold, in place, the
    rows they held in [w0]. *)
Definition dims_grown_from (w0 w : Warehouse) : Prop :=
  NoDup (map DimInstrumento.ticker (instrumentos w))
  /\ NoDup (map DimTempo.data_id (tempos w))
  /\ instrumentos w0 `prefix_of` instrumentos w
  /\ tempos w0 `prefix_of` tempos w.

(** A task that leaves both dimensions alone. *)
Definition keeps_dims (callable : State -> outcome) : Prop :=
  forall st st' e, callable st = (st', e) ->
    dim_instrumento (wh st') = dim_instrumento (wh st)
    /\ dim_tempo (wh st') = dim_tempo (wh st).


(** Facts of two tickers in the week of Monday 2024-01-01: XYZ with two
    daily changes, ABC with one. *)
Definition fact_of (i : Z) (s : string) (d : Z) (c : Z) (v : option numeric)
  : Fact.row :=
  {| Fact.id := i; Fact.ticker := Some s; Fact.data_id := Some d;
     Fact.open := Some (numeric_of_Z c); Fact.high := Some (numeric_of_Z c);
     Fact.low := Some (numeric_of_Z c); Fact.close := Some (numeric_of_Z c);
     Fact.volume := Some 1000; Fact.variacao_diaria := v |}.

(** The whole number [z] with the twenty decimals the daily change of
    closes like these comes with: 5.00000000000000000000. *)
Definition percent (z : Z) : numeric := Numeric (z * 10 ^ 20) 20.

Definition week_facts : list Fact.row :=
  [ fact_of 1 "ABC" 19723 40 None; fact_of 2 "ABC" 19724 42 (Some (percent 5));
    fact_of 3 "XYZ" 19723 10 None; fact_of 4 "XYZ" 19724 12 (Some (percent 20));
    fact_of 5 "XYZ" 19725 9 (Some (percent (-25))) ].


Definition with_view (view : list Vol.row) : State :=
  fresh_run (set_volatility empty_warehouse (Some view)).

(** A view in which ABC has no volatility (one change in its only week)
    and XYZ has one. *)
Definition null_average_view : list Vol.row :=
  [ {| Vol.ticker := Some "ABC"; Vol.week := Some 19723; Vol.vol := None |};
    {| Vol.ticker := Some "XYZ"; Vol.week := Some 19723; Vol.vol := Some (Numeric 15 1) |} ].

(** ** The daily change, and the words of the specification about it *)

(** The value of [variacao_expr]. *)
Definition variacao (close lag : option numeric) : option numeric :=
  match close, lag with
  | Some c, Some p =>
      if unscaled p =? 0 then None
      else Some (numeric_mul (numeric_div (numeric_sub c p) p) (numeric_of_Z 100))
  | _, _ => None
  end.

Definition fact_row (i : Z) (s : Staging.row) (lag : option numeric) : Fact.row :=
  {| Fact.id := i; Fact.ticker := Staging.symbol s;
     Fact.data_id := Staging.date s; Fact.open := Staging.open s;
     Fact.high := Staging.high s; Fact.low := Staging.low s;
     Fact.close := Staging.close s; Fact.volume := Staging.volume s;
     Fact.variacao_diaria := variacao (Staging.close s) lag |}.

Fixpoint fact_rows (seq : Z) (sel : list (Staging.row * option numeric))
  : list Fact.row :=
  match sel with
  | [] => []
  | (s, lag) :: rest => fact_row (seq + 1) s lag :: fact_rows (seq + 1) rest
  end.

(** The lag of a row whose predecessor in the sorted rows is [prev]. *)
Definition lag_after (prev : option Staging.row) (r : Staging.row)
  : option numeric :=
  match prev with
  | Some p =>
      if bool_decide (Staging.symbol p = Staging.symbol r)
      then Staging.close p else None
  | None => None
  end.

(** The row before position [length l1] of a list that starts with [l1],
    [prev] standing before the list. *)
Definition predecessor (prev : option Staging.row) (l1 : list Staging.row)
  : option Staging.row :=
  match last l1 with
  | Some p => Some p
  | None => prev
  end.

Definition before (a b : option Z) : Prop :=
  match a, b with
  | Some x, Some y => x < y
  | _, _ => False
  end.

Definition not_after (a b : option Z) : Prop :=
  match a, b with
  | Some x, Some y => x <= y
  | _, _ => False
  end.

(** No staged row of the ticker has an earlier date than [d]. *)
Definition earliest_date (rows : list Staging.row) (ticker : option string)
  (d : option Z) : Prop :=
  forall q, q ∈ rows -> Staging.symbol q = ticker -> not_after d (Staging.date q).

(** [p] is the staged row of the ticker on the date immediately before [d]. *)
Definition preceding_quote (rows : list Staging.row) (ticker : option string)
  (d : option Z) (p : Staging.row) : Prop :=
  p ∈ rows /\ Staging.symbol p = ticker /\ before (Staging.date p) d
  /\ forall q, q ∈ rows -> Staging.symbol q = ticker ->
               before (Staging.date q) d ->
               not_after (Staging.date q) (Staging.date p).

Definition is_zero (v : option numeric) : Prop :=
  match v with
  | Some c => unscaled c = 0
  | None => False
  end.

Definition complete (r : Staging.row) : Prop :=
  Staging.date r <> None /\ Staging.close r <> None.

Definition quote_key (r : Staging.row) : option string * option Z :=
  (Staging.symbol r, Staging.date r).

(** Two quotes of one ticker on one day. *)
Definition repeated_quotes : list Staging.row :=
  [quote 19723 "XYZ" 10; quote 19724 "XYZ" 12; quote 19724 "XYZ" 12].

Definition staged (rows : list Staging.row) : State :=
  fresh_run
    {| staging := Some rows;
       dim_instrumento :=
         Some [{| DimInstrumento.ticker := "XYZ";
                  DimInstrumento.nome_ativo := Some "Ativo XYZ";
                  DimInstrumento.tipo_ativo := Some "Acao" |}];
       dim_tempo :=
         Some (map (fun d => {| DimTempo.data_id := d;
                                DimTempo.ano := Some (EXTRACT_YEAR d);
                                DimTempo.mes := Some (EXTRACT_MONTH d);
                                DimTempo.dia_da_semana := Some (EXTRACT_DOW d) |})
                   [19723; 19724; 19725]);
       fact_movimentacao_diaria := None; fact_id_seq := 0;
       volatility_weekly := None |}.

(** Two quotes of one ticker on its first day. *)
Definition repeated_first_quotes : list Staging.row :=
  [quote 19723 "XYZ" 10; quote 19723 "XYZ" 10; quote 19724 "XYZ" 12].

(** The fact table [load_fact_table] leaves. *)
Definition facts_after (st : State) : list Fact.row :=
  table_or_empty (fact_movimentacao_diaria (wh (fst (load_fact_table st)))).

(** Staged quotes of two tickers in one week: three of XYZ, two of ABC. *)
Definition two_ticker_quotes : list Staging.row :=
  [quote 19723 "XYZ" 10; quote 19723 "ABC" 40; quote 19724 "XYZ" 12;
   quote 19724 "ABC" 42; quote 19725 "XYZ" 9].

(** ** The run as a function of the warehouse

    What a scheduled run does to the warehouse, written without the
    scheduler; [run_pipeline_eq] proves that it is what [run_pipeline]
    computes. *)

Definition window (rows : list Staging.row)
  : list (Staging.row * option numeric) :=
  with_lag_close None (window_sort rows).

(** The value the sequence stands at when the fact table is loaded. *)
Definition seq_base (w : Warehouse) : Z :=
  match fact_movimentacao_diaria w with
  | None => 0
  | Some _ => fact_id_seq w
  end.

(** The warehouse after the tasks downstream of the gate succeeded. *)
Definition refreshed (w : Warehouse) (rows : list Staging.row)
  (di : list DimInstrumento.row) (dt : list DimTempo.row) : Warehouse :=
  let facts := fact_rows (seq_base w) (window rows) in
  {| staging := Some rows; dim_instrumento := Some di; dim_tempo := Some dt;
     fact_movimentacao_diaria := Some facts;
     fact_id_seq := seq_base w + Z.of_nat (length facts);
     volatility_weekly := Some (volatility_query facts) |}.

(** Whether the sequence has an id left for each of [n] rows. *)
Definition ids_left (w : Warehouse) (n : nat) : bool :=
  (n =? 0)%nat || (seq_base w + Z.of_nat n <=? SERIAL_MAX).

(** The warehouse after the dimensions were filled and the sequence ran
    out under [load_fact_table]: the fact table and the view are as they
    were, and the sequence of a fact table that was there is at its end. *)
Definition exhausted (w : Warehouse) (rows : list Staging.row)
  (di : list DimInstrumento.row) (dt : list DimTempo.row) : Warehouse :=
  {| staging := Some rows; dim_instrumento := Some di; dim_tempo := Some dt;
     fact_movimentacao_diaria := fact_movimentacao_diaria w;
     fact_id_seq := match fact_movimentacao_diaria w with
                    | None => fact_id_seq w
                    | Some _ => Z.max (fact_id_seq w) SERIAL_MAX
                    end;
     volatility_weekly := volatility_weekly w |}.

Definition downstream_wh (w : Warehouse) : Warehouse :=
  match staging w with
  | None => w
  | Some rows =>
      match insert_dim_instrumento (select_instrumentos rows) (instrumentos w) with
      | Raise _ => w
      | Ok di =>
          match insert_dim_tempo (select_tempos rows) (tempos w) with
          | Raise _ => w
          | Ok dt =>
              if ids_left w (length rows) then refreshed w rows di dt
              else exhausted w rows di dt
          end
      end
  end.

(** The warehouse after the tasks up to the gate, and whether the gate let
    the run through. *)
Definition upstream_wh (env : Env) (w : Warehouse) : Warehouse * bool :=
  let w0 := set_staging w (create_table_if_not_exists (staging w)) in
  match fs env !! csv_path with
  | None => (w0, false)
  | Some data =>
      match COPY_staging data [] with
      | Raise _ => (w0, false)
      | Ok rows =>
          (set_staging w0 (Some rows),
           bool_decide (quality_check_sql rows = Some true))
      end
  end.

Definition pipeline_wh (env : Env) (w : Warehouse) : Warehouse :=
  let '(w', passed) := upstream_wh env w in
  if passed then downstream_wh w' else w'.

(** A fact row without its surrogate key. *)
Definition without_id (f : Fact.row) : Fact.row :=
  {| Fact.id := 0; Fact.ticker := Fact.ticker f; Fact.data_id := Fact.data_id f;
     Fact.open := Fact.open f; Fact.high := Fact.high f; Fact.low := Fact.low f;
     Fact.close := Fact.close f; Fact.volume := Fact.volume f;
     Fact.variacao_diaria := Fact.variacao_diaria f |}.

(** A task that leaves the warehouse alone. *)
Definition keeps_wh (callable : State -> outcome) : Prop :=
  forall st st' e, callable st = (st', e) -> wh st' = wh st.

(** A record with a symbol that [COPY] stores as it is. *)
Definition fits (r : Staging.row) : Prop :=
  is_Some (Staging.symbol r) /\ copy_row r = Ok r.

(** A source of 750000 complete rows: XYZ at 10 on as many days. *)
Definition full_csv : list Staging.row :=
  map (fun i => quote (Z.of_nat i) "XYZ" 10) (seq 0 (Z.to_nat 750000)).

(** Staged quotes of ABC and XYZ over a dimension that already has ABC,
    under a name of its own. *)
Definition overlapping_state : State :=
  fresh_run
    {| staging := Some two_ticker_quotes;
       dim_instrumento :=
         Some [{| DimInstrumento.ticker := "ABC";
                  DimInstrumento.nome_ativo := Some "ABC Holdings";
                  DimInstrumento.tipo_ativo := Some "ETF" |}];
       dim_tempo := None; fact_movimentacao_diaria := None; fact_id_seq := 0;
       volatility_weekly := None |}.

From Stdlib Require Import Lia Lqa Qfield Qpower.
Close Scope Q_scope.
Open Scope Z_scope.

(** * Further notions *)

(** The states a chain of [total] tasks ends in when its first [n] tasks
    succeed: unless that is all of them, the next one is failed and the
    rest are never attempted. *)
Definition fail_fast_states (total n : nat) : list TaskInstanceState :=
  if (n <? total)%nat
  then repeat success n ++ failed :: repeat upstream_failed (total - n - 1)
  else repeat success total.

(** A task that, having failed, fails again when attempted on the state it
    left, with an exception the scheduler retries. *)
Definition fails_again (callable : State -> outcome) : Prop :=
  forall st st' e,
    callable st = (st', Some e) ->
    should_retry e = true /\ exists st'' e', callable st' = (st'', Some e').

(** The attempts a task instance in state [s] has made. *)
Definition attempts_of (s : TaskInstanceState) : nat :=
  match s with
  | success => 1
  | failed => 1 + default_args.retries
  | upstream_failed => 0
  end.

(** A value that [VARCHAR(n)] refuses: longer than [n] characters, with
    something other than blanks beyond them. *)
Definition overflows (n : nat) (v : option string) : Prop :=
  exists s, v = Some s /\ (n < String.length s)%nat
            /\ all_spaces (substring n (String.length s - n) s) = false.

(** A record of the file as [staging] holds it: the symbol cut to the ten
    characters of its column. *)
Definition stored_row (r : Staging.row) : Staging.row :=
  {| Staging.date := Staging.date r;
     Staging.symbol := substring 0 10 <$> Staging.symbol r;
     Staging.open := Staging.open r; Staging.high := Staging.high r;
     Staging.low := Staging.low r; Staging.close := Staging.close r;
     Staging.volume := Staging.volume r |}.

(** A record whose symbol is too long for its column. *)
Definition long_symbol_quote : Staging.row := quote 19723 "PETROBRAS4PN" 10.

(** A value is within [lo, hi) unless it is NULL. *)
Definition within (lo hi : Z) (v : option Z) : Prop :=
  forall z, v = Some z -> lo <= z < hi.

Definition fits_numeric (v : option numeric) : Prop :=
  forall x, v = Some x -> numeric_fits x = true.

(** A record every field of which its column takes: the date is a [DATE],
    the symbol does not overflow [VARCHAR(10)], the prices are within the
    [NUMERIC] format and the volume is a [BIGINT]. *)
Definition storable (r : Staging.row) : Prop :=
  within DATE_MIN DATE_END (Staging.date r)
  /\ ~ overflows 10 (Staging.symbol r)
  /\ fits_numeric (Staging.open r) /\ fits_numeric (Staging.high r)
  /\ fits_numeric (Staging.low r) /\ fits_numeric (Staging.close r)
  /\ within (- 2 ^ 63) (2 ^ 63) (Staging.volume r).

(** A line that ends the [COPY]: one it cannot read, or a record with a
    field its column refuses. *)
Definition unloadable (l : csv_line) : Prop :=
  match l with
  | Fields r => ~ storable r
  | Unreadable _ => True
  end.

(** A record with a volume beyond [BIGINT]. *)
Definition big_volume_quote : Staging.row :=
  {| Staging.date := Some 19723; Staging.symbol := Some "XYZ";
     Staging.open := Some (numeric_of_Z 10); Staging.high := Some (numeric_of_Z 10);
     Staging.low := Some (numeric_of_Z 10); Staging.close := Some (numeric_of_Z 10);
     Staging.volume := Some (2 ^ 63) |}.


(** The dimension rows [create_dim_tables] derives for a new key. *)
Definition instrumento_of (t : string) : DimInstrumento.row :=
  {| DimInstrumento.ticker := t;
     DimInstrumento.nome_ativo := Some ("Ativo " ++ t)%string;
     DimInstrumento.tipo_ativo := Some "Acao" |}.

Definition tempo_of (d : Z) : DimTempo.row :=
  {| DimTempo.data_id := d; DimTempo.ano := Some (EXTRACT_YEAR d);
     DimTempo.mes := Some (EXTRACT_MONTH d);
     DimTempo.dia_da_semana := Some (EXTRACT_DOW d) |}.


(** The staged row a fact row was made from. *)
Definition quote_of (f : Fact.row) : Staging.row :=
  {| Staging.date := Fact.data_id f; Staging.symbol := Fact.ticker f;
     Staging.open := Fact.open f; Staging.high := Fact.high f;
     Staging.low := Fact.low f; Staging.close := Fact.close f;
     Staging.volume := Fact.volume f |}.

(** A staged row whose symbol or date is not a key of its dimension. *)
Definition dangling (di : list DimInstrumento.row) (dt : list DimTempo.row)
  (r : Staging.row) : Prop :=
  (exists t, Staging.symbol r = Some t /\ t ∉ map DimInstrumento.ticker di)
  \/ (exists d, Staging.date r = Some d /\ d ∉ map DimTempo.data_id dt).

(** The key of a row of the weekly view. *)
Definition vol_key (v : Vol.row) : option string * option Z :=
  (Vol.ticker v, Vol.week v).

(** The daily changes of the facts behind a row of the view. *)
Definition changes_of (facts : list Fact.row) (k : option string * option Z)
  : list Fact.row :=
  filter (fun f => week_key f = k /\ is_Some (Fact.variacao_diaria f)) facts.

(** The text of the report on ticker [t] with average [x]. *)
Definition top_message (t : option string) (x : numeric) : string :=
  ("Ativo " ++ str t ++ " registrou maior volatilidade média ("
   ++ format_2f x
   ++ "%) na semana. Recomenda-se revisar hedge e limites.")%string.

(** A view in which every ticker has a volatility: ABC 0.5 and 2.0 over
    two weeks, XYZ 2.675 over one. *)
Definition full_view : list Vol.row :=
  [ {| Vol.ticker := Some "ABC"; Vol.week := Some 19723; Vol.vol := Some (Numeric 5 1) |};
    {| Vol.ticker := Some "XYZ"; Vol.week := Some 19723;
       Vol.vol := Some (Numeric 2675 3) |};
    {| Vol.ticker := Some "ABC"; Vol.week := Some 19730; Vol.vol := Some (Numeric 20 1) |} ].




(** Ten to an integer power. *)
Definition ten (z : Z) : Q := (10 ^ z)%Q.

(** The estimate [select_div_scale] makes of the weight of a quotient. *)
Definition qweight (x y : numeric) : Z :=
  weight x - weight y - (if first_digit x <=? first_digit y then 1 else 0).

(** How far a quotient of NUMERICs is from the exact quotient [q], at
    most: it has sixteen significant digits or more, and no more than a
    thousand decimals. *)
Definition div_bound (q : Q) : Q :=
  (5 * ten (-17) * Qabs q + 5 * ten (-1001))%Q.

(** ** Invariants of the warehouse over scheduled runs *)


(** Every fact row refers to keys of the dimensions, or to nothing. *)
Definition references_hold (w : Warehouse) : Prop :=
  Forall (fun f => fk_ok (instrumentos w) (tempos w) f = true)
         (table_or_empty (fact_movimentacao_diaria w)).

(** The ids of the fact rows are unique, positive and not beyond the value
    the sequence stands at. *)
Definition ids_in_sequence (w : Warehouse) : Prop :=
  0 <= fact_id_seq w
  /\ NoDup (map Fact.id (table_or_empty (fact_movimentacao_diaria w)))
  /\ Forall (fun f => 0 < Fact.id f <= fact_id_seq w)
            (table_or_empty (fact_movimentacao_diaria w)).

#[global] Instance DagRunState_eq_dec : EqDecision DagRunState.
Proof. solve_decision. Defined.

(** Whether every task of a chain succeeded. *)
Definition all_succeeded (tis : list TaskInstance) : bool :=
  forallb (fun t => bool_decide (ti_state t = success)) tis.

(** A task that writes nothing to the log. *)
Definition keeps_log (callable : State -> outcome) : Prop :=
  forall st st' e, callable st = (st', e) -> log st' = log st.

(** The tasks before [log_execution_summary]. *)
Definition upstream_of_log : list Operator := take 8 dag.

Definition log_task : Operator :=
  {| task_id := "log_execution_summary"; execute := fun _ => _log_execution_summary |}.
(** * Properties *)

(** ** NUMERIC arithmetic *)

Lemma pow10_pos (n : nat) : 0 < pow10 n.
Proof. unfold pow10. apply Z.pow_pos_nonneg; lia. Qed.

Lemma pow10_S (n : nat) : pow10 (S n) = 10 * pow10 n.
Proof. unfold pow10. rewrite Nat2Z.inj_succ, Z.pow_succ_r by lia. reflexivity. Qed.

Lemma pow10_add (n m : nat) : pow10 (n + m) = pow10 n * pow10 m.
Proof. unfold pow10. rewrite Nat2Z.inj_add, Z.pow_add_r by lia. reflexivity. Qed.

Lemma digits10_fuel_spec (fuel : nat) :
  forall a, 0 < a -> a < 2 ^ Z.of_nat fuel ->
    exists k, digits10_fuel fuel a = S k /\ pow10 k <= a < pow10 (S k).
Proof.
  induction fuel as [|f IH]; intros a Hpos Hlt.
  - simpl in Hlt. lia.
  - cbn [digits10_fuel]. destruct (Z.ltb_spec a 10) as [H10|H10].
    + exists 0%nat. split; [reflexivity|]. unfold pow10. simpl. lia.
    + rewrite Nat2Z.inj_succ, Z.pow_succ_r in Hlt by lia.
      assert (Hq : 0 < a / 10) by (apply Z.div_str_pos; lia).
      assert (Hq' : a / 10 < 2 ^ Z.of_nat f).
      { apply Z.div_lt_upper_bound; [lia|].
        pose proof (Z.pow_pos_nonneg 2 (Z.of_nat f)). lia. }
      destruct (IH _ Hq Hq') as (k & -> & Hk).
      exists (S k). split; [reflexivity|].
      rewrite !pow10_S in *. pose proof (Z.div_mod a 10). 
      pose proof (Z.mod_pos_bound a 10). lia.
Qed.

Lemma digits10_spec (a : Z) :
  0 < a -> exists k, digits10 a = S k /\ pow10 k <= a < pow10 (S k).
Proof.
  intros Hpos. apply digits10_fuel_spec; [exact Hpos|].
  rewrite Nat2Z.inj_succ, Z2Nat.id by apply Z.log2_nonneg.
  apply Z.log2_spec. exact Hpos.
Qed.

Section numeric_values.
Local Open Scope Q_scope.

Lemma ten_pos (z : Z) : 0 < ten z.
Proof. apply Qpower_0_lt. reflexivity. Qed.

Lemma ten_add (a b : Z) : ten (a + b) == ten a * ten b.
Proof. apply Qpower_plus. discriminate. Qed.

Lemma ten_opp (a : Z) : ten (- a) == / ten a.
Proof. apply Qpower_opp. Qed.

Lemma ten_le (a b : Z) : (a <= b)%Z -> ten a <= ten b.
Proof. intros H. apply Qpower_le_compat_l; [exact H | discriminate]. Qed.

Lemma ten_nat (n : nat) : ten (Z.of_nat n) == inject_Z (pow10 n).
Proof. unfold ten, pow10. symmetry. apply (Zpower_Qpower 10). lia. Qed.

Lemma ten_0 : ten 0 == 1.
Proof. reflexivity. Qed.

Lemma num_value_ten (x : numeric) :
  num_value x == inject_Z (unscaled x) * ten (- Z.of_nat (dscale x)).
Proof.
  unfold num_value. rewrite ten_opp, ten_nat. reflexivity.
Qed.

Lemma Qabs_inject_Z (z : Z) : Qabs (inject_Z z) == inject_Z (Z.abs z).
Proof. destruct z; reflexivity. Qed.

Lemma Qabs_num_value (x : numeric) :
  Qabs (num_value x) == inject_Z (Z.abs (unscaled x)) * ten (- Z.of_nat (dscale x)).
Proof.
  rewrite num_value_ten, Qabs_Qmult, Qabs_inject_Z.
  rewrite (Qabs_pos (ten _)) by (apply Qlt_le_weak, ten_pos). reflexivity.
Qed.

(** The decimal exponent of the leading digit. *)
Lemma weight_spec (x : numeric) :
  unscaled x <> 0%Z ->
  ten (4 * weight x) <= Qabs (num_value x) /\ Qabs (num_value x) < ten (4 * weight x + 4).
Proof.
  intros Hu. unfold weight. rewrite (proj2 (Z.eqb_neq _ _) Hu).
  destruct (digits10_spec (Z.abs (unscaled x))) as (k & -> & Hlo & Hhi); [lia|].
  rewrite Qabs_num_value.
  set (d := Z.of_nat (dscale x)). set (a := Z.abs (unscaled x)) in *.
  set (e := (Z.of_nat (S k) - 1 - d)%Z).
  assert (He : (4 * (e / 4) <= e < 4 * (e / 4) + 4)%Z).
  { pose proof (Z.div_mod e 4). pose proof (Z.mod_pos_bound e 4). lia. }
  assert (Hte : ten e <= inject_Z a * ten (- d) /\ inject_Z a * ten (- d) < ten (e + 1)).
  { replace e with (Z.of_nat k + - d)%Z by lia.
    replace (Z.of_nat k + - d + 1)%Z with (Z.of_nat (S k) + - d)%Z by lia.
    rewrite !ten_add, !ten_nat. pose proof (ten_pos (- d)) as Hp. split.
    - apply Qmult_le_compat_r; [|apply Qlt_le_weak, Hp].
      rewrite <- Zle_Qle. exact Hlo.
    - apply Qmult_lt_compat_r; [exact Hp|]. rewrite <- Zlt_Qlt. exact Hhi. }
  destruct Hte as [H1 H2]. split.
  - eapply Qle_trans; [|exact H1]. apply ten_le. lia.
  - eapply Qlt_le_trans; [exact H2|]. apply ten_le. lia.
Qed.

Lemma first_digit_spec (x : numeric) :
  unscaled x <> 0%Z ->
  inject_Z (first_digit x) * ten (4 * weight x) <= Qabs (num_value x)
  /\ Qabs (num_value x) < (inject_Z (first_digit x) + 1) * ten (4 * weight x).
Proof.
  intros Hu. unfold first_digit. rewrite (proj2 (Z.eqb_neq _ _) Hu).
  rewrite Qabs_num_value.
  set (d := Z.of_nat (dscale x)). set (a := Z.abs (unscaled x)).
  set (w := weight x). set (k := (d + 4 * w)%Z).
  pose proof (ten_pos (- d)) as Hp.
  destruct (Z.leb_spec 0 k) as [Hk|Hk].
  - assert (H10 : (0 < 10 ^ k)%Z) by (apply Z.pow_pos_nonneg; lia).
    assert (Hw : ten (4 * w) == inject_Z (10 ^ k) * ten (- d)).
    { replace (4 * w)%Z with (k + - d)%Z by lia. rewrite ten_add.
      unfold ten at 1. rewrite <- (Zpower_Qpower 10) by exact Hk. reflexivity. }
    rewrite Hw, !Qmult_assoc.
    pose proof (Z.div_mod a (10 ^ k)) as Hdm.
    pose proof (Z.mod_pos_bound a (10 ^ k) H10) as Hmod.
    split.
    + apply Qmult_le_compat_r; [|apply Qlt_le_weak, Hp].
      rewrite <- inject_Z_mult, <- Zle_Qle. lia.
    + apply Qmult_lt_compat_r; [exact Hp|].
      rewrite <- (inject_Z_plus _ 1), <- inject_Z_mult, <- Zlt_Qlt. lia.
  - assert (Hfd : inject_Z (a * 10 ^ (- k)) == inject_Z a * ten (- k)).
    { rewrite inject_Z_mult. unfold ten. rewrite <- (Zpower_Qpower 10) by lia.
      reflexivity. }
    assert (Hd : ten (- d) == ten (- k) * ten (4 * w)).
    { rewrite <- ten_add. replace (- k + 4 * w)%Z with (- d)%Z by lia. reflexivity. }
    pose proof (ten_pos (4 * w)) as Hw. pose proof (ten_pos (- k)) as Hk'.
    rewrite Hfd, Hd. split.
    + rewrite Qmult_assoc. apply Qle_refl.
    + rewrite Qmult_assoc. rewrite <- (Qplus_0_r (inject_Z a * ten (- k) * ten (4 * w))) at 1.
      rewrite Qmult_plus_distr_l. apply Qplus_lt_r. rewrite Qmult_1_l. exact Hw.
Qed.

Lemma ratio_lt_1 (tx t4 vx vy : Q) :
  0 < tx -> 0 < t4 -> tx <= vx -> vy < t4 -> tx * / t4 * vy < vx.
Proof.
  intros Htx Ht4 Hx Hy.
  assert (Hi : 0 < / t4) by (by apply Qinv_lt_0_compat).
  assert (E : / t4 * t4 == 1) by (field; lra).
  assert (H : / t4 * vy < 1) by (rewrite <- E; apply Qmult_lt_l; assumption).
  rewrite <- Qmult_assoc. eapply Qlt_le_trans; [|exact Hx].
  rewrite <- (Qmult_1_r tx) at 2. apply Qmult_lt_l; assumption.
Qed.

Lemma ratio_lt_2 (tx ty vx vy f1 fx : Q) :
  0 < tx -> 0 < ty -> f1 <= fx -> vy < f1 * ty -> fx * tx <= vx ->
  tx * / ty * vy < vx.
Proof.
  intros Htx Hty Hf Hy Hx.
  assert (Hi : 0 < / ty) by (by apply Qinv_lt_0_compat).
  assert (E : / ty * (f1 * ty) == f1) by (field; lra).
  assert (H : / ty * vy < f1) by (rewrite <- E; apply Qmult_lt_l; assumption).
  rewrite <- Qmult_assoc. eapply Qlt_le_trans; [|exact Hx].
  rewrite (Qmult_comm fx tx).
  eapply Qlt_le_trans; [apply Qmult_lt_l; [exact Htx | exact H]|].
  apply Qmult_le_l; assumption.
Qed.

Lemma quotient_weight (x y : numeric) :
  unscaled x <> 0%Z -> unscaled y <> 0%Z ->
  ten (4 * qweight x y) * Qabs (num_value y) < Qabs (num_value x).
Proof.
  intros Hx Hy. unfold qweight.
  destruct (first_digit_spec x Hx) as [Hx1 _].
  destruct (first_digit_spec y Hy) as [_ Hy2].
  destruct (weight_spec x Hx) as [Hx3 _].
  destruct (weight_spec y Hy) as [Hy3 Hy4].
  set (vx := Qabs (num_value x)) in *. set (vy := Qabs (num_value y)) in *.
  set (wx := weight x) in *. set (wy := weight y) in *.
  pose proof (ten_pos (4 * wx)) as Hpx. pose proof (ten_pos (4 * wy)) as Hpy.
  destruct (Z.leb_spec (first_digit x) (first_digit y)) as [Hfd|Hfd].
  - replace (4 * (wx - wy - 1))%Z with (4 * wx + - (4 * wy + 4))%Z by lia.
    rewrite ten_add, ten_opp.
    apply ratio_lt_1; auto using ten_pos.
  - replace (4 * (wx - wy - 0))%Z with (4 * wx + - (4 * wy))%Z by lia.
    rewrite ten_add, ten_opp.
    apply (ratio_lt_2 _ _ _ _ (inject_Z (first_digit y) + 1) (inject_Z (first_digit x)));
      auto.
    rewrite <- (inject_Z_plus _ 1), <- Zle_Qle. lia.
Qed.

Lemma div_round_0 (d : Z) : d <> 0%Z -> div_round 0 d = 0%Z.
Proof. intros Hd. unfold div_round. simpl. reflexivity. Qed.

Lemma quotient_sign (n d : Z) :
  d <> 0%Z ->
  inject_Z n / inject_Z d
  == inject_Z (Z.sgn n * Z.sgn d) * (inject_Z (Z.abs n) / inject_Z (Z.abs d)).
Proof.
  intros Hd. destruct n as [|p|p], d as [|q|q]; try contradiction;
    unfold Qeq, Qdiv, Qmult, Qinv, inject_Z; simpl; reflexivity.
Qed.

Lemma half_error (N D : Z) :
  (0 < D)%Z ->
  Qabs (inject_Z ((2 * N + D) / (2 * D)) - inject_Z N / inject_Z D) <= 1 # 2.
Proof.
  intros HD. set (R := ((2 * N + D) / (2 * D))%Z).
  assert (HR : (- D <= 2 * N - 2 * D * R < D)%Z).
  { pose proof (Z.div_mod (2 * N + D) (2 * D)) as Hdm.
    pose proof (Z.mod_pos_bound (2 * N + D) (2 * D)) as Hmod. unfold R. lia. }
  assert (HDQ : 0 < inject_Z D) by (change 0 with (inject_Z 0); by rewrite <- Zlt_Qlt).
  apply Qabs_Qle_condition.
  assert (H1 : inject_Z (- D) <= inject_Z (2 * N - 2 * D * R)) by (rewrite <- Zle_Qle; lia).
  assert (H2 : inject_Z (2 * N - 2 * D * R) <= inject_Z D) by (rewrite <- Zle_Qle; lia).
  rewrite inject_Z_opp in H1.
  unfold Z.sub in H1, H2. rewrite inject_Z_plus, inject_Z_opp, !inject_Z_mult in H1, H2.
  change (inject_Z 2) with 2 in *.
  set (r := inject_Z R) in *. set (nn := inject_Z N) in *. set (dd := inject_Z D) in *.
  assert (Ei : nn == nn / dd * dd) by (field; lra).
  set (z := nn / dd) in *. rewrite Ei in H1, H2. clearbody z r dd. clear Ei.
  split; nra.
Qed.

Lemma div_round_error (n d : Z) :
  d <> 0%Z ->
  Qabs (inject_Z (div_round n d) - inject_Z n / inject_Z d) <= 1 # 2.
Proof.
  intros Hd. unfold div_round. rewrite (quotient_sign n d Hd), inject_Z_mult.
  set (s := inject_Z (Z.sgn n * Z.sgn d)).
  set (R := inject_Z ((2 * Z.abs n + Z.abs d) / (2 * Z.abs d))).
  set (q := inject_Z (Z.abs n) / inject_Z (Z.abs d)).
  assert (E : s * R - s * q == s * (R - q)) by ring. rewrite E.
  rewrite Qabs_Qmult.
  assert (Hs : Qabs s <= 1).
  { unfold s. rewrite Qabs_inject_Z. change 1 with (inject_Z 1).
    rewrite <- Zle_Qle. destruct n, d; simpl; lia. }
  assert (Herr : Qabs (R - q) <= 1 # 2) by (apply half_error; lia).
  pose proof (Qabs_nonneg s). pose proof (Qabs_nonneg (R - q)). nra.
Qed.

Lemma ten_neq (z : Z) : ~ ten z == 0.
Proof. pose proof (ten_pos z). lra. Qed.

Lemma inject_Z_neq (z : Z) : z <> 0%Z -> ~ inject_Z z == 0.
Proof. intros Hz H. apply Hz. unfold Qeq in H. simpl in H. lia. Qed.

Lemma div_var_error (x y : numeric) (rs : nat) :
  unscaled y <> 0%Z ->
  Qabs (num_value (div_var x y rs) - num_value x / num_value y)
  <= (1 # 2) * ten (- Z.of_nat rs).
Proof.
  intros Hy.
  set (n := (unscaled x * pow10 (dscale y + rs))%Z).
  set (d := (unscaled y * pow10 (dscale x))%Z).
  assert (Hd : d <> 0%Z) by (unfold d; pose proof (pow10_pos (dscale x)); nia).
  assert (Hv : num_value (div_var x y rs)
               == inject_Z (div_round n d) * ten (- Z.of_nat rs)).
  { rewrite num_value_ten. reflexivity. }
  assert (Hq : num_value x / num_value y
               == inject_Z n / inject_Z d * ten (- Z.of_nat rs)).
  { rewrite !num_value_ten. unfold n, d. rewrite !inject_Z_mult, <- !ten_nat.
    rewrite Nat2Z.inj_add, ten_add.
    pose proof (inject_Z_neq _ Hy).
    rewrite !ten_opp. field. repeat split; auto using ten_neq. }
  rewrite Hv, Hq.
  assert (E : inject_Z (div_round n d) * ten (- Z.of_nat rs)
              - inject_Z n / inject_Z d * ten (- Z.of_nat rs)
              == (inject_Z (div_round n d) - inject_Z n / inject_Z d)
                 * ten (- Z.of_nat rs)) by ring.
  rewrite E, Qabs_Qmult.
  rewrite (Qabs_pos (ten _)) by (apply Qlt_le_weak, ten_pos).
  apply Qmult_le_compat_r; [|apply Qlt_le_weak, ten_pos].
  by apply div_round_error.
Qed.

Lemma div_var_zero (x y : numeric) (rs : nat) :
  unscaled x = 0%Z -> unscaled (div_var x y rs) = 0%Z.
Proof. intros Hx. unfold div_var, div_round. simpl. rewrite Hx. reflexivity. Qed.

Lemma select_div_scale_cases (x y : numeric) :
  (16 - 4 * qweight x y <= Z.of_nat (select_div_scale x y))%Z
  \/ select_div_scale x y = 1000%nat.
Proof.
  unfold select_div_scale. fold (qweight x y).
  set (r := (16 - qweight x y * 4)%Z).
  set (m := Z.max (Z.max (Z.max r (Z.of_nat (dscale x))) (Z.of_nat (dscale y))) 0).
  destruct (Z.le_gt_cases m 1000) as [H|H].
  - left. rewrite Z.min_l by exact H. rewrite Z2Nat.id by (unfold m; lia).
    unfold m, r. lia.
  - right. rewrite Z.min_r by lia. reflexivity.
Qed.

(** The quotient of two NUMERICs is right to sixteen significant digits,
    or to a thousand decimals when it needs more. *)
Lemma numeric_div_error (x y : numeric) :
  unscaled y <> 0%Z ->
  Qabs (num_value (numeric_div x y) - num_value x / num_value y)
  <= div_bound (num_value x / num_value y).
Proof.
  intros Hy. unfold div_bound. set (q := num_value x / num_value y).
  pose proof (Qabs_nonneg q) as Hq0.
  pose proof (ten_pos (-17)) as H17. pose proof (ten_pos (-1001)) as H1001.
  destruct (Z.eq_dec (unscaled x) 0) as [Hx|Hx].
  { assert (Hv : num_value (numeric_div x y) == 0).
    { unfold numeric_div. rewrite num_value_ten, div_var_zero by exact Hx. ring. }
    assert (Hq : q == 0).
    { unfold q. rewrite (num_value_ten x), Hx. unfold Qdiv. ring. }
    rewrite Hv, Hq.
    assert (E0 : Qabs (0 - 0) == 0) by reflexivity.
    assert (E1 : Qabs 0 == 0) by reflexivity.
    rewrite E0, E1. lra. }
  pose proof (div_var_error x y (select_div_scale x y) Hy) as Herr.
  fold (numeric_div x y) in Herr. fold q in Herr.
  eapply Qle_trans; [exact Herr|].
  destruct (select_div_scale_cases x y) as [Hrs|Hrs].
  - (* sixteen significant digits *)
    pose proof (quotient_weight x y Hx Hy) as Hw.
    assert (Hvy : 0 < Qabs (num_value y)).
    { rewrite Qabs_num_value. apply Qmult_lt_0_compat; [|apply ten_pos].
      change 0 with (inject_Z 0). rewrite <- Zlt_Qlt. lia. }
    assert (Hq : ten (4 * qweight x y) < Qabs q).
    { unfold q, Qdiv. rewrite Qabs_Qmult, Qabs_Qinv.
      apply Qlt_shift_div_l; [exact Hvy | exact Hw]. }
    assert (Hle : ten (- Z.of_nat (select_div_scale x y))
                  <= ten (4 * qweight x y) * ten (-16)).
    { rewrite <- ten_add. apply ten_le. lia. }
    assert (E : 5 * ten (-17) == (1 # 2) * ten (-16)).
    { change (-16)%Z with (1 + -17)%Z. rewrite ten_add. 
      change (ten 1) with 10. ring. }
    rewrite E. pose proof (ten_pos (-16)). pose proof (ten_pos (4 * qweight x y)).
    set (t := ten (- Z.of_nat (select_div_scale x y))) in *.
    set (t16 := ten (-16)) in *. set (tw := ten (4 * qweight x y)) in *.
    set (aq := Qabs q) in *. clearbody t t16 tw aq. nra.
  - rewrite Hrs. 
    assert (E : 5 * ten (-1001) == (1 # 2) * ten (- Z.of_nat 1000)).
    { change (- Z.of_nat 1000)%Z with (1 + -1001)%Z. rewrite ten_add.
      change (ten 1) with 10. ring. }
    rewrite E. nra.
Qed.

Lemma num_value_of_Z (z : Z) : num_value (numeric_of_Z z) == inject_Z z.
Proof. unfold num_value, numeric_of_Z. simpl. unfold Qdiv. change (/ inject_Z (pow10 0)) with 1. ring. Qed.

Lemma rescale_value (x : numeric) (s : nat) :
  (dscale x <= s)%nat ->
  inject_Z (rescale x s) * ten (- Z.of_nat s) == num_value x.
Proof.
  intros Hs. unfold rescale. rewrite num_value_ten, inject_Z_mult, <- ten_nat.
  rewrite <- Qmult_assoc, <- ten_add.
  replace (Z.of_nat (s - dscale x) + - Z.of_nat s)%Z with (- Z.of_nat (dscale x))%Z by lia.
  reflexivity.
Qed.


Lemma num_value_sub (x y : numeric) :
  num_value (numeric_sub x y) == num_value x - num_value y.
Proof.
  unfold numeric_sub. rewrite num_value_ten. cbn [unscaled dscale].
  unfold Z.sub. rewrite inject_Z_plus, inject_Z_opp, Qmult_plus_distr_l.
  assert (E : forall a b, - a * b == - (a * b)) by (intros; ring).
  rewrite E, !rescale_value by lia. reflexivity.
Qed.

Lemma num_value_mul_var (x y : numeric) :
  num_value (mul_var x y) == num_value x * num_value y.
Proof.
  unfold mul_var. rewrite !num_value_ten. cbn [unscaled dscale].
  rewrite inject_Z_mult, Nat2Z.inj_add, Z.opp_add_distr, ten_add. ring.
Qed.

Lemma num_value_mul (x y : numeric) :
  (dscale x + dscale y <= NUMERIC_DSCALE_MAX)%nat ->
  num_value (numeric_mul x y) == num_value x * num_value y.
Proof.
  intros Hs. unfold numeric_mul. cbn [mul_var dscale].
  rewrite (proj2 (Nat.leb_le _ _) Hs). apply num_value_mul_var.
Qed.



Lemma num_value_zero (x : numeric) : num_value x == 0 <-> unscaled x = 0%Z.
Proof.
  rewrite num_value_ten. pose proof (ten_pos (- Z.of_nat (dscale x))) as Hp. split.
  - intros H. destruct (Z.eq_dec (unscaled x) 0) as [|Hn]; [assumption|].
    exfalso. apply (inject_Z_neq _ Hn).
    apply Qmult_integral in H as [H|H]; [exact H|]. lra.
  - intros ->. ring.
Qed.

Lemma select_div_scale_le (x y : numeric) : (select_div_scale x y <= 1000)%nat.
Proof. unfold select_div_scale. lia. Qed.

End numeric_values.

Lemma numeric_eqb_zero (x : numeric) :
  numeric_eqb x (numeric_of_Z 0) = (unscaled x =? 0).
Proof.
  unfold numeric_eqb, numeric_compare, rescale, numeric_of_Z. cbn [unscaled dscale].
  rewrite Nat.max_0_r, Nat.sub_diag, Z.mul_0_l. change (pow10 0) with 1.
  rewrite Z.mul_1_r.
  destruct (Z.eqb_spec (unscaled x) 0) as [->|Hn]; [reflexivity|].
  destruct (Z.compare_spec (unscaled x) 0); [contradiction | reflexivity..].
Qed.

(** ** The scheduler *)

Section scheduler.
Variable callable : State -> outcome.

Lemma attempt_success (n k : nat) (st st' : State) :
  callable st = (st', None) -> attempt callable n k st = (success, k, st').
Proof. intros H. destruct n; simpl; rewrite H; reflexivity. Qed.

(** An attempt that fails and leaves the state as it found it fails again
    on every retry. *)
Lemma attempt_exhausted (n k : nat) (st : State) (e : exn) :
  callable st = (st, Some e) -> should_retry e = true ->
  attempt callable n k st = (failed, (k + n)%nat, st).
Proof.
  intros H Hr. revert k. induction n as [|n IH]; intros k; simpl; rewrite H.
  - f_equal. f_equal. lia.
  - rewrite Hr, IH. f_equal. f_equal. lia.
Qed.

(** An attempt that fails and leaves a state on which the task fails
    again, without changing it, ends there when the retries are used up. *)
Lemma attempt_settles (n k : nat) (st st1 : State) (e e1 : exn) :
  callable st = (st1, Some e) -> should_retry e = true ->
  callable st1 = (st1, Some e1) -> should_retry e1 = true ->
  attempt callable (S n) k st = (failed, (k + S n)%nat, st1).
Proof.
  intros H Hr H1 Hr1. cbn [attempt]. rewrite H, Hr.
  rewrite (attempt_exhausted _ _ _ _ H1 Hr1). f_equal. f_equal. lia.
Qed.
End scheduler.

Lemma run_chain_skip (env : Env) (tasks : list Operator) (st : State) :
  run_chain env tasks false st = (map skipped tasks, st).
Proof.
  induction tasks as [|t rest IH]; simpl; [reflexivity|].
  rewrite IH. reflexivity.
Qed.

Lemma run_chain_ok (env : Env) (t : Operator) (rest : list Operator) (st st' : State) :
  execute t env st = (st', None) ->
  run_chain env (t :: rest) true st =
    ({| ti_task_id := task_id t; ti_state := success; try_number := 1 |}
       :: fst (run_chain env rest true st'),
     snd (run_chain env rest true st')).
Proof.
  intros H. cbn [run_chain]. rewrite (attempt_success _ _ _ _ _ H).
  rewrite bool_decide_eq_true_2 by reflexivity.
  destruct (run_chain env rest true st'); reflexivity.
Qed.

Lemma run_chain_failed (env : Env) (t : Operator) (rest : list Operator)
  (st : State) (e : exn) :
  execute t env st = (st, Some e) -> should_retry e = true ->
  run_chain env (t :: rest) true st =
    ({| ti_task_id := task_id t; ti_state := failed; try_number := 4 |}
       :: map skipped rest, st).
Proof.
  intros H Hr. cbn [run_chain]. rewrite (attempt_exhausted _ _ _ _ _ H Hr).
  rewrite bool_decide_eq_false_2 by discriminate.
  rewrite run_chain_skip. reflexivity.
Qed.

Lemma run_chain_settles (env : Env) (t : Operator) (rest : list Operator)
  (st st1 : State) (e e1 : exn) :
  execute t env st = (st1, Some e) -> should_retry e = true ->
  execute t env st1 = (st1, Some e1) -> should_retry e1 = true ->
  run_chain env (t :: rest) true st =
    ({| ti_task_id := task_id t; ti_state := failed; try_number := 4 |}
       :: map skipped rest, st1).
Proof.
  intros H Hr H1 Hr1. cbn [run_chain]. unfold default_args.retries.
  rewrite (attempt_settles _ _ _ _ _ _ _ H Hr H1 Hr1).
  rewrite bool_decide_eq_false_2 by discriminate.
  rewrite run_chain_skip. reflexivity.
Qed.

(** ** The first four tasks *)

Lemma locate_found (env : Env) (data : list csv_line) (st : State) :
  fs env !! csv_path = Some data ->
  _locate_csv env st = (xcom_push "locate_csv" "csv_path" csv_path st, None).
Proof. intros H. unfold _locate_csv. rewrite H. reflexivity. Qed.

Lemma locate_missing (env : Env) (st : State) :
  fs env !! csv_path = None -> _locate_csv env st = (st, Some FileNotFoundError).
Proof. intros H. unfold _locate_csv. rewrite H. reflexivity. Qed.

Lemma staging_after_locate (w : Warehouse) :
  staging (wh (after_locate w)) = create_table_if_not_exists (staging w).
Proof. reflexivity. Qed.

Lemma pull_after_locate (w : Warehouse) :
  xcom_pull "locate_csv" "csv_path" (after_locate w) = Some csv_path.
Proof. unfold xcom_pull, after_locate, xcom_push. simpl. apply lookup_insert_eq. Qed.

Lemma load_copied (env : Env) (w : Warehouse) (data : list csv_line)
  (rows : list Staging.row) :
  fs env !! csv_path = Some data -> COPY_staging data [] = Ok rows ->
  _load_staging env (after_locate w) = (after_load w rows, None).
Proof.
  intros Hfs Hcopy. unfold _load_staging.
  rewrite pull_after_locate, staging_after_locate.
  destruct (staging w); simpl; rewrite Hfs, Hcopy; reflexivity.
Qed.

Lemma load_refused (env : Env) (w : Warehouse) (data : list csv_line) (e : exn) :
  fs env !! csv_path = Some data -> COPY_staging data [] = Raise e ->
  _load_staging env (after_locate w) = (after_locate w, Some e).
Proof.
  intros Hfs Hcopy. unfold _load_staging.
  rewrite pull_after_locate, staging_after_locate.
  destruct (staging w); simpl; rewrite Hfs, Hcopy; reflexivity.
Qed.

Lemma bind_raise {A B : Type} (m : result A) (k : A -> result B) (e : exn) :
  bind m k = Raise e -> m = Raise e \/ exists a, m = Ok a /\ k a = Raise e.
Proof. destruct m as [a|e']; simpl; [eauto | intros [= <-]; by left]. Qed.

Lemma store_date_error (v : option Z) (e : exn) :
  store_date v = Raise e -> e = DatabaseError DatetimeFieldOverflow.
Proof. unfold store_date. repeat case_match; congruence. Qed.

Lemma store_varchar_error (n : nat) (v : option string) (e : exn) :
  store_varchar n v = Raise e -> e = DatabaseError StringDataRightTruncation.
Proof. unfold store_varchar. repeat case_match; congruence. Qed.

Lemma store_numeric_error (v : option numeric) (e : exn) :
  store_numeric v = Raise e -> e = DatabaseError NumericValueOutOfRange.
Proof. unfold store_numeric. repeat case_match; congruence. Qed.

Lemma store_bigint_error (v : option Z) (e : exn) :
  store_bigint v = Raise e -> e = DatabaseError NumericValueOutOfRange.
Proof. unfold store_bigint. repeat case_match; congruence. Qed.

(** What [COPY] raises is a database error. *)
Lemma copy_row_error (r : Staging.row) (e : exn) :
  copy_row r = Raise e -> exists d, e = DatabaseError d.
Proof.
  unfold copy_row. intros H.
  repeat (apply bind_raise in H as [H | (? & _ & H)];
          [first [apply store_date_error in H | apply store_varchar_error in H
                 | apply store_numeric_error in H | apply store_bigint_error in H];
           eauto |]).
  discriminate.
Qed.

Lemma copy_line_error (l : csv_line) (e : exn) :
  copy_line l = Raise e -> should_retry e = true.
Proof.
  destruct l as [r|e']; simpl.
  - intros [d ->]%copy_row_error. reflexivity.
  - intros [= <-]. reflexivity.
Qed.

Lemma COPY_staging_error (data : list csv_line) (table : list Staging.row) (e : exn) :
  COPY_staging data table = Raise e -> should_retry e = true.
Proof.
  revert table. induction data as [|l rest IH]; intros table; simpl; [discriminate|].
  destruct (copy_line l) as [r'|e'] eqn:Hr; simpl.
  - apply IH.
  - intros [= <-]. exact (copy_line_error _ _ Hr).
Qed.

Lemma gate_passes (w : Warehouse) (rows : list Staging.row) :
  quality_check_sql rows = Some true ->
  run_data_quality_checks (after_load w rows) = (after_load w rows, None).
Proof. intros H. unfold run_data_quality_checks. simpl. rewrite H. reflexivity. Qed.

Lemma gate_fails (w : Warehouse) (rows : list Staging.row) :
  quality_check_sql rows <> Some true ->
  run_data_quality_checks (after_load w rows)
  = (after_load w rows, Some AirflowException).
Proof.
  intros H. unfold run_data_quality_checks. simpl.
  destruct (quality_check_sql rows) as [[|]|]; [contradiction| |]; reflexivity.
Qed.

(** The run when the file is missing. *)
Lemma run_chain_missing (env : Env) (w : Warehouse) :
  fs env !! csv_path = None ->
  run_chain env dag true (fresh_run w)
  = (ti "setup_staging_table" success 1 :: ti "locate_csv" failed 4
       :: map skipped downstream_of_locate,
     after_setup w).
Proof.
  intros Hfs. unfold dag.
  rewrite (run_chain_ok _ _ _ _ (after_setup w)) by reflexivity.
  rewrite (run_chain_failed _ _ _ _ FileNotFoundError)
    by (try reflexivity; apply locate_missing, Hfs).
  reflexivity.
Qed.

(** The run when [COPY] refuses the file. *)
Lemma run_chain_refused (env : Env) (w : Warehouse) (data : list csv_line) (e : exn) :
  fs env !! csv_path = Some data -> COPY_staging data [] = Raise e ->
  run_chain env dag true (fresh_run w)
  = (ti "setup_staging_table" success 1 :: ti "locate_csv" success 1
       :: ti "load_staging" failed 4 :: map skipped (drop 3 dag),
     after_locate w).
Proof.
  intros Hfs Hcopy. unfold dag.
  rewrite (run_chain_ok _ _ _ _ (after_setup w)) by reflexivity.
  rewrite (run_chain_ok _ _ _ _ (after_locate w))
    by (eapply locate_found, Hfs).
  rewrite (run_chain_failed _ _ _ _ e);
    [reflexivity | eapply load_refused; eassumption
    | eapply COPY_staging_error; eassumption].
Qed.

(** The run when the gate rejects the staged rows. *)
Lemma run_chain_rejected (env : Env) (w : Warehouse) (data : list csv_line)
  (rows : list Staging.row) :
  fs env !! csv_path = Some data -> COPY_staging data [] = Ok rows ->
  quality_check_sql rows <> Some true ->
  run_chain env dag true (fresh_run w)
  = (ti "setup_staging_table" success 1 :: ti "locate_csv" success 1
       :: ti "load_staging" success 1 :: ti "run_data_quality_checks" failed 4
       :: map skipped downstream_of_gate,
     after_load w rows).
Proof.
  intros Hfs Hcopy Hq. unfold dag.
  rewrite (run_chain_ok _ _ _ _ (after_setup w)) by reflexivity.
  rewrite (run_chain_ok _ _ _ _ (after_locate w))
    by (eapply locate_found, Hfs).
  rewrite (run_chain_ok _ _ _ _ (after_load w rows))
    by (eapply load_copied; eassumption).
  rewrite (run_chain_failed _ _ _ _ AirflowException);
    [reflexivity | apply gate_fails, Hq | reflexivity].
Qed.

(** The run up to the gate when the staged rows pass it. *)
Lemma run_chain_accepted (env : Env) (w : Warehouse) (data : list csv_line)
  (rows : list Staging.row) :
  fs env !! csv_path = Some data -> COPY_staging data [] = Ok rows ->
  quality_check_sql rows = Some true ->
  run_chain env dag true (fresh_run w)
  = (ti "setup_staging_table" success 1 :: ti "locate_csv" success 1
       :: ti "load_staging" success 1 :: ti "run_data_quality_checks" success 1
       :: fst (run_chain env downstream_of_gate true (after_load w rows)),
     snd (run_chain env downstream_of_gate true (after_load w rows))).
Proof.
  intros Hfs Hcopy Hq. unfold dag.
  rewrite (run_chain_ok _ _ _ _ (after_setup w)) by reflexivity.
  rewrite (run_chain_ok _ _ _ _ (after_locate w))
    by (eapply locate_found, Hfs).
  rewrite (run_chain_ok _ _ _ _ (after_load w rows))
    by (eapply load_copied; eassumption).
  rewrite (run_chain_ok _ _ _ _ (after_load w rows))
    by (apply gate_passes, Hq).
  reflexivity.
Qed.

(** ** Retries (C3, C4) *)

(** C3, as amended.  When the rows of the file were staged and do not
    satisfy the quality predicate, the check raises [AirflowException],
    which the scheduler retries, on every state that holds these rows; it
    is attempted four times (the first attempt and the three retries of
    [default_args]) and is then failed; the five tasks downstream of it
    are [upstream_failed] without an attempt, the three before it
    succeeded at their first attempt, and the run is failed. *)
Theorem quality_violation_is_retried (env : Env) (w : Warehouse)
  (data : list csv_line) (rows : list Staging.row) :
  fs env !! csv_path = Some data -> COPY_staging data [] = Ok rows ->
  quality_check_sql rows <> Some true ->
  get_task_instance "run_data_quality_checks" (dag_run env w)
  = Some (ti "run_data_quality_checks" failed (1 + default_args.retries))
  /\ (forall st, staging (wh st) = Some rows ->
        run_data_quality_checks st = (st, Some AirflowException))
  /\ should_retry AirflowException = true
  /\ take 3 (task_instances (dag_run env w))
     = [ti "setup_staging_table" success 1; ti "locate_csv" success 1;
        ti "load_staging" success 1]
  /\ drop 4 (task_instances (dag_run env w)) = map skipped downstream_of_gate
  /\ map ti_task_id (drop 4 (task_instances (dag_run env w)))
     = ["create_dim_tables"; "load_fact_table"; "calculate_volatility_view";
        "report_top_volatility"; "log_execution_summary"]
  /\ run_state (dag_run env w) = run_failed.
Proof.
  intros Hfs Hcopy Hq. unfold dag_run.
  rewrite (run_chain_rejected _ _ _ _ Hfs Hcopy Hq).
  split; [reflexivity|]. split; [|repeat split; reflexivity].
  intros st Hst. unfold run_data_quality_checks. rewrite Hst.
  destruct (quality_check_sql rows) as [[|]|]; [contradiction| |]; reflexivity.
Qed.

Lemma quality_violation_is_retried_witness :
  fs (env_of xyz_quotes) !! csv_path = Some (Fields <$> xyz_quotes)
  /\ get_task_instance "run_data_quality_checks"
       (dag_run (env_of xyz_quotes) empty_warehouse)
     = Some (ti "run_data_quality_checks" failed 4)
  /\ drop 4 (task_instances (dag_run (env_of xyz_quotes) empty_warehouse))
     = map skipped downstream_of_gate.
Proof.
  split; [reflexivity|].
  destruct (quality_violation_is_retried (env_of xyz_quotes) empty_warehouse
              (Fields <$> xyz_quotes) xyz_quotes)
    as (Hgate & _ & _ & _ & Hdown & _);
    [reflexivity | reflexivity | discriminate |].
  split; [exact Hgate | exact Hdown].
Defined.

(** C3 as stated fails: three staged rows make the predicate false, and the
    check is then attempted four times, not once. *)
Lemma quality_violation_single_attempt_fails :
  quality_check_sql xyz_quotes = Some false
  /\ exists t, get_task_instance "run_data_quality_checks"
                 (dag_run (env_of xyz_quotes) empty_warehouse) = Some t
               /\ try_number t = 4%nat /\ try_number t <> 1%nat.
Proof.
  split; [reflexivity|].
  exists (ti "run_data_quality_checks" failed 4).
  split; [vm_compute; reflexivity|]. split; [reflexivity | discriminate].
Qed.




(** ** The quality gate (C5, C6) *)

Lemma critical_null_range (r : Staging.row) :
  critical_null r = 0 \/ critical_null r = 1.
Proof. unfold critical_null. destruct (_ || _); auto. Qed.

Lemma critical_null_zero (r : Staging.row) :
  critical_null r = 0 <-> Staging.date r <> None /\ Staging.close r <> None.
Proof.
  unfold critical_null.
  destruct (Staging.close r), (Staging.date r); simpl; split; intros H;
    try discriminate; try (split; discriminate); destruct H; congruence.
Qed.

Lemma sum_critical_nonneg (rows : list Staging.row) :
  0 <= fold_right Z.add 0 (map critical_null rows).
Proof.
  induction rows as [|r rows IH]; simpl; [lia|].
  destruct (critical_null_range r) as [-> | ->]; lia.
Qed.

Lemma sum_critical_zero (rows : list Staging.row) :
  fold_right Z.add 0 (map critical_null rows) = 0
  <-> Forall (fun r => Staging.date r <> None /\ Staging.close r <> None) rows.
Proof.
  induction rows as [|r rows IH]; simpl.
  - split; [constructor | reflexivity].
  - pose proof (sum_critical_nonneg rows) as Hs.
    split.
    + intros H. destruct (critical_null_range r) as [Hr | Hr]; rewrite Hr in H; [|lia].
      constructor; [apply critical_null_zero, Hr | apply IH; lia].
    + intros H. apply Forall_cons in H as [Hr H].
      apply critical_null_zero in Hr. apply IH in H. lia.
Qed.

Lemma quality_check_holds (rows : list Staging.row) :
  quality_check_sql rows = Some true ->
  COUNT_star rows = 750000 /\ Forall complete rows.
Proof.
  unfold quality_check_sql, COUNT_star, complete.
  destruct rows as [|r rows]; [discriminate|].
  rewrite <- sum_critical_zero. cbn [SUM map sql_eqZ].
  destruct (Z.eqb_spec (Z.of_nat (length (r :: rows))) 750000) as [Hc|Hc];
  destruct (Z.eqb_spec (fold_right Z.add 0 (critical_null r :: map critical_null rows)) 0)
    as [Hs|Hs]; simpl; intros H; try discriminate. auto.
Qed.

Lemma quality_check_passes (rows : list Staging.row) :
  COUNT_star rows = 750000 -> Forall complete rows ->
  quality_check_sql rows = Some true.
Proof.
  unfold quality_check_sql, complete. intros Hc Hall.
  apply sum_critical_zero in Hall. rewrite Hc.
  destruct rows as [|r rows]; [discriminate|].
  cbn [SUM map sql_eqZ]. cbn [map] in Hall. rewrite Hall. reflexivity.
Qed.

(** C5, as amended.  The check holds exactly when staging has 750000 rows
    and no row has a NULL date or close; the count is the literal of the
    query, the check takes no parameter. *)
Theorem quality_check_iff (rows : list Staging.row) :
  quality_check_sql rows = Some true
  <-> COUNT_star rows = 750000
      /\ Forall (fun r => Staging.date r <> None /\ Staging.close r <> None) rows.
Proof.
  split.
  - apply quality_check_holds.
  - intros [Hcount Hall]. by apply quality_check_passes.
Qed.

(** C5 as stated fails: taken with 3 as the expected count, the gate of
    the specification accepts three complete rows; the check rejects them. *)
Lemma quality_gate_not_parameterized :
  quality_gate_spec 3 xyz_quotes = true
  /\ quality_check_sql xyz_quotes = Some false
  /\ run_data_quality_checks (after_load empty_warehouse xyz_quotes)
     = (after_load empty_warehouse xyz_quotes, Some AirflowException).
Proof. repeat split; reflexivity. Qed.

Lemma find_gate (a b c d : TaskInstance) (l : list TaskInstance) :
  ti_task_id a = "setup_staging_table" -> ti_task_id b = "locate_csv" ->
  ti_task_id c = "load_staging" -> ti_task_id d = "run_data_quality_checks" ->
  find (fun t => bool_decide (ti_task_id t = "run_data_quality_checks"))
       (a :: b :: c :: d :: l) = Some d.
Proof.
  intros Ha Hb Hc Hd. cbn [find]. rewrite Ha, Hb, Hc, Hd.
  rewrite !bool_decide_eq_false_2 by discriminate.
  rewrite bool_decide_eq_true_2 by reflexivity. reflexivity.
Qed.

(** The gate's task instance is [failed] only when the rows were staged and
    the check rejected them. *)
Lemma gate_failed_inv (env : Env) (w : Warehouse) (t : TaskInstance) :
  get_task_instance "run_data_quality_checks" (dag_run env w) = Some t ->
  ti_state t = failed ->
  exists (data : list csv_line) (rows : list Staging.row),
    fs env !! csv_path = Some data /\ COPY_staging data [] = Ok rows
    /\ quality_check_sql rows <> Some true.
Proof.
  unfold dag_run, get_task_instance. intros Hget Hfailed.
  destruct (fs env !! csv_path) as [data|] eqn:Hfs.
  - destruct (COPY_staging data []) as [rows|e] eqn:Hcopy.
    + destruct (decide (quality_check_sql rows = Some true)) as [Hq|Hq].
      * rewrite (run_chain_accepted _ _ _ _ Hfs Hcopy Hq) in Hget.
        cbn [task_instances] in Hget.
        rewrite find_gate in Hget by reflexivity.
        injection Hget as <-. discriminate.
      * exists data, rows. auto.
    + rewrite (run_chain_refused _ _ _ _ Hfs Hcopy) in Hget.
      vm_compute in Hget. injection Hget as <-. discriminate.
  - rewrite (run_chain_missing _ _ Hfs) in Hget.
    vm_compute in Hget. injection Hget as <-. discriminate.
Qed.

(** C6.  When the quality gate fails, the run is failed and the relations
    downstream of the gate are what they were before the run: the two
    dimensions, the fact table with its sequence, and the weekly view. *)
Theorem failed_gate_leaves_downstream_untouched (env : Env) (w : Warehouse)
  (t : TaskInstance) :
  get_task_instance "run_data_quality_checks" (dag_run env w) = Some t ->
  ti_state t = failed ->
  run_state (dag_run env w) = run_failed
  /\ fact_movimentacao_diaria (run_pipeline env w) = fact_movimentacao_diaria w
  /\ volatility_weekly (run_pipeline env w) = volatility_weekly w
  /\ dim_instrumento (run_pipeline env w) = dim_instrumento w
  /\ dim_tempo (run_pipeline env w) = dim_tempo w
  /\ fact_id_seq (run_pipeline env w) = fact_id_seq w.
Proof.
  intros Hget Hfailed.
  destruct (gate_failed_inv _ _ _ Hget Hfailed) as (data & rows & Hfs & Hcopy & Hq).
  unfold run_pipeline, dag_run.
  rewrite (run_chain_rejected _ _ _ _ Hfs Hcopy Hq).
  repeat split; reflexivity.
Qed.

Lemma failed_gate_leaves_downstream_untouched_witness :
  get_task_instance "run_data_quality_checks" (dag_run (env_of xyz_quotes) earlier_warehouse)
  = Some (ti "run_data_quality_checks" failed 4)
  /\ run_state (dag_run (env_of xyz_quotes) earlier_warehouse) = run_failed
  /\ fact_movimentacao_diaria (run_pipeline (env_of xyz_quotes) earlier_warehouse)
     = fact_movimentacao_diaria earlier_warehouse
  /\ volatility_weekly (run_pipeline (env_of xyz_quotes) earlier_warehouse)
     = volatility_weekly earlier_warehouse.
Proof.
  assert (H : get_task_instance "run_data_quality_checks"
                (dag_run (env_of xyz_quotes) earlier_warehouse)
              = Some (ti "run_data_quality_checks" failed 4))
    by (vm_compute; reflexivity).
  split; [exact H|].
  destruct (failed_gate_leaves_downstream_untouched
              (env_of xyz_quotes) earlier_warehouse _ H eq_refl)
    as (Hrun & Hfact & Hvol & _).
  auto.
Defined.

(** ** Invariants of a run *)

Section invariants.
Variable P : State -> Prop.

Lemma attempt_preserves (callable : State -> outcome) :
  (forall st st' e, P st -> callable st = (st', e) -> P st') ->
  forall n k st, P st -> P (snd (attempt callable n k st)).
Proof.
  intros Hc n. induction n as [|n IH]; intros k st Hst; simpl;
    destruct (callable st) as [st' [e|]] eqn:Hr; simpl; eauto.
  destruct (should_retry e); simpl; eauto.
Qed.

Lemma run_chain_preserves (env : Env) (tasks : list Operator) :
  Forall (fun t => forall st st' e, P st -> execute t env st = (st', e) -> P st') tasks ->
  forall b st, P st -> P (snd (run_chain env tasks b st)).
Proof.
  induction 1 as [|t rest Ht Hrest IH]; intros b st Hst; [exact Hst|].
  cbn [run_chain]. destruct b.
  - pose proof (attempt_preserves _ Ht default_args.retries 1%nat st Hst) as Ha.
    destruct (attempt (execute t env) default_args.retries 1 st) as [[s n] st'].
    specialize (IH (bool_decide (s = success)) st' Ha).
    destruct (run_chain env rest (bool_decide (s = success)) st'). exact IH.
  - specialize (IH false st Hst).
    destruct (run_chain env rest false st). exact IH.
Qed.
End invariants.

(** ** The dimensions (C8) *)

Lemma insert_dim_instrumento_grows sel :
  forall table table',
    insert_dim_instrumento sel table = Ok table' ->
    NoDup (map DimInstrumento.ticker table) ->
    NoDup (map DimInstrumento.ticker table') /\ table `prefix_of` table'.
Proof.
  induction sel as [|[[[t|] nome] tipo] rest IH]; intros table table'; simpl.
  - intros [= <-] Hnd. split; [exact Hnd | reflexivity].
  - case_bool_decide as Hin.
    + apply IH.
    + intros Hins Hnd. apply IH in Hins as [Hnd' Hpre].
      * split; [exact Hnd'|]. etrans; [|exact Hpre]. by apply prefix_app_r.
      * rewrite map_app. simpl. apply NoDup_app. split; [exact Hnd|].
        split; [|apply NoDup_singleton].
        intros x Hx Hx'. apply list_elem_of_singleton in Hx'. subst x. contradiction.
  - discriminate.
Qed.

Lemma insert_dim_tempo_grows sel :
  forall table table',
    insert_dim_tempo sel table = Ok table' ->
    NoDup (map DimTempo.data_id table) ->
    NoDup (map DimTempo.data_id table') /\ table `prefix_of` table'.
Proof.
  induction sel as [|[[[[d|] y] m] dow] rest IH]; intros table table'; simpl.
  - intros [= <-] Hnd. split; [exact Hnd | reflexivity].
  - case_bool_decide as Hin.
    + apply IH.
    + intros Hins Hnd. apply IH in Hins as [Hnd' Hpre].
      * split; [exact Hnd'|]. etrans; [|exact Hpre]. by apply prefix_app_r.
      * rewrite map_app. simpl. apply NoDup_app. split; [exact Hnd|].
        split; [|apply NoDup_singleton].
        intros x Hx Hx'. apply list_elem_of_singleton in Hx'. subst x. contradiction.
  - discriminate.
Qed.

Lemma dims_grown_from_refl (w : Warehouse) :
  NoDup (map DimInstrumento.ticker (instrumentos w)) ->
  NoDup (map DimTempo.data_id (tempos w)) ->
  dims_grown_from w w.
Proof. intros H1 H2. repeat split; auto. Qed.

Lemma dims_grown_from_trans (w0 w1 w2 : Warehouse) :
  dims_grown_from w0 w1 -> dims_grown_from w1 w2 -> dims_grown_from w0 w2.
Proof.
  intros (_ & _ & Hi & Ht) (Hn1 & Hn2 & Hi' & Ht').
  repeat split; auto; etrans; eassumption.
Qed.

Lemma create_dim_tables_grows (w0 : Warehouse) (st st' : State) (e : option exn) :
  dims_grown_from w0 (wh st) -> create_dim_tables st = (st', e) ->
  dims_grown_from w0 (wh st').
Proof.
  intros Hw. unfold create_dim_tables.
  destruct (staging (wh st)) as [rows|]; [|intros [= <- _]; exact Hw].
  destruct (insert_dim_instrumento _ _) as [di|e1] eqn:Hdi; [|intros [= <- _]; exact Hw].
  destruct (insert_dim_tempo _ _) as [dt|e2] eqn:Hdt; [|intros [= <- _]; exact Hw].
  intros [= <- _]. destruct Hw as (Hn1 & Hn2 & Hp1 & Hp2).
  apply insert_dim_instrumento_grows in Hdi as [Hn1' Hp1']; [|exact Hn1].
  apply insert_dim_tempo_grows in Hdt as [Hn2' Hp2']; [|exact Hn2].
  unfold dims_grown_from, instrumentos, tempos. simpl.
  repeat split; auto; etrans; eassumption.
Qed.

Ltac keeps_dims_tac :=
  intros st st' e; repeat case_match; intros [= <- _]; simpl; split; congruence.

Lemma setup_keeps_dims : keeps_dims setup_staging_table.
Proof. unfold keeps_dims, setup_staging_table, done. keeps_dims_tac. Qed.

Lemma locate_keeps_dims env : keeps_dims (_locate_csv env).
Proof. unfold keeps_dims, _locate_csv, done, failed_with. keeps_dims_tac. Qed.

Lemma load_keeps_dims env : keeps_dims (_load_staging env).
Proof. unfold keeps_dims, _load_staging, done, failed_with. keeps_dims_tac. Qed.

Lemma gate_keeps_dims : keeps_dims run_data_quality_checks.
Proof. unfold keeps_dims, run_data_quality_checks, done, failed_with. keeps_dims_tac. Qed.

Lemma fact_keeps_dims : keeps_dims load_fact_table.
Proof. unfold keeps_dims, load_fact_table, done, failed_with. keeps_dims_tac. Qed.

Lemma view_keeps_dims : keeps_dims calculate_volatility_view.
Proof. unfold keeps_dims, calculate_volatility_view, done, failed_with. keeps_dims_tac. Qed.

Lemma report_keeps_dims : keeps_dims _report_top_volatility.
Proof. unfold keeps_dims, _report_top_volatility, done, failed_with. keeps_dims_tac. Qed.

Lemma log_keeps_dims : keeps_dims _log_execution_summary.
Proof. unfold keeps_dims, _log_execution_summary, done. keeps_dims_tac. Qed.

Lemma keeps_dims_grows (w0 : Warehouse) (callable : State -> outcome) :
  keeps_dims callable ->
  forall st st' e, dims_grown_from w0 (wh st) -> callable st = (st', e) ->
                   dims_grown_from w0 (wh st').
Proof.
  intros Hk st st' e Hw Hc. destruct (Hk _ _ _ Hc) as [H1 H2].
  unfold dims_grown_from, instrumentos, tempos in *. rewrite H1, H2. exact Hw.
Qed.

Lemma run_pipeline_grows (env : Env) (w0 w : Warehouse) :
  dims_grown_from w0 w -> dims_grown_from w0 (run_pipeline env w).
Proof.
  intros Hw. unfold run_pipeline, dag_run.
  pose proof (run_chain_preserves (fun st => dims_grown_from w0 (wh st)) env dag) as H.
  destruct (run_chain env dag true (fresh_run w)) as [tis st] eqn:Hrun.
  simpl. change st with (snd (tis, st)). rewrite <- Hrun. apply H; [|exact Hw].
  unfold dag.
  repeat (first [apply List.Forall_nil | apply List.Forall_cons]); simpl.
  - apply keeps_dims_grows, setup_keeps_dims.
  - apply keeps_dims_grows, locate_keeps_dims.
  - apply keeps_dims_grows, load_keeps_dims.
  - apply keeps_dims_grows, gate_keeps_dims.
  - intros st0 st' e. apply create_dim_tables_grows.
  - apply keeps_dims_grows, fact_keeps_dims.
  - apply keeps_dims_grows, view_keeps_dims.
  - apply keeps_dims_grows, report_keeps_dims.
  - apply keeps_dims_grows, log_keeps_dims.
Qed.

Lemma run_pipelines_grows (envs : list Env) :
  forall w0 w, dims_grown_from w0 w -> dims_grown_from w0 (run_pipelines envs w).
Proof.
  induction envs as [|env envs IH]; intros w0 w Hw; simpl; [exact Hw|].
  apply IH, run_pipeline_grows, Hw.
Qed.

Lemma NoDup_map_key {A K : Type} (f : A -> K) (l : list A) (x y : A) :
  NoDup (map f l) -> x ∈ l -> y ∈ l -> f x = f y -> x = y.
Proof.
  induction l as [|a l IH]; simpl; intros Hnd Hx Hy Hf.
  - by apply elem_of_nil in Hx.
  - apply NoDup_cons in Hnd as [Ha Hnd].
    apply elem_of_cons in Hx as [-> | Hx]; apply elem_of_cons in Hy as [-> | Hy];
      auto.
    + exfalso. apply Ha. rewrite Hf. apply list_elem_of_fmap. eauto.
    + exfalso. apply Ha. rewrite <- Hf. apply list_elem_of_fmap. eauto.
Qed.

Example create_dim_tables_skips_conflicts :
  dim_instrumento (wh (fst (create_dim_tables overlapping_state)))
  = Some [{| DimInstrumento.ticker := "ABC";
             DimInstrumento.nome_ativo := Some "ABC Holdings";
             DimInstrumento.tipo_ativo := Some "ETF" |};
          {| DimInstrumento.ticker := "XYZ";
             DimInstrumento.nome_ativo := Some "Ativo XYZ";
             DimInstrumento.tipo_ativo := Some "Acao" |}]
  /\ dim_tempo (wh (fst (create_dim_tables overlapping_state)))
     = Some [{| DimTempo.data_id := 19723; DimTempo.ano := Some 2024;
                DimTempo.mes := Some 1; DimTempo.dia_da_semana := Some 1 |};
             {| DimTempo.data_id := 19724; DimTempo.ano := Some 2024;
                DimTempo.mes := Some 1; DimTempo.dia_da_semana := Some 2 |};
             {| DimTempo.data_id := 19725; DimTempo.ano := Some 2024;
                DimTempo.mes := Some 1; DimTempo.dia_da_semana := Some 3 |}].
Proof. split; vm_compute; reflexivity. Qed.

(** C8.  Whatever the sources of the runs, after any number of runs both
    dimensions have unique keys, and every row a dimension held after the
    earlier runs is still in it, unchanged, after the later ones. *)
Theorem dimensions_first_write_wins (earlier later : list Env) :
  let w1 := run_pipelines earlier empty_warehouse in
  let w2 := run_pipelines later w1 in
  NoDup (map DimInstrumento.ticker (instrumentos w2))
  /\ NoDup (map DimTempo.data_id (tempos w2))
  /\ (forall r, r ∈ instrumentos w1 -> r ∈ instrumentos w2)
  /\ (forall r, r ∈ tempos w1 -> r ∈ tempos w2)
  /\ (forall r r', r ∈ instrumentos w1 -> r' ∈ instrumentos w2 ->
                   DimInstrumento.ticker r' = DimInstrumento.ticker r -> r' = r)
  /\ (forall r r', r ∈ tempos w1 -> r' ∈ tempos w2 ->
                   DimTempo.data_id r' = DimTempo.data_id r -> r' = r).
Proof.
  intros w1 w2.
  assert (H1 : dims_grown_from empty_warehouse w1).
  { apply run_pipelines_grows, dims_grown_from_refl; constructor. }
  assert (H2 : dims_grown_from w1 w2).
  { apply run_pipelines_grows. destruct H1 as (? & ? & _). by apply dims_grown_from_refl. }
  destruct H2 as (Hn1 & Hn2 & [k1 Hp1] & [k2 Hp2]).
  assert (Hi : forall r, r ∈ instrumentos w1 -> r ∈ instrumentos w2).
  { intros r Hr. rewrite Hp1. apply elem_of_app. by left. }
  assert (Ht : forall r, r ∈ tempos w1 -> r ∈ tempos w2).
  { intros r Hr. rewrite Hp2. apply elem_of_app. by left. }
  repeat split; auto.
  - intros r r' Hr Hr' Hk. apply Hi in Hr.
    exact (NoDup_map_key DimInstrumento.ticker _ _ _ Hn1 Hr' Hr Hk).
  - intros r r' Hr Hr' Hk. apply Ht in Hr.
    exact (NoDup_map_key DimTempo.data_id _ _ _ Hn2 Hr' Hr Hk).
Qed.

(** ** The weekly view and its averages (C10) *)

Lemma omap_length_all {A B : Type} (f : A -> option B) (l : list A) :
  Forall (fun x => is_Some (f x)) l -> length (omap f l) = length l.
Proof.
  induction 1 as [|x l [y Hy] Hl IH]; [reflexivity|].
  cbn [omap list_omap]. rewrite Hy. cbn [length]. f_equal. exact IH.
Qed.


Lemma omap_id_skips_null {A : Type} (xs : list (option A)) :
  omap id xs = omap id (filter (fun x => is_Some x) xs).
Proof.
  induction xs as [|[x|] xs IH]; [reflexivity| |].
  - rewrite filter_cons_True by eauto.
    change (omap id (Some x :: xs)) with (x :: omap id xs).
    change (omap id (Some x :: filter (fun x => is_Some x) xs))
      with (x :: omap id (filter (fun x => is_Some x) xs)).
    by rewrite IH.
  - rewrite filter_cons_False by (intros [? ?]; discriminate). exact IH.
Qed.

Lemma AVG_skips_null (xs : list (option numeric)) :
  AVG xs = AVG (filter (fun x => is_Some x) xs).
Proof. unfold AVG. by rewrite <- omap_id_skips_null. Qed.








(** ** The window order *)

Section nulls_last.
Context {A : Type} (R : relation A).

Lemma nulls_last_total `{!Total R} : Total (nulls_last R).
Proof. intros [x|] [y|]; simpl; auto; apply total; apply _. Qed.

Lemma nulls_last_trans `{!Transitive R} : Transitive (nulls_last R).
Proof. intros [x|] [y|] [z|]; simpl; try tauto. apply transitivity. Qed.

Lemma nulls_last_antisym `{!AntiSymm (=) R} (a b : option A) :
  nulls_last R a b -> nulls_last R b a -> a = b.
Proof.
  destruct a as [x|], b as [y|]; simpl; try tauto.
  intros H1 H2. f_equal. by apply (anti_symm R).
Qed.
End nulls_last.

Lemma nulls_last_string_refl (s : option string) : nulls_last String.le s s.
Proof. destruct s; simpl; [reflexivity | exact I]. Qed.

#[global] Instance window_le_total : Total window_le.
Proof.
  intros r1 r2. unfold window_le.
  destruct (decide (nulls_last String.le (Staging.symbol r1) (Staging.symbol r2)))
    as [H12|H12];
  destruct (decide (nulls_last String.le (Staging.symbol r2) (Staging.symbol r1)))
    as [H21|H21].
  - destruct (nulls_last_total Z.le (Staging.date r1) (Staging.date r2)); auto.
  - left. split; [exact H12|]. intros Heq. exfalso. apply H21. rewrite Heq.
    apply nulls_last_string_refl.
  - right. split; [exact H21|]. intros Heq. exfalso. apply H12. rewrite Heq.
    apply nulls_last_string_refl.
  - destruct (nulls_last_total String.le (Staging.symbol r1) (Staging.symbol r2));
      contradiction.
Qed.

#[global] Instance window_le_trans : Transitive window_le.
Proof.
  intros r1 r2 r3 [Hs12 Hd12] [Hs23 Hd23]. split.
  - eapply nulls_last_trans; [apply _ | eassumption..].
  - intros Heq.
    assert (H21 : Staging.symbol r2 = Staging.symbol r1).
    { apply (nulls_last_antisym String.le); [|exact Hs12]. by rewrite Heq. }
    eapply nulls_last_trans; [apply _ | apply Hd12; by symmetry |].
    apply Hd23. by rewrite H21.
Qed.

Lemma window_sort_sorted (rows : list Staging.row) :
  StronglySorted window_le (window_sort rows).
Proof. apply StronglySorted_merge_sort; apply _. Qed.

Lemma window_sort_perm (rows : list Staging.row) : window_sort rows ≡ₚ rows.
Proof. apply merge_sort_Permutation. Qed.

(** Between two rows of one symbol, the sorted rows hold only that symbol. *)
Lemma window_le_between (a b c : Staging.row) :
  window_le a b -> window_le b c -> Staging.symbol a = Staging.symbol c ->
  Staging.symbol b = Staging.symbol c.
Proof.
  intros [Hab _] [Hbc _] Heq.
  apply (nulls_last_antisym String.le); [exact Hbc | by rewrite <- Heq].
Qed.

Lemma window_le_dates (a b : Staging.row) (x y : Z) :
  window_le a b -> Staging.symbol a = Staging.symbol b ->
  Staging.date a = Some x -> Staging.date b = Some y -> x <= y.
Proof. intros [_ H] Heq Ha Hb. specialize (H Heq). by rewrite Ha, Hb in H. Qed.

(** ** The fact table (C1, C2) *)

(** The expression never raises: a zero divisor was turned into NULL. *)
Lemma variacao_expr_ok (close lag : option numeric) :
  variacao_expr close lag = Ok (variacao close lag).
Proof.
  unfold variacao_expr, variacao, sql_sub, NULLIF, sql_div, sql_mul.
  destruct close as [c|], lag as [p|]; simpl; try reflexivity;
    rewrite numeric_eqb_zero; destruct (unscaled p =? 0) eqn:Hp; simpl;
    try reflexivity.
  rewrite numeric_eqb_zero, Hp. reflexivity.
Qed.

(** The [SELECT] gives every row its id while the sequence lasts. *)
Lemma select_fact_ok (sel : list (Staging.row * option numeric)) :
  forall seq,
    sel = [] \/ seq + Z.of_nat (length sel) <= SERIAL_MAX ->
    select_fact seq sel = (seq + Z.of_nat (length sel), Ok (fact_rows seq sel)).
Proof.
  induction sel as [|[s lag] rest IH]; intros seq Hseq.
  - simpl. by rewrite Z.add_0_r.
  - destruct Hseq as [|Hseq]; [discriminate|].
    cbn [select_fact fact_rows]. rewrite variacao_expr_ok. unfold nextval.
    cbn [length] in Hseq.
    destruct (Z.ltb_spec seq SERIAL_MAX) as [_|Hge]; [|lia].
    rewrite IH by (right; lia). cbn [bind length]. f_equal. lia.
Qed.

(** It raises when the sequence runs out, which is then at its end. *)
Lemma select_fact_exhausted (sel : list (Staging.row * option numeric)) :
  forall seq,
    sel <> [] -> SERIAL_MAX < seq + Z.of_nat (length sel) ->
    select_fact seq sel
    = (Z.max seq SERIAL_MAX, Raise (DatabaseError SequenceGeneratorLimitExceeded)).
Proof.
  induction sel as [|[s lag] rest IH]; intros seq Hne Hseq; [contradiction|].
  cbn [select_fact]. rewrite variacao_expr_ok. unfold nextval.
  cbn [length] in Hseq.
  destruct (Z.ltb_spec seq SERIAL_MAX) as [Hlt|Hge].
  - rewrite IH.
    + cbn [bind]. f_equal. lia.
    + intros ->. simpl in Hseq. lia.
    + lia.
  - f_equal. lia.
Qed.

Lemma select_fact_cases (sel : list (Staging.row * option numeric)) (seq : Z) :
  ((sel = [] \/ seq + Z.of_nat (length sel) <= SERIAL_MAX)
   /\ select_fact seq sel = (seq + Z.of_nat (length sel), Ok (fact_rows seq sel)))
  \/ (sel <> [] /\ SERIAL_MAX < seq + Z.of_nat (length sel)
      /\ select_fact seq sel
         = (Z.max seq SERIAL_MAX,
            Raise (DatabaseError SequenceGeneratorLimitExceeded))).
Proof.
  destruct sel as [|x sel'] eqn:Hsel.
  - left. split; [by left|]. apply select_fact_ok. by left.
  - rewrite <- Hsel.
    destruct (Z.le_gt_cases (seq + Z.of_nat (length sel)) SERIAL_MAX) as [Hle|Hgt].
    + left. split; [by right|]. apply select_fact_ok. by right.
    + right. split; [by rewrite Hsel|]. split; [lia|].
      apply select_fact_exhausted; [by rewrite Hsel | lia].
Qed.

Lemma elem_of_fact_rows (sel : list (Staging.row * option numeric)) (f : Fact.row) :
  forall seq, f ∈ fact_rows seq sel ->
              exists i s lag, (s, lag) ∈ sel /\ f = fact_row i s lag.
Proof.
  induction sel as [|[s lag] rest IH]; intros seq; simpl.
  - intros H. by apply elem_of_nil in H.
  - intros [-> | H]%elem_of_cons.
    + exists (seq + 1), s, lag. split; [left | reflexivity].
    + destruct (IH _ H) as (i & s' & lag' & Hin & ->).
      exists i, s', lag'. split; [by right | reflexivity].
Qed.

Lemma fact_rows_elem_of (sel : list (Staging.row * option numeric))
  (s : Staging.row) (lag : option numeric) :
  (s, lag) ∈ sel -> forall seq, exists i, fact_row i s lag ∈ fact_rows seq sel.
Proof.
  induction sel as [|[s' lag'] rest IH]; simpl.
  - intros H. by apply elem_of_nil in H.
  - intros [[= -> ->] | H]%elem_of_cons seq.
    + exists (seq + 1). left.
    + destruct (IH H (seq + 1)) as [i Hi]. exists i. by right.
Qed.

Lemma predecessor_cons (prev : option Staging.row) (r : Staging.row)
  (l1 : list Staging.row) :
  predecessor prev (r :: l1) = predecessor (Some r) l1.
Proof.
  unfold predecessor. destruct l1 as [|x l1]; [reflexivity|].
  rewrite last_cons. destruct (last (x :: l1)) eqn:H; [reflexivity|].
  apply last_None in H. discriminate.
Qed.

Lemma with_lag_close_head (prev : option Staging.row) (r : Staging.row)
  (rest : list Staging.row) :
  with_lag_close prev (r :: rest)
  = (r, lag_after prev r) :: with_lag_close (Some r) rest.
Proof. destruct prev; reflexivity. Qed.

(** Every pair of the window is a row of the sorted list with the lag its
    predecessor gives it. *)
Lemma elem_of_with_lag_close (l : list Staging.row) :
  forall prev s lag,
    (s, lag) ∈ with_lag_close prev l ->
    exists l1 l2, l = l1 ++ s :: l2 /\ lag = lag_after (predecessor prev l1) s.
Proof.
  induction l as [|r rest IH]; intros prev s lag.
  - intros H. by apply elem_of_nil in H.
  - rewrite with_lag_close_head. intros [[= -> ->] | H]%elem_of_cons.
    + exists [], rest. split; reflexivity.
    + destruct (IH _ _ _ H) as (l1 & l2 & -> & ->).
      exists (r :: l1), l2. split; [reflexivity|]. by rewrite predecessor_cons.
Qed.

Lemma with_lag_close_elem_of (l1 l2 : list Staging.row) (s : Staging.row) :
  forall prev,
    (s, lag_after (predecessor prev l1) s) ∈ with_lag_close prev (l1 ++ s :: l2).
Proof.
  induction l1 as [|r l1 IH]; intros prev.
  - simpl app. rewrite with_lag_close_head. left.
  - rewrite predecessor_cons. simpl app. rewrite with_lag_close_head. right. apply IH.
Qed.

Lemma complete_date (r : Staging.row) : complete r -> exists x, Staging.date r = Some x.
Proof. intros [H _]. destruct (Staging.date r) as [x|]; [eauto | contradiction]. Qed.

Lemma complete_close (r : Staging.row) : complete r -> exists c, Staging.close r = Some c.
Proof. intros [_ H]. destruct (Staging.close r) as [c|]; [eauto | contradiction]. Qed.

Section sorted_window.
Variables (l1 l2 : list Staging.row) (s : Staging.row).
Hypothesis Hsorted : StronglySorted window_le (l1 ++ s :: l2).
Hypothesis Hcomplete : Forall complete (l1 ++ s :: l2).

Lemma sorted_before (q : Staging.row) : q ∈ l1 -> window_le q s.
Proof.
  intros Hq. apply (StronglySorted_app_1_elem_of _ _ _ _ _ Hsorted Hq). left.
Qed.

Lemma sorted_after (q : Staging.row) : q ∈ l2 -> window_le s q.
Proof.
  intros Hq. apply StronglySorted_app_1_r in Hsorted.
  apply StronglySorted_cons in Hsorted as [H _].
  by apply (proj1 (Forall_forall _ _) H).
Qed.

Lemma complete_s : complete s.
Proof. apply (proj1 (Forall_forall _ _) Hcomplete). apply elem_of_app. right. left. Qed.

Lemma not_after_same_symbol (a b : Staging.row) :
  complete a -> complete b -> window_le a b ->
  Staging.symbol a = Staging.symbol b ->
  not_after (Staging.date a) (Staging.date b).
Proof.
  intros [x Hx]%complete_date [y Hy]%complete_date Hle Heq.
  rewrite Hx, Hy. simpl. exact (window_le_dates _ _ _ _ Hle Heq Hx Hy).
Qed.

(** A row that its predecessor gives no lag is the first of its symbol. *)
Lemma first_of_partition :
  (forall p, last l1 = Some p -> Staging.symbol p <> Staging.symbol s) ->
  earliest_date (l1 ++ s :: l2) (Staging.symbol s) (Staging.date s).
Proof.
  intros Hfirst q Hq Hsym.
  apply elem_of_app in Hq as [Hq | Hq]; [|apply elem_of_cons in Hq as [-> | Hq]].
  - exfalso. destruct (last l1) as [p|] eqn:Hlast.
    + apply (Hfirst p eq_refl).
      apply last_Some in Hlast as [l1' Hl1].
      pose proof Hsorted as Hs'. rewrite Hl1, <- !(assoc_L (++)) in Hs'.
      assert (Hpl : p ∈ l1) by (rewrite Hl1; apply elem_of_app; right; left).
      rewrite Hl1 in Hq.
      apply elem_of_app in Hq as [Hq | ->%list_elem_of_singleton]; [|exact Hsym].
      eapply window_le_between; [|apply sorted_before, Hpl|exact Hsym].
      apply (StronglySorted_app_1_elem_of _ _ _ _ _ Hs' Hq). left.
    + apply last_None in Hlast. subst l1. by apply elem_of_nil in Hq.
  - destruct (complete_date _ complete_s) as [x Hx]. rewrite Hx. simpl. lia.
  - apply not_after_same_symbol; [apply complete_s | | by apply sorted_after | by symmetry].
    apply (proj1 (Forall_forall _ _) Hcomplete). apply elem_of_app. right. by right.
Qed.

(** A row whose predecessor is of its symbol has it as the quote of the
    date before, when no two rows share symbol and date. *)
Lemma predecessor_precedes (p : Staging.row) :
  NoDup (map quote_key (l1 ++ s :: l2)) ->
  last l1 = Some p -> Staging.symbol p = Staging.symbol s ->
  preceding_quote (l1 ++ s :: l2) (Staging.symbol s) (Staging.date s) p.
Proof.
  intros Hnd Hlast Hsym. apply last_Some in Hlast as [l1' Hl1].
  assert (Hpl : p ∈ l1) by (rewrite Hl1; apply elem_of_app; right; left).
  assert (Hp : complete p).
  { apply (proj1 (Forall_forall _ _) Hcomplete). apply elem_of_app. by left. }
  pose proof (sorted_before _ Hpl) as Hps.
  pose proof Hsorted as Hs'. rewrite Hl1, <- !(assoc_L (++)) in Hs'.
  destruct (complete_date _ Hp) as [x Hx].
  destruct (complete_date _ complete_s) as [y Hy].
  pose proof (window_le_dates _ _ _ _ Hps Hsym Hx Hy) as Hxy.
  assert (Hne : x <> y).
  { intros ->. rewrite Hl1, <- (assoc_L (++)), map_app in Hnd.
    apply NoDup_app in Hnd as (_ & _ & Hnd). simpl in Hnd.
    apply NoDup_cons in Hnd as [Hnd _]. apply Hnd.
    replace (quote_key p) with (quote_key s); [left|].
    unfold quote_key. by rewrite Hsym, Hx, Hy. }
  split; [|split; [exact Hsym|split]].
  - apply elem_of_app. by left.
  - rewrite Hx, Hy. simpl. lia.
  - intros q Hq Hqs Hbefore.
    apply elem_of_app in Hq as [Hq | Hq]; [|apply elem_of_cons in Hq as [-> | Hq]].
    + assert (Hq' : complete q).
      { apply (proj1 (Forall_forall _ _) Hcomplete). apply elem_of_app. by left. }
      rewrite Hl1 in Hq.
      apply elem_of_app in Hq as [Hq | ->%list_elem_of_singleton].
      * apply not_after_same_symbol; [exact Hq' | exact Hp | | congruence].
        apply (StronglySorted_app_1_elem_of _ _ _ _ _ Hs' Hq). left.
      * rewrite Hx. simpl. lia.
    + rewrite Hy in Hbefore. simpl in Hbefore. lia.
    + exfalso.
      assert (Hq' : complete q).
      { apply (proj1 (Forall_forall _ _) Hcomplete). apply elem_of_app. right. by right. }
      pose proof (not_after_same_symbol _ _ complete_s Hq' (sorted_after _ Hq)
                    (eq_sym Hqs)) as Hsq.
      destruct (Staging.date q) as [z|]; rewrite Hy in *; simpl in *; lia.
Qed.
End sorted_window.

Lemma earliest_date_perm (l rows : list Staging.row) t d :
  l ≡ₚ rows -> earliest_date l t d -> earliest_date rows t d.
Proof. intros Hp H q Hq. apply H. by rewrite Hp. Qed.

Lemma preceding_quote_perm (l rows : list Staging.row) t d p :
  l ≡ₚ rows -> preceding_quote l t d p -> preceding_quote rows t d p.
Proof.
  intros Hp (Hin & Hs & Hb & Hmax). split; [by rewrite <- Hp|].
  split; [exact Hs|]. split; [exact Hb|].
  intros q Hq. apply Hmax. by rewrite Hp.
Qed.

Lemma earliest_not_preceded (rows : list Staging.row) t d p :
  earliest_date rows t d -> preceding_quote rows t d p -> False.
Proof.
  intros He (Hin & Hs & Hb & _). specialize (He p Hin Hs).
  destruct d as [y|], (Staging.date p) as [x|]; simpl in *; lia.
Qed.

Lemma preceding_quote_unique (rows : list Staging.row) t d p p' :
  NoDup (map quote_key rows) ->
  preceding_quote rows t d p -> preceding_quote rows t d p' -> p = p'.
Proof.
  intros Hnd (Hin & Hs & Hb & Hmax) (Hin' & Hs' & Hb' & Hmax').
  apply (NoDup_map_key quote_key rows); auto.
  specialize (Hmax p' Hin' Hs' Hb'). specialize (Hmax' p Hin Hs Hb).
  unfold quote_key. rewrite Hs, Hs'. f_equal.
  destruct (Staging.date p) as [x|], (Staging.date p') as [x'|]; simpl in *;
    try contradiction. f_equal. lia.
Qed.

(** What the window gives a row at a position of the sorted rows. *)
Lemma lag_at_position (rows l1 l2 : list Staging.row) (s : Staging.row) :
  Forall complete rows -> NoDup (map quote_key rows) ->
  window_sort rows = l1 ++ s :: l2 ->
  (lag_after (predecessor None l1) s = None
   /\ earliest_date rows (Staging.symbol s) (Staging.date s))
  \/ (exists p, lag_after (predecessor None l1) s = Staging.close p
                /\ preceding_quote rows (Staging.symbol s) (Staging.date s) p).
Proof.
  intros Hc Hnd Hl.
  pose proof (window_sort_perm rows) as Hperm.
  pose proof (window_sort_sorted rows) as Hsorted.
  assert (Hc' : Forall complete (l1 ++ s :: l2)) by (by rewrite <- Hl, Hperm).
  assert (Hnd' : NoDup (map quote_key (l1 ++ s :: l2))).
  { rewrite <- Hl. by rewrite Hperm. }
  rewrite Hl in Hsorted, Hperm.
  unfold predecessor, lag_after.
  destruct (last l1) as [p|] eqn:Hlast.
  - case_bool_decide as Hsym.
    + right. exists p. split; [reflexivity|].
      eapply preceding_quote_perm; [exact Hperm|].
      by apply predecessor_precedes.
    + left. split; [reflexivity|].
      eapply earliest_date_perm; [exact Hperm|].
      apply first_of_partition; auto. intros p' Hp'. rewrite Hlast in Hp'.
      injection Hp' as <-. exact Hsym.
  - left. split; [reflexivity|].
    eapply earliest_date_perm; [exact Hperm|].
    apply first_of_partition; auto. intros p' Hp'. rewrite Hlast in Hp'.
    discriminate.
Qed.

Lemma load_fact_table_done (st st' : State) (rows : list Staging.row) :
  staging (wh st) = Some rows -> load_fact_table st = (st', None) ->
  exists seq,
    fact_movimentacao_diaria (wh st')
    = Some (fact_rows seq (with_lag_close None (window_sort rows))).
Proof.
  intros Hst. unfold load_fact_table. rewrite Hst.
  destruct (dim_instrumento (wh st)) as [di|]; [|discriminate].
  destruct (dim_tempo (wh st)) as [dt|]; [|discriminate].
  destruct (select_fact_cases (with_lag_close None (window_sort rows))
              (match fact_movimentacao_diaria (wh st) with
               | None => 0
               | Some _ => fact_id_seq (wh st)
               end)) as [[_ ->]|(_ & _ & ->)]; [|discriminate].
  destruct (forallb _ _); [|discriminate].
  intros [= <-]. eexists. reflexivity.
Qed.

Lemma variacao_null (c : numeric) (lag : option numeric) :
  variacao (Some c) lag = None <-> lag = None \/ is_zero lag.
Proof.
  unfold variacao, is_zero. destruct lag as [p|]; [|tauto].
  destruct (Z.eqb_spec (unscaled p) 0) as [Hp|Hp]; [tauto|].
  split; [discriminate|]. intros [H|H]; [discriminate | contradiction].
Qed.

(** C1, as amended.  When the staged rows have no NULL date or close (what
    the gate checks) and no two of them share ticker and date, a row of the
    fact table has a NULL [variacao_diaria] exactly when its date is the
    earliest staged date of its ticker or the close of the ticker on the
    date before is zero. *)
Theorem variacao_null_iff (st st' : State) (rows : list Staging.row) :
  staging (wh st) = Some rows ->
  Forall complete rows -> NoDup (map quote_key rows) ->
  load_fact_table st = (st', None) ->
  exists facts,
    fact_movimentacao_diaria (wh st') = Some facts
    /\ forall f, f ∈ facts ->
         (Fact.variacao_diaria f = None
          <-> earliest_date rows (Fact.ticker f) (Fact.data_id f)
              \/ exists p, preceding_quote rows (Fact.ticker f) (Fact.data_id f) p
                           /\ is_zero (Staging.close p)).
Proof.
  intros Hst Hc Hnd Hload.
  destruct (load_fact_table_done _ _ _ Hst Hload) as [seq Hfacts].
  eexists. split; [exact Hfacts|]. intros f Hf.
  apply elem_of_fact_rows in Hf as (i & s & lag & Hin & ->).
  apply elem_of_with_lag_close in Hin as (l1 & l2 & Hl & ->).
  assert (Hs : complete s).
  { apply (proj1 (Forall_forall _ _) Hc). rewrite <- (window_sort_perm rows), Hl.
    apply elem_of_app. right. left. }
  destruct (complete_close _ Hs) as [c Hclose].
  cbn [fact_row Fact.variacao_diaria Fact.ticker Fact.data_id].
  rewrite Hclose, variacao_null.
  destruct (lag_at_position _ _ _ _ Hc Hnd Hl) as [[Hlag He] | (p & Hlag & Hp)];
    rewrite Hlag.
  - split; auto.
  - assert (Hpc : complete p).
    { apply (proj1 (Forall_forall _ _) Hc). apply Hp. }
    destruct (complete_close _ Hpc) as [c' Hc']. split.
    + intros [H|H]; [congruence|]. right. eauto.
    + intros [He | (p' & Hp' & Hz)].
      * exfalso. eapply earliest_not_preceded; eauto.
      * right. by rewrite (preceding_quote_unique _ _ _ _ _ Hnd Hp Hp').
Qed.

Lemma xyz_quotes_complete : Forall complete xyz_quotes.
Proof. repeat constructor; discriminate. Qed.

Lemma xyz_quotes_distinct : NoDup (map quote_key xyz_quotes).
Proof. apply (bool_decide_unpack _). vm_compute. exact I. Qed.

Lemma variacao_null_iff_witness :
  Forall complete xyz_quotes /\ NoDup (map quote_key xyz_quotes)
  /\ exists facts,
       fact_movimentacao_diaria (wh (fst (load_fact_table (staged xyz_quotes))))
       = Some facts
       /\ forall f, f ∈ facts ->
            (Fact.variacao_diaria f = None
             <-> earliest_date xyz_quotes (Fact.ticker f) (Fact.data_id f)
                 \/ exists p, preceding_quote xyz_quotes (Fact.ticker f) (Fact.data_id f) p
                              /\ is_zero (Staging.close p)).
Proof.
  split; [exact xyz_quotes_complete|]. split; [exact xyz_quotes_distinct|].
  apply (variacao_null_iff (staged xyz_quotes) _ xyz_quotes);
    [reflexivity | exact xyz_quotes_complete | exact xyz_quotes_distinct
    | vm_compute; reflexivity].
Defined.

(** C1 as stated fails: with two quotes of XYZ on its first day, the fact
    row of the second has that earliest date and a [variacao_diaria] that
    is not NULL. *)
Lemma variacao_of_repeated_first_day :
  exists f,
    f ∈ facts_after (staged repeated_first_quotes)
    /\ earliest_date repeated_first_quotes (Fact.ticker f) (Fact.data_id f)
    /\ Fact.variacao_diaria f = Some (percent 0)
    /\ Fact.variacao_diaria f <> None.
Proof.
  exists (fact_row 2 (quote 19723 "XYZ" 10) (Some (numeric_of_Z 10))).
  split; [|split; [|split; [reflexivity | discriminate]]].
  - assert (H : facts_after (staged repeated_first_quotes)
                = [fact_row 1 (quote 19723 "XYZ" 10) None;
                   fact_row 2 (quote 19723 "XYZ" 10) (Some (numeric_of_Z 10));
                   fact_row 3 (quote 19724 "XYZ" 12) (Some (numeric_of_Z 10))])
      by (vm_compute; reflexivity).
    rewrite H. right. left.
  - intros q Hq _. unfold repeated_first_quotes in Hq.
    repeat (apply elem_of_cons in Hq as [-> | Hq]); simpl; try lia.
    by apply elem_of_nil in Hq.
Qed.

(** The change over a close that is not zero: the difference, exact,
    divided by the close the way NUMERIC divides, times 100, exact again.
    It is the percentage to sixteen significant digits. *)
Lemma variacao_value (c c' : numeric) :
  unscaled c' <> 0 ->
  variacao (Some c) (Some c')
  = Some (numeric_mul (numeric_div (numeric_sub c c') c') (numeric_of_Z 100)).
Proof.
  intros Hnz. unfold variacao.
  by rewrite (proj2 (Z.eqb_neq _ _) Hnz).
Qed.

Lemma variacao_near (c c' : numeric) :
  unscaled c' <> 0 ->
  (Qabs (num_value (numeric_mul (numeric_div (numeric_sub c c') c') (numeric_of_Z 100))
         - (num_value c - num_value c') / num_value c' * 100)
   <= 100 * div_bound ((num_value c - num_value c') / num_value c'))%Q.
Proof.
  intros Hnz.
  pose proof (numeric_div_error (numeric_sub c c') c' Hnz) as Hq.
  unfold div_bound in *. rewrite num_value_sub in Hq.
  rewrite num_value_mul, num_value_of_Z.
  2:{ pose proof (select_div_scale_le (numeric_sub c c') c').
      unfold numeric_div, div_var, numeric_of_Z, NUMERIC_DSCALE_MAX.
      cbn [dscale]. lia. }
  set (q := num_value (numeric_div (numeric_sub c c') c')) in *.
  set (e := ((num_value c - num_value c') / num_value c')%Q) in *.
  assert (E : (q * inject_Z 100 - e * 100 == (q - e) * 100)%Q) by ring.
  rewrite E, Qabs_Qmult. change (Qabs 100) with 100%Q.
  pose proof (Qabs_nonneg (q - e)). pose proof (Qabs_nonneg e).
  pose proof (ten_pos (-17)). pose proof (ten_pos (-1001)).
  lra.
Qed.

Lemma select_fact_error (sel : list (Staging.row * option numeric)) (seq seq' : Z)
  (e : exn) :
  select_fact seq sel = (seq', Raise e) ->
  e = DatabaseError SequenceGeneratorLimitExceeded.
Proof.
  destruct (select_fact_cases sel seq) as [[_ ->]|(_ & _ & ->)]; congruence.
Qed.

Lemma load_fact_table_no_division_error (st : State) :
  snd (load_fact_table st) <> Some (DatabaseError DivisionByZero).
Proof.
  unfold load_fact_table.
  destruct (dim_instrumento (wh st)); [|discriminate].
  destruct (dim_tempo (wh st)); [|discriminate].
  destruct (staging (wh st)); [|discriminate].
  destruct (select_fact _ _) as [seq' [facts|e]] eqn:Hsel.
  - destruct (forallb _ _); discriminate.
  - apply select_fact_error in Hsel as ->. discriminate.
Qed.

(** The fact row of a staged row that has a quote on the date before. *)
Lemma fact_of_preceded_row (st st' : State) (rows : list Staging.row)
  (r p : Staging.row) :
  staging (wh st) = Some rows ->
  Forall complete rows -> NoDup (map quote_key rows) ->
  load_fact_table st = (st', None) ->
  r ∈ rows -> preceding_quote rows (Staging.symbol r) (Staging.date r) p ->
  exists facts i,
    fact_movimentacao_diaria (wh st') = Some facts
    /\ fact_row i r (Staging.close p) ∈ facts.
Proof.
  intros Hst Hc Hnd Hload Hr Hp.
  destruct (load_fact_table_done _ _ _ Hst Hload) as [seq Hfacts].
  rewrite <- (window_sort_perm rows) in Hr.
  apply list_elem_of_split in Hr as (l1 & l2 & Hl).
  pose proof (with_lag_close_elem_of l1 l2 r None) as Hin. rewrite <- Hl in Hin.
  destruct (lag_at_position _ _ _ _ Hc Hnd Hl) as [[_ He] | (p' & Hlag & Hp')].
  - exfalso. eapply earliest_not_preceded; eauto.
  - rewrite Hlag, <- (preceding_quote_unique _ _ _ _ _ Hnd Hp Hp') in Hin.
    destruct (fact_rows_elem_of _ _ _ Hin seq) as [i Hi].
    eexists _, i. split; [exact Hfacts | exact Hi].
Qed.

(** C2, as amended.  When the staged rows have no NULL date or close and no
    two of them share ticker and date, every staged row that has a quote of
    its ticker on the date before gets a fact row whose [variacao_diaria]
    is NULL when the close of that quote is zero and otherwise the NUMERIC
    value of [(close - previous_close) / previous_close * 100]: the
    difference and the product are exact and the quotient is rounded as
    NUMERIC division rounds, so that the value is the percentage to
    sixteen significant digits (or a thousand decimals).  The step never
    ends with a division error.  Closes 10, 12, 9 on three consecutive dates
    give NULL, 20.00000000000000000000 and -25.00000000000000000000; closes
    3 and 4 give 33.33333333333333333300, which is not 100/3, and closes 3
    and 5, or 3 and 1, give 66.66666666666666666700 with its sign, a half
    being rounded away from zero. *)
Theorem variacao_is_percentage_change :
  (forall (st st' : State) (rows : list Staging.row) (r p : Staging.row)
          (c c' : numeric),
      staging (wh st) = Some rows ->
      Forall complete rows -> NoDup (map quote_key rows) ->
      load_fact_table st = (st', None) ->
      r ∈ rows -> preceding_quote rows (Staging.symbol r) (Staging.date r) p ->
      Staging.close r = Some c -> Staging.close p = Some c' ->
      exists facts f,
        fact_movimentacao_diaria (wh st') = Some facts /\ f ∈ facts
        /\ Fact.ticker f = Staging.symbol r /\ Fact.data_id f = Staging.date r
        /\ Fact.close f = Some c
        /\ (unscaled c' = 0 -> Fact.variacao_diaria f = None)
        /\ (unscaled c' <> 0 ->
            exists v,
              Fact.variacao_diaria f = Some v
              /\ v = numeric_mul (numeric_div (numeric_sub c c') c') (numeric_of_Z 100)
              /\ (Qabs (num_value v
                        - (num_value c - num_value c') / num_value c' * 100)
                   <= 100 * div_bound ((num_value c - num_value c') / num_value c'))%Q))
  /\ (forall st, snd (load_fact_table st) <> Some (DatabaseError DivisionByZero))
  /\ map Fact.variacao_diaria (facts_after (staged xyz_quotes))
     = [None; Some (Numeric 2000000000000000000000 20);
        Some (Numeric (-2500000000000000000000) 20)]
  /\ (num_value (Numeric 2000000000000000000000 20) == 20)%Q
  /\ (num_value (Numeric (-2500000000000000000000) 20) == -25)%Q
  /\ variacao_expr (Some (numeric_of_Z 4)) (Some (numeric_of_Z 3))
     = Ok (Some (Numeric 3333333333333333333300 20))
  /\ ~ (num_value (Numeric 3333333333333333333300 20) == (4 - 3) / 3 * 100)%Q
  /\ variacao_expr (Some (numeric_of_Z 5)) (Some (numeric_of_Z 3))
     = Ok (Some (Numeric 6666666666666666666700 20))
  /\ variacao_expr (Some (numeric_of_Z 1)) (Some (numeric_of_Z 3))
     = Ok (Some (Numeric (-6666666666666666666700) 20)).
Proof.
  split; [|split; [exact load_fact_table_no_division_error|]].
  2:{ split; [vm_compute; reflexivity|]. split; [reflexivity|].
      split; [reflexivity|]. split; [vm_compute; reflexivity|].
      split; [discriminate|]. split; vm_compute; reflexivity. }
  intros st st' rows r p c c' Hst Hc Hnd Hload Hr Hp Hrc Hpc.
  destruct (fact_of_preceded_row _ _ _ _ _ Hst Hc Hnd Hload Hr Hp)
    as (facts & i & Hfacts & Hin).
  exists facts, (fact_row i r (Staging.close p)).
  split; [exact Hfacts|]. split; [exact Hin|].
  cbn [fact_row Fact.ticker Fact.data_id Fact.close Fact.variacao_diaria].
  rewrite Hrc, Hpc. split; [reflexivity|]. split; [reflexivity|].
  split; [reflexivity|]. split.
  - intros Hz. apply variacao_null. right. exact Hz.
  - intros Hnz. eexists. split; [by apply variacao_value|].
    split; [reflexivity|]. by apply variacao_near.
Qed.

Lemma xyz_second_day_preceded :
  preceding_quote xyz_quotes (Some "XYZ") (Some 19724) (quote 19723 "XYZ" 10).
Proof.
  split; [right; left|]. split; [reflexivity|]. split; [simpl; lia|].
  intros q Hq _ Hb. unfold xyz_quotes in Hq.
  repeat (apply elem_of_cons in Hq as [-> | Hq]); simpl in *; try lia.
  by apply elem_of_nil in Hq.
Qed.

Lemma variacao_is_percentage_change_witness :
  preceding_quote xyz_quotes (Some "XYZ") (Some 19724) (quote 19723 "XYZ" 10)
  /\ exists facts f,
       fact_movimentacao_diaria (wh (fst (load_fact_table (staged xyz_quotes))))
       = Some facts
       /\ f ∈ facts
       /\ Fact.ticker f = Some "XYZ" /\ Fact.data_id f = Some 19724
       /\ Fact.close f = Some (numeric_of_Z 12)
       /\ Fact.variacao_diaria f = Some (Numeric 2000000000000000000000 20).
Proof.
  split; [exact xyz_second_day_preceded|].
  destruct (proj1 variacao_is_percentage_change (staged xyz_quotes)
              (fst (load_fact_table (staged xyz_quotes))) xyz_quotes
              (quote 19724 "XYZ" 12) (quote 19723 "XYZ" 10)
              (numeric_of_Z 12) (numeric_of_Z 10))
    as (facts & f & Hfacts & Hin & Ht & Hd & Hc & _ & Hv);
    [reflexivity | exact xyz_quotes_complete | exact xyz_quotes_distinct
    | vm_compute; reflexivity | right; right; left | exact xyz_second_day_preceded
    | reflexivity | reflexivity |].
  exists facts, f. repeat (split; [assumption|]).
  destruct Hv as (v & Hv & -> & _); [discriminate|]. exact Hv.
Defined.

(** C2 as stated fails: with two quotes of XYZ on the second day, both have
    the quote of the first day, of close 10, on the date before, and the
    fact row of one of them has the change 0 where the formula gives 20. *)
Lemma variacao_of_repeated_day :
  exists f,
    f ∈ facts_after (staged repeated_quotes)
    /\ Fact.ticker f = Some "XYZ" /\ Fact.data_id f = Some 19724
    /\ Fact.close f = Some (numeric_of_Z 12)
    /\ preceding_quote repeated_quotes (Fact.ticker f) (Fact.data_id f)
         (quote 19723 "XYZ" 10)
    /\ Staging.close (quote 19723 "XYZ" 10) = Some (numeric_of_Z 10)
    /\ Fact.variacao_diaria f = Some (Numeric 0 20)
    /\ ~ (num_value (Numeric 0 20) == (12 - 10) / 10 * 100)%Q.
Proof.
  exists (fact_row 3 (quote 19724 "XYZ" 12) (Some (numeric_of_Z 12))).
  split; [|split; [reflexivity|split; [reflexivity|split; [reflexivity|
    split; [|split; [reflexivity|split; [reflexivity|discriminate]]]]]]].
  - assert (H : facts_after (staged repeated_quotes)
                = [fact_row 1 (quote 19723 "XYZ" 10) None;
                   fact_row 2 (quote 19724 "XYZ" 12) (Some (numeric_of_Z 10));
                   fact_row 3 (quote 19724 "XYZ" 12) (Some (numeric_of_Z 12))])
      by (vm_compute; reflexivity).
    rewrite H. right. right. left.
  - split; [left|]. split; [reflexivity|]. split; [simpl; lia|].
    intros q Hq _ Hb. unfold repeated_quotes in Hq.
    repeat (apply elem_of_cons in Hq as [-> | Hq]); simpl in *; try lia.
    by apply elem_of_nil in Hq.
Qed.

(** ** The report (C9) *)

Lemma report_on_empty_view (st : State) :
  volatility_weekly (wh st) = Some [] ->
  _report_top_volatility st
  = (xcom_push "report_top_volatility" "report_message" no_data_message st, None).
Proof. intros H. unfold _report_top_volatility. rewrite H. reflexivity. Qed.

#[global] Instance desc_nulls_first_total : Total desc_nulls_first.
Proof.
  intros [ta [x|]] [tb [y|]]; unfold desc_nulls_first; simpl; auto.
  destruct (Qlt_le_dec (num_value x) (num_value y)) as [H|H];
    [right; by apply Qlt_le_weak | by left].
Qed.

#[global] Instance desc_nulls_first_trans : Transitive desc_nulls_first.
Proof.
  intros [ta [x|]] [tb [y|]] [tc [z|]]; unfold desc_nulls_first; simpl; try tauto.
  intros Hxy Hyz. by apply Qle_trans with (num_value y).
Qed.

Lemma desc_nulls_first_refl (a : option string * option numeric) :
  desc_nulls_first a a.
Proof. destruct a as [t [x|]]; unfold desc_nulls_first; simpl; [apply Qle_refl | exact I]. Qed.

(** A view that is not empty gives the report exactly one row. *)
Lemma top_volatility_query_one (view : list Vol.row) :
  view <> [] -> exists t a, top_volatility_query view = [(t, a)].
Proof.
  intros Hne. unfold top_volatility_query.
  destruct (merge_sort _ _) as [|[t a] rest] eqn:Hsort; [|by exists t, a].
  exfalso. destruct view as [|v view]; [contradiction|].
  assert (Hin : (Vol.ticker v, avg_volatility (v :: view) (Vol.ticker v))
                ∈ merge_sort desc_nulls_first
                    (map (fun t => (t, avg_volatility (v :: view) t))
                       (remove_dups (map Vol.ticker (v :: view))))).
  { rewrite merge_sort_Permutation. apply list_elem_of_fmap.
    exists (Vol.ticker v). split; [reflexivity|]. apply elem_of_remove_dups. left. }
  rewrite Hsort in Hin. by apply elem_of_nil in Hin.
Qed.

(** The row of the report is first in descending order, NULL first, among
    the tickers' averages. *)
Lemma top_volatility_query_first (view : list Vol.row) t a :
  top_volatility_query view = [(t, a)] ->
  forall v, v ∈ view ->
    desc_nulls_first (t, a) (Vol.ticker v, avg_volatility view (Vol.ticker v)).
Proof.
  unfold top_volatility_query. intros Htop v Hv.
  set (rows := map _ (remove_dups (map Vol.ticker view))) in *.
  pose proof (StronglySorted_merge_sort desc_nulls_first rows) as Hsorted.
  assert (Hin : (Vol.ticker v, avg_volatility view (Vol.ticker v))
                ∈ merge_sort desc_nulls_first rows).
  { rewrite merge_sort_Permutation. apply list_elem_of_fmap.
    exists (Vol.ticker v). split; [reflexivity|].
    apply elem_of_remove_dups, list_elem_of_fmap. eauto. }
  destruct (merge_sort desc_nulls_first rows) as [|x rest]; [discriminate|].
  injection Htop as ->.
  apply elem_of_cons in Hin as [-> | Hin]; [apply desc_nulls_first_refl|].
  apply StronglySorted_cons in Hsorted as [Hall _].
  by apply (proj1 (Forall_forall _ _) Hall).
Qed.

(** So the report shows the highest average when no average is NULL, and a
    NULL one as soon as some ticker has none. *)
Lemma top_volatility_query_highest (view : list Vol.row) t x :
  top_volatility_query view = [(t, Some x)] ->
  forall v, v ∈ view ->
    exists y, avg_volatility view (Vol.ticker v) = Some y
              /\ (num_value y <= num_value x)%Q.
Proof.
  intros Htop v Hv. pose proof (top_volatility_query_first _ _ _ Htop v Hv) as H.
  unfold desc_nulls_first in H. simpl in H.
  destruct (avg_volatility view (Vol.ticker v)) as [y|]; [eauto | contradiction].
Qed.

Lemma top_volatility_query_null (view : list Vol.row) (v : Vol.row) t a :
  v ∈ view -> avg_volatility view (Vol.ticker v) = None ->
  top_volatility_query view = [(t, a)] -> a = None.
Proof.
  intros Hv Hnull Htop. pose proof (top_volatility_query_first _ _ _ Htop v Hv) as H.
  unfold desc_nulls_first in H. simpl in H. rewrite Hnull in H.
  destruct a; [contradiction | reflexivity].
Qed.

Example report_on_null_average :
  _report_top_volatility (with_view null_average_view)
  = (with_view null_average_view, Some TypeError).
Proof. vm_compute. reflexivity. Qed.

(** C9 at an input where it fails.  With staged quotes that give ABC a
    single daily change in its only week and XYZ two, the view holds a NULL
    volatility for ABC and a positive one for XYZ; the query of the report
    returns ABC with a NULL average, the message cannot be formatted, and
    the task is failed after its four attempts with no message pushed. *)
Theorem report_picks_null_average :
  let run := run_chain no_file downstream_of_gate true
               (after_load empty_warehouse two_ticker_quotes) in
  exists view v,
    volatility_weekly (wh (snd run)) = Some view
    /\ avg_volatility view (Some "ABC") = None
    /\ avg_volatility view (Some "XYZ") = Some v /\ (0 < num_value v)%Q
    /\ top_volatility_query view = [(Some "ABC", None)]
    /\ report_message (top_volatility_query view) = Raise TypeError
    /\ drop 3 (fst run)
       = [ti "report_top_volatility" failed 4; ti "log_execution_summary" upstream_failed 0]
    /\ xcom_pull "report_top_volatility" "report_message" (snd run) = None.
Proof.
  intros run.
  assert (Hview : volatility_weekly (wh (snd run))
                  = Some (volatility_query
                            (fact_rows 0 (window two_ticker_quotes))))
    by (vm_compute; reflexivity).
  assert (Havg : is_Some (avg_volatility
                            (volatility_query (fact_rows 0 (window two_ticker_quotes)))
                            (Some "XYZ")))
    by (vm_compute; eauto).
  destruct Havg as [v Hv].
  eexists _, v. split; [exact Hview|].
  split; [vm_compute; reflexivity|]. split; [exact Hv|].
  split; [|repeat split; vm_compute; reflexivity].
  revert Hv. vm_compute. intros [= <-]. reflexivity.
Qed.

(** ** Running twice (C7) *)

Lemma insert_dim_instrumento_error sel :
  forall table e, insert_dim_instrumento sel table = Raise e -> should_retry e = true.
Proof.
  induction sel as [|[[[t|] nome] tipo] rest IH]; intros table e; simpl.
  - discriminate.
  - case_bool_decide; apply IH.
  - intros [= <-]. reflexivity.
Qed.

Lemma insert_dim_tempo_error sel :
  forall table e, insert_dim_tempo sel table = Raise e -> should_retry e = true.
Proof.
  induction sel as [|[[[[d|] y] m] dow] rest IH]; intros table e; simpl.
  - discriminate.
  - case_bool_decide; apply IH.
  - intros [= <-]. reflexivity.
Qed.

Lemma insert_dim_instrumento_prefix sel :
  forall table table',
    insert_dim_instrumento sel table = Ok table' -> table `prefix_of` table'.
Proof.
  induction sel as [|[[[t|] nome] tipo] rest IH]; intros table table'; simpl.
  - intros [= <-]. reflexivity.
  - case_bool_decide; intros Hins; [by apply IH|].
    etrans; [|apply IH, Hins]. by apply prefix_app_r.
  - discriminate.
Qed.

Lemma insert_dim_tempo_prefix sel :
  forall table table',
    insert_dim_tempo sel table = Ok table' -> table `prefix_of` table'.
Proof.
  induction sel as [|[[[[d|] y] m] dow] rest IH]; intros table table'; simpl.
  - intros [= <-]. reflexivity.
  - case_bool_decide; intros Hins; [by apply IH|].
    etrans; [|apply IH, Hins]. by apply prefix_app_r.
  - discriminate.
Qed.

(** After a successful insert every selected key is in the table. *)
Lemma insert_dim_instrumento_keys sel :
  forall table table',
    insert_dim_instrumento sel table = Ok table' ->
    Forall (fun x => exists t, fst (fst x) = Some t
                               /\ t ∈ map DimInstrumento.ticker table') sel.
Proof.
  induction sel as [|[[[t|] nome] tipo] rest IH]; intros table table'; simpl.
  - constructor.
  - intros Hins. constructor; [|case_bool_decide; eapply IH; eassumption].
    exists t. split; [reflexivity|].
    case_bool_decide as Hin;
      destruct (insert_dim_instrumento_prefix _ _ _ Hins) as [k ->];
      rewrite !map_app; apply elem_of_app; left; [exact Hin|].
    apply elem_of_app. right. left.
  - discriminate.
Qed.

Lemma insert_dim_tempo_keys sel :
  forall table table',
    insert_dim_tempo sel table = Ok table' ->
    Forall (fun x => exists d, fst (fst (fst x)) = Some d
                               /\ d ∈ map DimTempo.data_id table') sel.
Proof.
  induction sel as [|[[[[d|] y] m] dow] rest IH]; intros table table'; simpl.
  - constructor.
  - intros Hins. constructor; [|case_bool_decide; eapply IH; eassumption].
    exists d. split; [reflexivity|].
    case_bool_decide as Hin;
      destruct (insert_dim_tempo_prefix _ _ _ Hins) as [k ->];
      rewrite !map_app; apply elem_of_app; left; [exact Hin|].
    apply elem_of_app. right. left.
  - discriminate.
Qed.

(** Inserting keys that are all in the table changes nothing. *)
Lemma insert_dim_instrumento_present sel :
  forall table,
    Forall (fun x => exists t, fst (fst x) = Some t
                               /\ t ∈ map DimInstrumento.ticker table) sel ->
    insert_dim_instrumento sel table = Ok table.
Proof.
  induction sel as [|[[k nome] tipo] rest IH]; intros table Hall; [reflexivity|].
  apply Forall_cons in Hall as [(t & Hk & Hin) Hall]. simpl in Hk. subst k.
  simpl. rewrite bool_decide_eq_true_2 by exact Hin. by apply IH.
Qed.

Lemma insert_dim_tempo_present sel :
  forall table,
    Forall (fun x => exists d, fst (fst (fst x)) = Some d
                               /\ d ∈ map DimTempo.data_id table) sel ->
    insert_dim_tempo sel table = Ok table.
Proof.
  induction sel as [|[[[k y] m] dow] rest IH]; intros table Hall; [reflexivity|].
  apply Forall_cons in Hall as [(d & Hk & Hin) Hall]. simpl in Hk. subst k.
  simpl. rewrite bool_decide_eq_true_2 by exact Hin. by apply IH.
Qed.

Lemma insert_dim_instrumento_again sel table table' :
  insert_dim_instrumento sel table = Ok table' ->
  insert_dim_instrumento sel table' = Ok table'.
Proof. intros H. eapply insert_dim_instrumento_present, insert_dim_instrumento_keys, H. Qed.

Lemma insert_dim_tempo_again sel table table' :
  insert_dim_tempo sel table = Ok table' ->
  insert_dim_tempo sel table' = Ok table'.
Proof. intros H. eapply insert_dim_tempo_present, insert_dim_tempo_keys, H. Qed.

Lemma elem_of_window (rows : list Staging.row) (s : Staging.row) (lag : option numeric) :
  (s, lag) ∈ window rows -> s ∈ rows.
Proof.
  intros H. apply elem_of_with_lag_close in H as (l1 & l2 & Hl & _).
  rewrite <- (window_sort_perm rows), Hl. apply elem_of_app. right. left.
Qed.

(** The rows of the fact table reference the dimensions filled from the
    same staged rows. *)
Lemma fact_rows_fk_ok (rows : list Staging.row)
  (di0 di : list DimInstrumento.row) (dt0 dt : list DimTempo.row) (seq : Z) :
  insert_dim_instrumento (select_instrumentos rows) di0 = Ok di ->
  insert_dim_tempo (select_tempos rows) dt0 = Ok dt ->
  forallb (fk_ok di dt) (fact_rows seq (window rows)) = true.
Proof.
  intros Hi Ht. apply forallb_forall. intros f Hf.
  apply list_elem_of_In, elem_of_fact_rows in Hf as (i & s & lag & Hin & ->).
  apply elem_of_window in Hin.
  apply insert_dim_instrumento_keys in Hi. apply insert_dim_tempo_keys in Ht.
  unfold fk_ok, references. cbn [fact_row Fact.ticker Fact.data_id].
  apply andb_true_intro. split.
  - destruct (Staging.symbol s) as [t|] eqn:Hs; [|reflexivity].
    apply bool_decide_eq_true_2.
    assert (Hsel : (Some t, sql_concat (Some "Ativo ") (Some t), Some "Acao")
                   ∈ select_instrumentos rows).
    { apply elem_of_remove_dups, list_elem_of_fmap. exists s. by rewrite Hs. }
    destruct (proj1 (Forall_forall _ _) Hi _ Hsel) as (t' & [= <-] & Ht'). exact Ht'.
  - destruct (Staging.date s) as [d|] eqn:Hd; [|reflexivity].
    apply bool_decide_eq_true_2.
    assert (Hsel : (Some d, Some (EXTRACT_YEAR d), Some (EXTRACT_MONTH d),
                    Some (EXTRACT_DOW d)) ∈ select_tempos rows).
    { apply elem_of_remove_dups, list_elem_of_fmap. exists s. by rewrite Hd. }
    destruct (proj1 (Forall_forall _ _) Ht _ Hsel) as (d' & [= <-] & Hd'). exact Hd'.
Qed.

Lemma fact_rows_length (sel : list (Staging.row * option numeric)) :
  forall seq, length (fact_rows seq sel) = length sel.
Proof.
  induction sel as [|[s lag] rest IH]; intros seq; simpl; [reflexivity|].
  by rewrite IH.
Qed.

Lemma report_keeps_wh : keeps_wh _report_top_volatility.
Proof.
  intros st st' e. unfold _report_top_volatility, done, failed_with.
  repeat case_match; intros [= <- _]; reflexivity.
Qed.

Lemma log_keeps_wh : keeps_wh _log_execution_summary.
Proof. intros st st' e. unfold _log_execution_summary, done. by intros [= <- _]. Qed.

Lemma with_lag_close_length (l : list Staging.row) :
  forall prev, length (with_lag_close prev l) = length l.
Proof.
  induction l as [|r rest IH]; intros prev; [reflexivity|].
  rewrite with_lag_close_head. simpl. by rewrite IH.
Qed.

Lemma window_length (rows : list Staging.row) : length (window rows) = length rows.
Proof.
  unfold window. rewrite with_lag_close_length.
  apply Permutation_length, window_sort_perm.
Qed.

Lemma ids_left_true (w : Warehouse) (n : nat) :
  ids_left w n = true <-> n = 0%nat \/ seq_base w + Z.of_nat n <= SERIAL_MAX.
Proof.
  unfold ids_left. rewrite orb_true_iff, Nat.eqb_eq, Z.leb_le. reflexivity.
Qed.

Lemma ids_left_false (w : Warehouse) (n : nat) :
  ids_left w n = false <-> n <> 0%nat /\ SERIAL_MAX < seq_base w + Z.of_nat n.
Proof.
  unfold ids_left. rewrite orb_false_iff, Nat.eqb_neq, Z.leb_gt. reflexivity.
Qed.

(** [load_fact_table] while the sequence lasts. *)
Lemma load_fact_table_loaded (st : State) (di : list DimInstrumento.row)
  (dt : list DimTempo.row) (rows : list Staging.row) :
  dim_instrumento (wh st) = Some di -> dim_tempo (wh st) = Some dt ->
  staging (wh st) = Some rows ->
  ids_left (wh st) (length rows) = true ->
  load_fact_table st
  = let facts := fact_rows (seq_base (wh st)) (window rows) in
    if forallb (fk_ok di dt) facts
    then (with_wh st (set_fact (wh st) (Some facts)
                        (seq_base (wh st) + Z.of_nat (length rows))), None)
    else (with_wh st (set_fact (wh st) (fact_movimentacao_diaria (wh st))
                        (match fact_movimentacao_diaria (wh st) with
                         | None => fact_id_seq (wh st)
                         | Some _ => seq_base (wh st) + Z.of_nat (length rows)
                         end)),
          Some (DatabaseError ForeignKeyViolation)).
Proof.
  intros Hdi Hdt Hst Hids. unfold load_fact_table. rewrite Hdi, Hdt, Hst.
  fold (seq_base (wh st)). fold (window rows).
  rewrite select_fact_ok, window_length.
  2:{ apply ids_left_true in Hids as [Hn|Hn]; [left | right].
      - apply length_zero_iff_nil. by rewrite window_length.
      - by rewrite window_length. }
  cbv zeta. by destruct (forallb _ _).
Qed.

(** [load_fact_table] when the sequence runs out. *)
Lemma load_fact_table_exhausted (st : State) (di : list DimInstrumento.row)
  (dt : list DimTempo.row) (rows : list Staging.row) :
  dim_instrumento (wh st) = Some di -> dim_tempo (wh st) = Some dt ->
  staging (wh st) = Some rows ->
  ids_left (wh st) (length rows) = false ->
  load_fact_table st
  = (with_wh st (set_fact (wh st) (fact_movimentacao_diaria (wh st))
                   (match fact_movimentacao_diaria (wh st) with
                    | None => fact_id_seq (wh st)
                    | Some _ => Z.max (fact_id_seq (wh st)) SERIAL_MAX
                    end)),
     Some (DatabaseError SequenceGeneratorLimitExceeded)).
Proof.
  intros Hdi Hdt Hst Hids. unfold load_fact_table. rewrite Hdi, Hdt, Hst.
  fold (seq_base (wh st)). fold (window rows).
  apply ids_left_false in Hids as [Hn Hseq].
  rewrite select_fact_exhausted.
  2:{ intros Hnil. apply Hn. by rewrite <- window_length, Hnil. }
  2:{ by rewrite window_length. }
  unfold seq_base, failed_with.
  destruct (fact_movimentacao_diaria (wh st)); reflexivity.
Qed.

(** The state that leaves is one on which the task fails in the same way
    and that it leaves as it is. *)
Lemma load_fact_table_exhausted_again (st : State) (di : list DimInstrumento.row)
  (dt : list DimTempo.row) (rows : list Staging.row) :
  dim_instrumento (wh st) = Some di -> dim_tempo (wh st) = Some dt ->
  staging (wh st) = Some rows ->
  ids_left (wh st) (length rows) = false ->
  let st1 := fst (load_fact_table st) in
  load_fact_table st1 = (st1, Some (DatabaseError SequenceGeneratorLimitExceeded)).
Proof.
  intros Hdi Hdt Hst Hids. cbv zeta.
  rewrite (load_fact_table_exhausted st di dt rows Hdi Hdt Hst Hids). cbn [fst].
  set (st1 := with_wh st _).
  assert (Hids1 : ids_left (wh st1) (length rows) = false).
  { apply ids_left_false in Hids as [Hn Hseq]. apply ids_left_false.
    split; [exact Hn|]. revert Hseq. unfold st1, seq_base. simpl.
    destruct (fact_movimentacao_diaria (wh st)); lia. }
  rewrite (load_fact_table_exhausted st1 di dt rows Hdi Hdt Hst Hids1).
  f_equal. unfold st1. destruct st as [w x l]. unfold with_wh, set_fact. simpl.
  f_equal. destruct w as [s i t f q v]. simpl. f_equal.
  destruct f; [lia | reflexivity].
Qed.

(** What the tasks downstream of the gate leave in the warehouse. *)
Lemma downstream_run (env : Env) (st : State) :
  wh (snd (run_chain env downstream_of_gate true st)) = downstream_wh (wh st).
Proof.
  unfold downstream_of_gate, dag, downstream_wh. cbn [drop].
  destruct (staging (wh st)) as [rows|] eqn:Hst.
  - destruct (insert_dim_instrumento _ _) as [di|e] eqn:Hi.
    + destruct (insert_dim_tempo _ _) as [dt|e] eqn:Ht.
      * set (st5 := with_wh st (set_dims (wh st) (Some di) (Some dt))).
        rewrite (run_chain_ok _ _ _ _ st5).
        2:{ cbn [execute]. unfold create_dim_tables.
            rewrite Hst. fold (instrumentos (wh st)). fold (tempos (wh st)).
            rewrite Hi, Ht. reflexivity. }
        assert (Hbase : seq_base (wh st5) = seq_base (wh st)) by reflexivity.
        assert (Hids : ids_left (wh st5) (length rows) = ids_left (wh st) (length rows))
          by reflexivity.
        destruct (ids_left (wh st) (length rows)) eqn:Hleft.
        -- set (facts := fact_rows (seq_base (wh st)) (window rows)).
           set (st6 := with_wh st5 (set_fact (wh st5) (Some facts)
                                      (seq_base (wh st) + Z.of_nat (length rows)))).
           set (st7 := with_wh st6 (set_volatility (wh st6)
                                      (Some (volatility_query facts)))).
           rewrite (run_chain_ok _ _ _ _ st6).
           2:{ cbn [execute].
               rewrite (load_fact_table_loaded st5 di dt rows eq_refl eq_refl Hst Hids).
               cbv zeta. rewrite Hbase. fold facts. unfold facts at 1.
               rewrite (fact_rows_fk_ok _ _ _ _ _ _ Hi Ht). reflexivity. }
           rewrite (run_chain_ok _ _ _ _ st7) by reflexivity.
           cbn [snd].
           transitivity (wh st7).
           { apply (run_chain_preserves (fun s => wh s = wh st7)); [|reflexivity].
             repeat (first [apply List.Forall_nil | apply List.Forall_cons]);
               cbn [execute]; intros s s' e Hs Hrun; rewrite <- Hs.
             - exact (report_keeps_wh _ _ _ Hrun).
             - exact (log_keeps_wh _ _ _ Hrun). }
           unfold refreshed. fold facts.
           unfold facts at 2. rewrite fact_rows_length, window_length.
           destruct st as [w x l]. destruct w.
           simpl in Hst. subst. reflexivity.
        -- pose proof (load_fact_table_exhausted st5 di dt rows eq_refl eq_refl Hst Hids)
             as Hload.
           pose proof (load_fact_table_exhausted_again st5 di dt rows eq_refl eq_refl
                         Hst Hids) as Hagain.
           cbv zeta in Hagain. rewrite Hload in Hagain. cbn [fst] in Hagain.
           rewrite (run_chain_settles env
                      {| task_id := "load_fact_table";
                         execute := fun _ => load_fact_table |}
                      _ st5 _ _ _ Hload eq_refl Hagain eq_refl).
           cbn [snd]. unfold exhausted.
           destruct st as [w x l]. destruct w.
           simpl in Hst. subst. reflexivity.
      * rewrite (run_chain_failed _ _ _ _ e); [reflexivity | |].
        -- cbn [execute]. unfold create_dim_tables.
           rewrite Hst. fold (instrumentos (wh st)). fold (tempos (wh st)).
           rewrite Hi, Ht. reflexivity.
        -- eapply insert_dim_tempo_error, Ht.
    + rewrite (run_chain_failed _ _ _ _ e); [reflexivity | |].
      * cbn [execute]. unfold create_dim_tables.
        rewrite Hst. fold (instrumentos (wh st)). rewrite Hi. reflexivity.
      * eapply insert_dim_instrumento_error, Hi.
  - rewrite (run_chain_failed _ _ _ _ (DatabaseError UndefinedTable));
      [reflexivity | | reflexivity].
    cbn [execute]. unfold create_dim_tables. rewrite Hst. reflexivity.
Qed.

(** The run, as a function of the warehouse. *)
Lemma run_pipeline_eq (env : Env) (w : Warehouse) :
  run_pipeline env w = pipeline_wh env w.
Proof.
  unfold run_pipeline, dag_run, pipeline_wh, upstream_wh.
  destruct (fs env !! csv_path) as [data|] eqn:Hfs.
  - destruct (COPY_staging data []) as [rows|e] eqn:Hcopy.
    + case_bool_decide as Hq.
      * rewrite (run_chain_accepted _ _ _ _ Hfs Hcopy Hq).
        cbn [final_state]. apply downstream_run.
      * rewrite (run_chain_rejected _ _ _ _ Hfs Hcopy Hq). reflexivity.
    + rewrite (run_chain_refused _ _ _ _ Hfs Hcopy). reflexivity.
  - rewrite (run_chain_missing _ _ Hfs). reflexivity.
Qed.

Lemma set_staging_again (w : Warehouse) (rows : list Staging.row) :
  staging w = Some rows ->
  set_staging (set_staging w (create_table_if_not_exists (staging w))) (Some rows) = w.
Proof. destruct w. simpl. intros ->. reflexivity. Qed.

Lemma downstream_wh_staging (w : Warehouse) : staging (downstream_wh w) = staging w.
Proof.
  unfold downstream_wh. destruct (staging w) as [rows|] eqn:Hst; [|exact Hst].
  destruct (insert_dim_instrumento _ _); [|exact Hst].
  destruct (insert_dim_tempo _ _); [|exact Hst].
  by destruct (ids_left w (length rows)).
Qed.

Lemma without_id_fact_rows (sel : list (Staging.row * option numeric)) :
  forall seq seq',
    map without_id (fact_rows seq sel) = map without_id (fact_rows seq' sel).
Proof.
  induction sel as [|[s lag] rest IH]; intros seq seq'; simpl; [reflexivity|].
  f_equal. apply IH.
Qed.

(** The view does not look at the surrogate keys. *)
Lemma volatility_query_without_id (facts : list Fact.row) :
  volatility_query (map without_id facts) = volatility_query facts.
Proof.
  unfold volatility_query.
  assert (Hrows : filter (fun f => is_Some (Fact.variacao_diaria f)) (map without_id facts)
                  = map without_id (filter (fun f => is_Some (Fact.variacao_diaria f)) facts)).
  { induction facts as [|f facts IH]; [reflexivity|]. cbn [map].
    destruct (decide (is_Some (Fact.variacao_diaria f))) as [H|H].
    - rewrite !filter_cons_True by exact H. cbn [map]. by rewrite IH.
    - rewrite !filter_cons_False by exact H. exact IH. }
  rewrite Hrows. set (rows := filter _ facts).
  assert (Hkeys : map week_key (map without_id rows) = map week_key rows).
  { rewrite map_map. reflexivity. }
  rewrite Hkeys. apply map_ext. intros k. f_equal. f_equal.
  clear. induction rows as [|f rows IH]; [reflexivity|]. cbn [map].
  destruct (decide (week_key f = k)) as [H|H].
  - rewrite !filter_cons_True by exact H.
    cbn [omap list_omap without_id Fact.variacao_diaria].
    destruct (Fact.variacao_diaria f); by rewrite IH.
  - rewrite !filter_cons_False by exact H. exact IH.
Qed.

Lemma volatility_query_ids (facts facts' : list Fact.row) :
  map without_id facts = map without_id facts' ->
  volatility_query facts = volatility_query facts'.
Proof.
  intros H. by rewrite <- (volatility_query_without_id facts), H,
                 volatility_query_without_id.
Qed.

Lemma downstream_wh_cases (w : Warehouse) :
  downstream_wh w = w
  \/ exists rows di dt,
       staging w = Some rows
       /\ insert_dim_instrumento (select_instrumentos rows) (instrumentos w) = Ok di
       /\ insert_dim_tempo (select_tempos rows) (tempos w) = Ok dt
       /\ ((ids_left w (length rows) = true
            /\ downstream_wh w = refreshed w rows di dt)
           \/ (ids_left w (length rows) = false
               /\ downstream_wh w = exhausted w rows di dt)).
Proof.
  unfold downstream_wh. destruct (staging w) as [rows|]; [|by left].
  destruct (insert_dim_instrumento _ _) as [di|e] eqn:Hi; [|by left].
  destruct (insert_dim_tempo _ _) as [dt|e] eqn:Ht; [|by left].
  right. exists rows, di, dt.
  destruct (ids_left w (length rows)); auto 10.
Qed.

(** Downstream of the gate, a second pass changes only the surrogate keys. *)
Lemma downstream_wh_again (w : Warehouse) :
  let w1 := downstream_wh w in
  let w2 := downstream_wh w1 in
  staging w2 = staging w1
  /\ dim_instrumento w2 = dim_instrumento w1
  /\ dim_tempo w2 = dim_tempo w1
  /\ volatility_weekly w2 = volatility_weekly w1
  /\ fmap (map without_id) (fact_movimentacao_diaria w2)
     = fmap (map without_id) (fact_movimentacao_diaria w1).
Proof.
  cbv zeta.
  destruct (downstream_wh_cases w)
    as [Hw | (rows & di & dt & Hst & Hi & Ht & [[Hids Hw]|[Hids Hw]])];
    rewrite !Hw; [repeat split; reflexivity | |].
  - unfold downstream_wh.
    cbn [refreshed staging instrumentos tempos dim_instrumento dim_tempo table_or_empty].
    rewrite (insert_dim_instrumento_again _ _ _ Hi), (insert_dim_tempo_again _ _ _ Ht).
    destruct (ids_left (refreshed w rows di dt) (length rows));
      cbn [refreshed exhausted staging dim_instrumento dim_tempo volatility_weekly
           fact_movimentacao_diaria fmap option_fmap option_map];
      [|repeat split; reflexivity].
    repeat split.
    + f_equal. apply volatility_query_ids, without_id_fact_rows.
    + f_equal. apply without_id_fact_rows.
  - unfold downstream_wh.
    cbn [exhausted staging instrumentos tempos dim_instrumento dim_tempo table_or_empty].
    rewrite (insert_dim_instrumento_again _ _ _ Hi), (insert_dim_tempo_again _ _ _ Ht).
    destruct (ids_left (exhausted w rows di dt) (length rows)) eqn:Hids1.
    + exfalso. apply ids_left_false in Hids as [Hn Hseq].
      apply ids_left_true in Hids1 as [Hn1|Hseq1]; [contradiction|].
      revert Hseq Hseq1. unfold seq_base, exhausted.
      cbn [fact_movimentacao_diaria fact_id_seq].
      destruct (fact_movimentacao_diaria w); lia.
    + repeat split; reflexivity.
Qed.

Lemma pipeline_wh_again (env : Env) (w : Warehouse) :
  let w1 := pipeline_wh env w in
  let w2 := pipeline_wh env w1 in
  dim_instrumento w2 = dim_instrumento w1
  /\ dim_tempo w2 = dim_tempo w1
  /\ volatility_weekly w2 = volatility_weekly w1
  /\ fmap (map without_id) (fact_movimentacao_diaria w2)
     = fmap (map without_id) (fact_movimentacao_diaria w1).
Proof.
  cbv zeta. unfold pipeline_wh, upstream_wh.
  destruct (fs env !! csv_path) as [data|]; [|repeat split; reflexivity].
  destruct (COPY_staging data []) as [rows|e]; [|repeat split; reflexivity].
  case_bool_decide as Hq; [|repeat split; reflexivity].
  set (w' := set_staging (set_staging w _) (Some rows)).
  assert (Hst : staging (downstream_wh w') = Some rows)
    by (by rewrite downstream_wh_staging).
  rewrite (set_staging_again _ _ Hst).
  apply downstream_wh_again.
Qed.

(** C7, as amended.  A second run on the same source leaves both
    dimensions and the weekly view exactly as the first run left them, and
    the fact table with the same rows but for their surrogate [id]s. *)
Theorem rerun_changes_only_fact_ids (env : Env) (w : Warehouse) :
  let w1 := run_pipeline env w in
  let w2 := run_pipeline env w1 in
  dim_instrumento w2 = dim_instrumento w1
  /\ dim_tempo w2 = dim_tempo w1
  /\ volatility_weekly w2 = volatility_weekly w1
  /\ fmap (map without_id) (fact_movimentacao_diaria w2)
     = fmap (map without_id) (fact_movimentacao_diaria w1).
Proof. cbv zeta. rewrite !run_pipeline_eq. apply pipeline_wh_again. Qed.

(** *** A source that passes the gate *)

Lemma COPY_staging_fits (data : list Staging.row) :
  Forall fits data ->
  forall table, COPY_staging (Fields <$> data) table = Ok (table ++ data).
Proof.
  induction 1 as [|r data [_ Hr] Hdata IH]; intros table; simpl.
  - by rewrite app_nil_r.
  - rewrite Hr. simpl. rewrite IH. by rewrite <- (assoc_L (++)).
Qed.

Lemma insert_dim_instrumento_total sel :
  Forall (fun x => is_Some (fst (fst x))) sel ->
  forall table, exists table', insert_dim_instrumento sel table = Ok table'.
Proof.
  induction 1 as [|[[k nome] tipo] rest [t Hk] Hrest IH]; intros table; simpl.
  - eauto.
  - simpl in Hk. subst k. case_bool_decide; apply IH.
Qed.

Lemma insert_dim_tempo_total sel :
  Forall (fun x => is_Some (fst (fst (fst x)))) sel ->
  forall table, exists table', insert_dim_tempo sel table = Ok table'.
Proof.
  induction 1 as [|[[[k y] m] dow] rest [d Hk] Hrest IH]; intros table; simpl.
  - eauto.
  - simpl in Hk. subst k. case_bool_decide; apply IH.
Qed.

Lemma select_instrumentos_keys (rows : list Staging.row) :
  Forall fits rows ->
  Forall (fun x => is_Some (fst (fst x))) (select_instrumentos rows).
Proof.
  intros Hfits. apply Forall_forall. intros x Hx.
  apply elem_of_remove_dups, list_elem_of_fmap in Hx as (r & -> & Hr).
  destruct (proj1 (Forall_forall _ _) Hfits _ Hr) as [[s Hs] _].
  simpl. rewrite Hs. eauto.
Qed.

Lemma select_tempos_keys (rows : list Staging.row) :
  Forall complete rows ->
  Forall (fun x => is_Some (fst (fst (fst x)))) (select_tempos rows).
Proof.
  intros Hc. apply Forall_forall. intros x Hx.
  apply elem_of_remove_dups, list_elem_of_fmap in Hx as (r & -> & Hr).
  destruct (complete_date _ (proj1 (Forall_forall _ _) Hc _ Hr)) as [d Hd].
  simpl. rewrite Hd. eauto.
Qed.

Lemma fact_rows_ids_differ (sel : list (Staging.row * option numeric)) (seq seq' : Z) :
  sel <> [] -> seq <> seq' -> fact_rows seq sel <> fact_rows seq' sel.
Proof.
  destruct sel as [|[s lag] rest]; [contradiction|].
  intros _ Hne. simpl. intros [= H]. lia.
Qed.

(** Two runs on a source that passes the gate: the second loads the fact
    table with the sequence where the first left it. *)
Lemma second_run_renumbers (data : list Staging.row) :
  Forall fits data -> Forall complete data -> COUNT_star data = 750000 ->
  let w1 := run_pipeline (env_of data) empty_warehouse in
  let w2 := run_pipeline (env_of data) w1 in
  fact_movimentacao_diaria w1 = Some (fact_rows 0 (window data))
  /\ fact_movimentacao_diaria w2 = Some (fact_rows 750000 (window data))
  /\ fact_movimentacao_diaria w2 <> fact_movimentacao_diaria w1.
Proof.
  intros Hfits Hc Hcount. cbv zeta.
  enough (H : fact_movimentacao_diaria (run_pipeline (env_of data) empty_warehouse)
              = Some (fact_rows 0 (window data))
              /\ fact_movimentacao_diaria
                   (run_pipeline (env_of data)
                      (run_pipeline (env_of data) empty_warehouse))
                 = Some (fact_rows 750000 (window data))).
  { destruct H as [H1 H2]. split; [exact H1|]. split; [exact H2|].
    rewrite H1, H2. intros H. apply (inj Some) in H. revert H.
    apply fact_rows_ids_differ; [|lia].
    intros Hnil. apply (f_equal length) in Hnil. rewrite window_length in Hnil.
    unfold COUNT_star in Hcount. rewrite Hnil in Hcount. discriminate. }
  rewrite !run_pipeline_eq.
  assert (Hq : quality_check_sql data = Some true) by (by apply quality_check_passes).
  assert (Hup : forall w,
                upstream_wh (env_of data) w
                = ({| staging := Some data; dim_instrumento := dim_instrumento w;
                      dim_tempo := dim_tempo w;
                      fact_movimentacao_diaria := fact_movimentacao_diaria w;
                      fact_id_seq := fact_id_seq w;
                      volatility_weekly := volatility_weekly w |}, true)).
  { intros w. unfold upstream_wh, env_of. cbn [fs].
    rewrite lookup_singleton_eq, (COPY_staging_fits _ Hfits).
    rewrite bool_decide_eq_true_2 by exact Hq. reflexivity. }
  destruct (insert_dim_instrumento_total _ (select_instrumentos_keys _ Hfits) [])
    as [di Hi].
  destruct (insert_dim_tempo_total _ (select_tempos_keys _ Hc) []) as [dt Ht].
  set (w' := {| staging := Some data; dim_instrumento := None; dim_tempo := None;
                fact_movimentacao_diaria := None; fact_id_seq := 0;
                volatility_weekly := None |}).
  assert (Hlen : Z.of_nat (length data) = 750000) by exact Hcount.
  assert (H1 : pipeline_wh (env_of data) empty_warehouse = refreshed w' data di dt).
  { unfold pipeline_wh. rewrite Hup. unfold downstream_wh.
    cbn [staging instrumentos tempos dim_instrumento dim_tempo table_or_empty
         empty_warehouse].
    rewrite Hi, Ht.
    match goal with |- context [ids_left ?w1 (length data)] =>
      rewrite (proj2 (ids_left_true w1 (length data)))
    end; [reflexivity|].
    right. unfold seq_base, SERIAL_MAX. simpl. lia. }
  rewrite H1. unfold pipeline_wh. rewrite Hup. unfold downstream_wh.
  cbn [refreshed staging instrumentos tempos dim_instrumento dim_tempo
       table_or_empty fact_movimentacao_diaria fact_id_seq volatility_weekly].
  rewrite (insert_dim_instrumento_again _ _ _ Hi), (insert_dim_tempo_again _ _ _ Ht).
  match goal with |- context [ids_left ?w1 (length data)] =>
    rewrite (proj2 (ids_left_true w1 (length data)))
  end.
  2:{ right. unfold seq_base, w', SERIAL_MAX.
      cbn [fact_movimentacao_diaria fact_id_seq].
      rewrite fact_rows_length, window_length. lia. }
  cbn [refreshed fact_movimentacao_diaria fact_id_seq seq_base w'].
  split; [reflexivity|].
  rewrite fact_rows_length, window_length, Hlen. reflexivity.
Qed.

Lemma full_csv_fits : Forall fits full_csv.
Proof.
  apply Forall_forall. intros r Hr.
  apply list_elem_of_fmap in Hr as (i & -> & Hi).
  apply elem_of_seq in Hi. split; [by eexists|].
  unfold copy_row, quote, store_date. cbn [Staging.date].
  rewrite (proj2 (Z.leb_le DATE_MIN (Z.of_nat i))) by (unfold DATE_MIN; lia).
  rewrite (proj2 (Z.ltb_lt (Z.of_nat i) DATE_END)) by (unfold DATE_END; lia).
  reflexivity.
Qed.

Lemma full_csv_complete : Forall complete full_csv.
Proof.
  apply Forall_forall. intros r Hr.
  apply list_elem_of_fmap in Hr as (i & -> & _). split; discriminate.
Qed.

Lemma full_csv_count : COUNT_star full_csv = 750000.
Proof.
  unfold COUNT_star, full_csv. rewrite length_map, length_seq.
  apply Z2Nat.id. lia.
Qed.

(** C7 as stated fails: on a source of 750000 complete rows, which passes
    the gate, the first run from an empty warehouse numbers the fact rows
    from 1 and the second, on the same source, from 750001; the fact table
    after the second run is not the one after the first. *)
Lemma rerun_renumbers_fact_table :
  quality_check_sql full_csv = Some true
  /\ let w1 := run_pipeline (env_of full_csv) empty_warehouse in
     let w2 := run_pipeline (env_of full_csv) w1 in
     fact_movimentacao_diaria w1 = Some (fact_rows 0 (window full_csv))
     /\ fact_movimentacao_diaria w2 = Some (fact_rows 750000 (window full_csv))
     /\ fact_movimentacao_diaria w2 <> fact_movimentacao_diaria w1.
Proof.
  split.
  - apply quality_check_passes; [exact full_csv_count | exact full_csv_complete].
  - exact (second_run_renumbers full_csv full_csv_fits full_csv_complete full_csv_count).
Qed.

(** *** A source one row short *)

(** The scenario of C6: a source of 749999 rows is staged, the check
    rejects it, and the run ends failed with the fact table and the view
    as they were. *)
Lemma short_source_is_rejected (data : list Staging.row) (w : Warehouse) :
  Forall fits data -> COUNT_star data = 749999 ->
  get_task_instance "run_data_quality_checks" (dag_run (env_of data) w)
  = Some (ti "run_data_quality_checks" failed 4)
  /\ run_state (dag_run (env_of data) w) = run_failed
  /\ staging (run_pipeline (env_of data) w) = Some data
  /\ fact_movimentacao_diaria (run_pipeline (env_of data) w)
     = fact_movimentacao_diaria w
  /\ volatility_weekly (run_pipeline (env_of data) w) = volatility_weekly w.
Proof.
  intros Hfits Hcount.
  assert (Hfs : fs (env_of data) !! csv_path = Some (Fields <$> data))
    by apply lookup_singleton_eq.
  assert (Hq : quality_check_sql data <> Some true).
  { intros [Hc _]%quality_check_holds. rewrite Hcount in Hc. discriminate. }
  unfold run_pipeline, dag_run.
  rewrite (run_chain_rejected _ _ _ _ Hfs (COPY_staging_fits _ Hfits []) Hq).
  repeat split; reflexivity.
Qed.

(** * Further properties of the tasks and of the run *)

(** ** The scheduler and the chain *)

Lemma run_chain_task_ids (env : Env) (tasks : list Operator) :
  forall b st, map ti_task_id (fst (run_chain env tasks b st)) = map task_id tasks.
Proof.
  induction tasks as [|t rest IH]; intros b st; [reflexivity|].
  cbn [run_chain]. destruct b.
  - destruct (attempt (execute t env) default_args.retries 1 st) as [[s n] st'].
    specialize (IH (bool_decide (s = success)) st').
    destruct (run_chain env rest (bool_decide (s = success)) st').
    simpl in *. by rewrite IH.
  - specialize (IH false st). destruct (run_chain env rest false st).
    simpl in *. by rewrite IH.
Qed.

Lemma attempt_state (callable : State -> outcome) (n : nat) :
  forall k st, let s := fst (fst (attempt callable n k st)) in
               s = success \/ s = failed.
Proof.
  induction n as [|n IH]; intros k st; simpl;
    destruct (callable st) as [st' [e|]]; simpl; auto.
  destruct (should_retry e); simpl; auto.
Qed.

Lemma run_chain_skip_states (env : Env) (tasks : list Operator) (st : State) :
  map ti_state (fst (run_chain env tasks false st))
  = repeat upstream_failed (length tasks).
Proof.
  rewrite run_chain_skip. simpl.
  induction tasks as [|t rest IH]; simpl; [reflexivity|]. by rewrite IH.
Qed.

Lemma run_chain_fail_fast (env : Env) (tasks : list Operator) :
  forall st, exists n,
    (n <= length tasks)%nat
    /\ map ti_state (fst (run_chain env tasks true st))
       = fail_fast_states (length tasks) n.
Proof.
  induction tasks as [|t rest IH]; intros st.
  - exists 0%nat. split; [reflexivity|]. reflexivity.
  - cbn [run_chain].
    pose proof (attempt_state (execute t env) default_args.retries 1%nat st) as Hs.
    destruct (attempt (execute t env) default_args.retries 1 st) as [[s k] st'].
    simpl in Hs. destruct Hs as [-> | ->].
    + rewrite bool_decide_eq_true_2 by reflexivity.
      destruct (IH st') as (n & Hn & Hstates).
      destruct (run_chain env rest true st') as [tis st''].
      exists (S n). split; [simpl; lia|]. simpl in *. rewrite Hstates.
      unfold fail_fast_states. cbn [length].
      destruct (Nat.ltb_spec n (length rest)), (Nat.ltb_spec (S n) (S (length rest)));
        try lia; reflexivity.
    + rewrite bool_decide_eq_false_2 by discriminate.
      pose proof (run_chain_skip_states env rest st') as Hskip.
      destruct (run_chain env rest false st') as [tis st''].
      exists 0%nat. split; [lia|]. simpl in *. rewrite Hskip.
      unfold fail_fast_states. cbn. by rewrite Nat.sub_0_r.
Qed.

Lemma last_repeat_S {A} (x : A) (m : nat) : last (repeat x (S m)) = Some x.
Proof. induction m as [|m IH]; [reflexivity|]. exact IH. Qed.

Lemma last_fail_fast_states (total n : nat) :
  (n <= total)%nat -> (0 < total)%nat ->
  last (fail_fast_states total n) = Some success <-> n = total.
Proof.
  intros Hn Hpos. unfold fail_fast_states.
  destruct (Nat.ltb_spec n total) as [Hlt|Hge].
  - split; [|lia]. intros Hlast. exfalso.
    rewrite last_app, last_cons in Hlast.
    destruct (total - n - 1)%nat as [|m]; [discriminate Hlast|].
    rewrite last_repeat_S in Hlast. discriminate Hlast.
  - split; [lia|]. intros _. destruct total as [|m]; [lia|].
    apply last_repeat_S.
Qed.

(** X1.  A run records one task instance for each of the nine tasks, in
    the order of the chain; the first tasks succeed, and unless all do, the
    next one is failed and every task after it is [upstream_failed]; the
    run succeeded exactly when all nine tasks did. *)
Theorem run_is_fail_fast (env : Env) (w : Warehouse) :
  map ti_task_id (task_instances (dag_run env w))
  = ["setup_staging_table"; "locate_csv"; "load_staging";
     "run_data_quality_checks"; "create_dim_tables"; "load_fact_table";
     "calculate_volatility_view"; "report_top_volatility";
     "log_execution_summary"]
  /\ exists n,
       (n <= 9)%nat
       /\ map ti_state (task_instances (dag_run env w)) = fail_fast_states 9 n
       /\ (run_state (dag_run env w) = run_success <-> n = 9%nat).
Proof.
  unfold dag_run.
  pose proof (run_chain_task_ids env dag true (fresh_run w)) as Hids.
  destruct (run_chain_fail_fast env dag (fresh_run w)) as (n & Hn & Hstates).
  destruct (run_chain env dag true (fresh_run w)) as [tis st].
  cbn [task_instances run_state fst] in *.
  split; [exact Hids|]. exists n. split; [exact Hn|]. split; [exact Hstates|].
  change (length dag) with 9%nat in *.
  rewrite <- (last_fail_fast_states 9 n Hn) by lia.
  rewrite <- Hstates. unfold leaf_state.
  change (map ti_state tis) with (ti_state <$> tis). rewrite fmap_last.
  destruct (last tis) as [t|] eqn:Hlast; simpl.
  - case_bool_decide as Hs; [rewrite Hs; tauto|].
    split; [discriminate|]. intros [= H]. contradiction.
  - split; [|discriminate]. intros _. exfalso.
    destruct tis; [discriminate Hids|].
    rewrite last_cons in Hlast. destruct (last tis); discriminate.
Qed.

(** A task that fails again after a failure uses up every retry. *)
Lemma attempt_failing (callable : State -> outcome) :
  fails_again callable ->
  forall n k st st1 e,
    callable st = (st1, Some e) ->
    exists st', attempt callable n k st = (failed, (k + n)%nat, st').
Proof.
  intros Hfa n. induction n as [|n IH]; intros k st st1 e H; simpl; rewrite H.
  - exists st1. do 2 f_equal. lia.
  - destruct (Hfa st st1 e H) as [Hr (st2 & e2 & H2)]. rewrite Hr.
    destruct (IH (S k) st1 st2 e2 H2) as [st' ->]. exists st'. do 2 f_equal. lia.
Qed.

Lemma attempt_tries (callable : State -> outcome) :
  fails_again callable ->
  forall st, exists s st',
    attempt callable default_args.retries 1 st = (s, attempts_of s, st')
    /\ (s = success \/ s = failed).
Proof.
  intros Hfa st. destruct (callable st) as [st1 [e|]] eqn:H.
  - destruct (attempt_failing _ Hfa default_args.retries 1%nat st st1 e H) as [st' Ha].
    exists failed, st'. split; [exact Ha | by right].
  - exists success, st1. split; [|by left].
    unfold default_args.retries. simpl. by rewrite H.
Qed.

Lemma run_chain_tries (env : Env) (tasks : list Operator) :
  Forall (fun t => fails_again (execute t env)) tasks ->
  forall b st,
    Forall (fun t => try_number t = attempts_of (ti_state t))
           (fst (run_chain env tasks b st)).
Proof.
  induction 1 as [|t rest Ht Hrest IH]; intros b st; [constructor|].
  cbn [run_chain]. destruct b.
  - destruct (attempt_tries _ Ht st) as (s & st' & -> & _).
    specialize (IH (bool_decide (s = success)) st').
    destruct (run_chain env rest (bool_decide (s = success)) st').
    constructor; [reflexivity | exact IH].
  - specialize (IH false st). destruct (run_chain env rest false st).
    constructor; [reflexivity | exact IH].
Qed.

(** Whether the rows can be inserted does not depend on the ids they take. *)
Lemma forallb_fk_ok_ids di dt (sel : list (Staging.row * option numeric)) :
  forall seq seq',
    forallb (fk_ok di dt) (fact_rows seq sel)
    = forallb (fk_ok di dt) (fact_rows seq' sel).
Proof.
  induction sel as [|[s lag] rest IH]; intros seq seq'; simpl; [reflexivity|].
  f_equal. apply IH.
Qed.

Lemma setup_staging_table_fails_again : fails_again setup_staging_table.
Proof. intros st st' e. discriminate. Qed.

Lemma locate_csv_fails_again (env : Env) : fails_again (_locate_csv env).
Proof.
  intros st st' e. unfold _locate_csv.
  destruct (fs env !! csv_path) eqn:Hfs; [discriminate|].
  intros [= <- <-]. split; [reflexivity|]. exists st, FileNotFoundError.
  reflexivity.
Qed.

Lemma load_staging_fails_again (env : Env) : fails_again (_load_staging env).
Proof.
  intros st st' e H.
  assert (st' = st /\ should_retry e = true) as [-> Hr].
  { revert H. unfold _load_staging.
    destruct (staging (wh st)); [|by intros [= <- <-]].
    destruct (xcom_pull _ _ st) as [path|]; [|by intros [= <- <-]].
    destruct (fs env !! path) as [data|]; [|by intros [= <- <-]].
    destruct (COPY_staging data []) as [rows|e'] eqn:Hcopy; [discriminate|].
    intros [= <- <-]. split; [reflexivity|]. exact (COPY_staging_error _ _ _ Hcopy). }
  split; [exact Hr|]. eauto.
Qed.

Lemma run_data_quality_checks_fails_again : fails_again run_data_quality_checks.
Proof.
  intros st st' e H.
  assert (st' = st /\ should_retry e = true) as [-> Hr].
  { revert H. unfold run_data_quality_checks.
    destruct (staging (wh st)) as [rows|]; [|by intros [= <- <-]].
    destruct (quality_check_sql rows) as [[|]|]; [discriminate| |];
      by intros [= <- <-]. }
  split; [exact Hr|]. eauto.
Qed.

Lemma create_dim_tables_fails_again : fails_again create_dim_tables.
Proof.
  intros st st' e H.
  assert (st' = st /\ should_retry e = true) as [-> Hr].
  { revert H. unfold create_dim_tables.
    destruct (staging (wh st)) as [rows|]; [|by intros [= <- <-]].
    destruct (insert_dim_instrumento _ _) as [di|e'] eqn:Hi.
    - destruct (insert_dim_tempo _ _) as [dt|e'] eqn:Ht; [discriminate|].
      intros [= <- <-]. split; [reflexivity|].
      exact (insert_dim_tempo_error _ _ _ Ht).
    - intros [= <- <-]. split; [reflexivity|].
      exact (insert_dim_instrumento_error _ _ _ Hi). }
  split; [exact Hr|]. eauto.
Qed.

(** With the dimensions and staging there, [load_fact_table] succeeds
    exactly when the sequence has an id for every row and no row refers to
    a key that is missing. *)
Lemma load_fact_table_cases (st : State) (di : list DimInstrumento.row)
  (dt : list DimTempo.row) (rows : list Staging.row) :
  dim_instrumento (wh st) = Some di -> dim_tempo (wh st) = Some dt ->
  staging (wh st) = Some rows ->
  (ids_left (wh st) (length rows) = true
   /\ forallb (fk_ok di dt) (fact_rows 0 (window rows)) = true
   /\ load_fact_table st
      = (with_wh st (set_fact (wh st)
                       (Some (fact_rows (seq_base (wh st)) (window rows)))
                       (seq_base (wh st) + Z.of_nat (length rows))), None))
  \/ (ids_left (wh st) (length rows) = true
      /\ forallb (fk_ok di dt) (fact_rows 0 (window rows)) = false
      /\ exists st', load_fact_table st
                     = (st', Some (DatabaseError ForeignKeyViolation))
                     /\ xcom st' = xcom st /\ log st' = log st
                     /\ staging (wh st') = staging (wh st)
                     /\ dim_instrumento (wh st') = dim_instrumento (wh st)
                     /\ dim_tempo (wh st') = dim_tempo (wh st)
                     /\ fact_movimentacao_diaria (wh st')
                        = fact_movimentacao_diaria (wh st)
                     /\ volatility_weekly (wh st') = volatility_weekly (wh st)
                     /\ seq_base (wh st) <= seq_base (wh st'))
  \/ (ids_left (wh st) (length rows) = false
      /\ exists st', load_fact_table st
                     = (st', Some (DatabaseError SequenceGeneratorLimitExceeded))
                     /\ xcom st' = xcom st /\ log st' = log st
                     /\ staging (wh st') = staging (wh st)
                     /\ dim_instrumento (wh st') = dim_instrumento (wh st)
                     /\ dim_tempo (wh st') = dim_tempo (wh st)
                     /\ fact_movimentacao_diaria (wh st')
                        = fact_movimentacao_diaria (wh st)
                     /\ volatility_weekly (wh st') = volatility_weekly (wh st)
                     /\ seq_base (wh st) <= seq_base (wh st')).
Proof.
  intros Hdi Hdt Hst.
  destruct (ids_left (wh st) (length rows)) eqn:Hids.
  - rewrite (load_fact_table_loaded st di dt rows Hdi Hdt Hst Hids). cbv zeta.
    rewrite (forallb_fk_ok_ids di dt (window rows) (seq_base (wh st)) 0).
    destruct (forallb _ _); [left; auto|].
    right. left. split; [reflexivity|]. split; [reflexivity|].
    eexists. split; [reflexivity|]. repeat split; try reflexivity.
    unfold seq_base. cbn [wh with_wh set_fact fact_movimentacao_diaria fact_id_seq].
    destruct (fact_movimentacao_diaria (wh st)); lia.
  - right. right. split; [reflexivity|].
    rewrite (load_fact_table_exhausted st di dt rows Hdi Hdt Hst Hids).
    eexists. split; [reflexivity|]. repeat split; try reflexivity.
    unfold seq_base. cbn [wh with_wh set_fact fact_movimentacao_diaria fact_id_seq].
    destruct (fact_movimentacao_diaria (wh st)); lia.
Qed.

Lemma ids_left_mono (w w' : Warehouse) (n : nat) :
  seq_base w <= seq_base w' -> ids_left w' n = true -> ids_left w n = true.
Proof. rewrite !ids_left_true. lia. Qed.

Lemma load_fact_table_fails_again : fails_again load_fact_table.
Proof.
  intros st st' e Hrun.
  destruct (dim_instrumento (wh st)) as [di|] eqn:Hdi.
  2:{ unfold load_fact_table in *. rewrite Hdi in Hrun. injection Hrun as <- <-.
      split; [reflexivity|]. rewrite Hdi. eauto. }
  destruct (dim_tempo (wh st)) as [dt|] eqn:Hdt.
  2:{ unfold load_fact_table in *. rewrite Hdi, Hdt in Hrun. injection Hrun as <- <-.
      split; [reflexivity|]. rewrite Hdi, Hdt. eauto. }
  destruct (staging (wh st)) as [rows|] eqn:Hst.
  2:{ unfold load_fact_table in *. rewrite Hdi, Hdt, Hst in Hrun.
      injection Hrun as <- <-.
      split; [reflexivity|]. rewrite Hdi, Hdt, Hst. eauto. }
  assert (Hnext : forall st1,
             staging (wh st1) = staging (wh st) ->
             dim_instrumento (wh st1) = dim_instrumento (wh st) ->
             dim_tempo (wh st1) = dim_tempo (wh st) ->
             seq_base (wh st) <= seq_base (wh st1) ->
             ids_left (wh st) (length rows) = false
             \/ forallb (fk_ok di dt) (fact_rows 0 (window rows)) = false ->
             exists st2 e2, load_fact_table st1 = (st2, Some e2)).
  { intros st1 Hst1 Hdi1 Hdt1 Hseq Hwhy.
    rewrite Hst in Hst1. rewrite Hdi in Hdi1. rewrite Hdt in Hdt1.
    destruct (load_fact_table_cases st1 di dt rows Hdi1 Hdt1 Hst1)
      as [(Hids & Hfk & _)|[(_ & _ & st2 & -> & _)|(_ & st2 & -> & _)]]; eauto.
    exfalso. destruct Hwhy as [Hno|Hno]; [|congruence].
    rewrite (ids_left_mono _ _ _ Hseq Hids) in Hno. discriminate. }
  destruct (load_fact_table_cases st di dt rows Hdi Hdt Hst)
    as [(_ & _ & Hok)|[(_ & Hfk & st1 & H1 & _ & _ & Hs & Hi & Ht & _ & _ & Hseq)
                      |(Hids & st1 & H1 & _ & _ & Hs & Hi & Ht & _ & _ & Hseq)]].
  - rewrite Hok in Hrun. discriminate.
  - rewrite H1 in Hrun. injection Hrun as <- <-. split; [reflexivity|].
    apply Hnext; auto.
  - rewrite H1 in Hrun. injection Hrun as <- <-. split; [reflexivity|].
    apply Hnext; auto.
Qed.

Lemma calculate_volatility_view_fails_again : fails_again calculate_volatility_view.
Proof.
  intros st st' e. unfold calculate_volatility_view.
  destruct (fact_movimentacao_diaria (wh st)) eqn:Hf; [discriminate|].
  intros [= <- <-]. split; [reflexivity|]. rewrite Hf. eauto.
Qed.

Lemma report_top_volatility_fails_again : fails_again _report_top_volatility.
Proof.
  intros st st' e H.
  assert (st' = st /\ should_retry e = true) as [-> Hr].
  { revert H. unfold _report_top_volatility.
    destruct (volatility_weekly (wh st)) as [view|]; [|by intros [= <- <-]].
    unfold report_message.
    destruct (top_volatility_query view) as [|[t [v|]] ?]; try discriminate.
    by intros [= <- <-]. }
  split; [exact Hr|]. eauto.
Qed.

Lemma log_execution_summary_fails_again : fails_again _log_execution_summary.
Proof. intros st st' e. discriminate. Qed.

Lemma dag_fails_again (env : Env) :
  Forall (fun t => fails_again (execute t env)) dag.
Proof.
  unfold dag.
  repeat (first [apply List.Forall_nil | apply List.Forall_cons]); cbn [execute].
  - exact setup_staging_table_fails_again.
  - exact (locate_csv_fails_again env).
  - exact (load_staging_fails_again env).
  - exact run_data_quality_checks_fails_again.
  - exact create_dim_tables_fails_again.
  - exact load_fact_table_fails_again.
  - exact calculate_volatility_view_fails_again.
  - exact report_top_volatility_fails_again.
  - exact log_execution_summary_fails_again.
Qed.

(** X2.  In every run during which nothing but the run touches the files
    and the warehouse, a task that failed was attempted [1 + retries] = 4
    times, whatever it raised: no task raises an exception that stops the
    retries, and a task that failed fails again on the state it left.  A
    task that succeeded did so at its first attempt, and an
    [upstream_failed] task was never attempted. *)
Theorem failed_tasks_use_every_retry (env : Env) (w : Warehouse) (t : TaskInstance) :
  t ∈ task_instances (dag_run env w) ->
  (ti_state t = success -> try_number t = 1%nat)
  /\ (ti_state t = failed -> try_number t = 4%nat)
  /\ (ti_state t = upstream_failed -> try_number t = 0%nat).
Proof.
  intros Hin.
  pose proof (run_chain_tries env dag (dag_fails_again env) true (fresh_run w)) as H.
  unfold dag_run in Hin.
  destruct (run_chain env dag true (fresh_run w)) as [tis st].
  cbn [task_instances fst] in *.
  rewrite (proj1 (Forall_forall _ _) H t Hin).
  by repeat split; intros ->.
Qed.

Lemma failed_tasks_use_every_retry_witness :
  ti "locate_csv" failed 4 ∈ task_instances (dag_run no_file empty_warehouse)
  /\ (ti_state (ti "locate_csv" failed 4) = failed ->
      try_number (ti "locate_csv" failed 4) = 4%nat).
Proof.
  assert (Hin : ti "locate_csv" failed 4
                ∈ task_instances (dag_run no_file empty_warehouse)).
  { apply list_elem_of_In. vm_compute. right. left. reflexivity. }
  split; [exact Hin|].
  exact (proj1 (proj2 (failed_tasks_use_every_retry no_file empty_warehouse _ Hin))).
Defined.

(** ** locate_csv and load_staging *)

Lemma substring_0_fits (s : string) :
  forall n, (String.length s <= n)%nat -> substring 0 n s = s.
Proof.
  induction s as [|c s IH]; intros [|n]; simpl; intros H;
    try reflexivity; [lia|].
  f_equal. apply IH. lia.
Qed.

Lemma length_substring_0 (s : string) :
  forall n, (String.length (substring 0 n s) <= n)%nat.
Proof.
  induction s as [|c s IH]; intros [|n]; simpl; try lia.
  specialize (IH n). lia.
Qed.

Lemma store_varchar_cases (n : nat) (v : option string) :
  (overflows n v
   /\ store_varchar n v = Raise (DatabaseError StringDataRightTruncation))
  \/ (~ overflows n v /\ store_varchar n v = Ok (substring 0 n <$> v)).
Proof.
  unfold store_varchar, overflows. destruct v as [s|]; simpl.
  - destruct (Nat.leb_spec (String.length s) n) as [Hle|Hlt].
    + right. split; [|by rewrite substring_0_fits].
      intros (s' & [= <-] & Hlen & _). lia.
    + destruct (all_spaces _) eqn:Hsp.
      * right. split; [|reflexivity].
        intros (s' & [= <-] & _ & Hns). congruence.
      * left. split; [|reflexivity]. eauto.
  - right. split; [|reflexivity]. intros (s & [=] & _).
Qed.

#[global] Instance Fields_inj : Inj (=) (=) Fields.
Proof. by intros r1 r2 [= ->]. Qed.

Lemma store_date_cases (v : option Z) :
  (within DATE_MIN DATE_END v /\ store_date v = Ok v)
  \/ (~ within DATE_MIN DATE_END v
      /\ store_date v = Raise (DatabaseError DatetimeFieldOverflow)).
Proof.
  unfold store_date, within. destruct v as [d|].
  - destruct (Z.leb_spec DATE_MIN d), (Z.ltb_spec d DATE_END); simpl;
      [left; split; [intros z [= <-]; lia | reflexivity] | ..];
      right; (split; [|reflexivity]); intros Hw; specialize (Hw d eq_refl); lia.
  - left. split; [intros z [=] | reflexivity].
Qed.

Lemma store_bigint_cases (v : option Z) :
  (within (- 2 ^ 63) (2 ^ 63) v /\ store_bigint v = Ok v)
  \/ (~ within (- 2 ^ 63) (2 ^ 63) v
      /\ store_bigint v = Raise (DatabaseError NumericValueOutOfRange)).
Proof.
  unfold store_bigint, within. destruct v as [d|].
  - destruct (Z.leb_spec (- 2 ^ 63) d), (Z.ltb_spec d (2 ^ 63)); simpl;
      [left; split; [intros z [= <-]; lia | reflexivity] | ..];
      right; (split; [|reflexivity]); intros Hw; specialize (Hw d eq_refl); lia.
  - left. split; [intros z [=] | reflexivity].
Qed.

Lemma store_numeric_cases (v : option numeric) :
  (fits_numeric v /\ store_numeric v = Ok v)
  \/ (~ fits_numeric v
      /\ store_numeric v = Raise (DatabaseError NumericValueOutOfRange)).
Proof.
  unfold store_numeric, fits_numeric. destruct v as [x|].
  - destruct (numeric_fits x) eqn:Hx.
    + left. split; [by intros y [= <-] | reflexivity].
    + right. split; [|reflexivity]. intros H. specialize (H x eq_refl). congruence.
  - left. split; [intros x [=] | reflexivity].
Qed.

(** [COPY] stores a record exactly when every field is one its column
    takes. *)
Lemma copy_row_cases (r : Staging.row) :
  (storable r /\ copy_row r = Ok (stored_row r))
  \/ (~ storable r /\ exists d, copy_row r = Raise (DatabaseError d)).
Proof.
  unfold copy_row, storable.
  destruct (store_date_cases (Staging.date r)) as [[Hd ->]|[Hd ->]]; cbn [bind];
    [|right; split; [tauto | eauto]].
  destruct (store_varchar_cases 10 (Staging.symbol r)) as [[Hs ->]|[Hs ->]];
    cbn [bind]; [right; split; [tauto | eauto]|].
  destruct (store_numeric_cases (Staging.open r)) as [[Ho ->]|[Ho ->]]; cbn [bind];
    [|right; split; [tauto | eauto]].
  destruct (store_numeric_cases (Staging.high r)) as [[Hh ->]|[Hh ->]]; cbn [bind];
    [|right; split; [tauto | eauto]].
  destruct (store_numeric_cases (Staging.low r)) as [[Hl ->]|[Hl ->]]; cbn [bind];
    [|right; split; [tauto | eauto]].
  destruct (store_numeric_cases (Staging.close r)) as [[Hc ->]|[Hc ->]]; cbn [bind];
    [|right; split; [tauto | eauto]].
  destruct (store_bigint_cases (Staging.volume r)) as [[Hv ->]|[Hv ->]]; cbn [bind];
    [|right; split; [tauto | eauto]].
  left. split; [tauto | reflexivity].
Qed.

Lemma COPY_staging_cases (data_file : list csv_line) :
  forall table,
    (Exists unloadable data_file
     /\ exists d, COPY_staging data_file table = Raise (DatabaseError d))
    \/ (exists data,
          data_file = Fields <$> data /\ Forall storable data
          /\ COPY_staging data_file table = Ok (table ++ map stored_row data)).
Proof.
  induction data_file as [|l rest IH]; intros table; cbn [COPY_staging].
  - right. exists []. split; [reflexivity|]. split; [constructor|].
    by rewrite app_nil_r.
  - destruct l as [r|e]; cbn [copy_line bind].
    + destruct (copy_row_cases r) as [[Hr ->]|[Hr [d ->]]]; cbn [bind].
      * destruct (IH (table ++ [stored_row r]))
          as [[He Hraise]|(data & -> & Hall & ->)].
        -- left. split; [by right | exact Hraise].
        -- right. exists (r :: data). split; [reflexivity|].
           split; [by constructor|]. by rewrite <- (assoc_L (++)).
      * left. split; [by left | eauto].
    + left. split; [by left | eauto].
Qed.

Lemma quote_storable (d : Z) (s : string) (c : Z) :
  DATE_MIN <= d < DATE_END -> (String.length s <= 10)%nat ->
  numeric_fits (numeric_of_Z c) = true ->
  storable (quote d s c).
Proof.
  intros Hd Hs Hc. unfold storable, quote, within, fits_numeric. simpl.
  split; [intros z [= <-]; exact Hd|].
  split; [intros (s' & [= <-] & Hlen & _); lia|].
  repeat (split; [by intros x [= <-]|]).
  intros z [= <-]. lia.
Qed.

Lemma xyz_quotes_storable : Forall storable xyz_quotes.
Proof.
  repeat (first [apply List.Forall_nil | apply List.Forall_cons]);
    apply quote_storable; first [reflexivity | unfold DATE_MIN, DATE_END; lia
                                | simpl; lia].
Qed.

(** X3.  [locate_csv] followed by [load_staging]: when the staging table
    exists, the file is there, every line of it is a record, and every
    field of every record is one its column takes (a date within [DATE], a
    symbol that does not overflow [VARCHAR(10)], prices within the
    [NUMERIC] format, a volume within [BIGINT]), both tasks succeed and
    staging holds the records of the file, in the file's order, with every
    other relation as it was -- whatever staging and XCom held before. *)
Theorem located_file_is_loaded (env : Env) (st : State) (data : list Staging.row) :
  is_Some (staging (wh st)) ->
  fs env !! csv_path = Some (Fields <$> data) ->
  Forall storable data ->
  exists st1 st2,
    _locate_csv env st = (st1, None)
    /\ _load_staging env st1 = (st2, None)
    /\ wh st2 = set_staging (wh st) (Some (map stored_row data)).
Proof.
  intros [old Hst] Hfs Hfit.
  exists (xcom_push "locate_csv" "csv_path" csv_path st). eexists.
  split; [exact (locate_found env _ st Hfs)|].
  unfold _load_staging, xcom_pull. cbn [xcom_push xcom wh].
  rewrite lookup_insert_eq, Hst, Hfs.
  destruct (COPY_staging_cases (Fields <$> data) [])
    as [[He _]|(data' & Heq & _ & ->)].
  - exfalso. apply Exists_exists in He as (l & Hl & Hno).
    apply list_elem_of_fmap in Hl as (r & -> & Hr).
    exact (Hno (proj1 (Forall_forall _ _) Hfit r Hr)).
  - apply (inj (fmap Fields)) in Heq as <-. split; reflexivity.
Qed.

Lemma located_file_is_loaded_witness :
  wh (fst (_load_staging (env_of xyz_quotes)
             (fst (_locate_csv (env_of xyz_quotes) (fresh_run earlier_warehouse)))))
  = set_staging earlier_warehouse (Some xyz_quotes).
Proof.
  destruct (located_file_is_loaded (env_of xyz_quotes) (fresh_run earlier_warehouse)
              xyz_quotes) as (st1 & st2 & -> & H2 & Hwh).
  - simpl. eauto.
  - reflexivity.
  - exact xyz_quotes_storable.
  - cbn [fst]. rewrite H2. exact Hwh.
Defined.

(** X4.  [load_staging] is all or nothing.  A successful load replaces the
    contents of staging by the records of the file whose path it pulled,
    every line of which is a record, one row per record in the file's
    order, the symbol cut to ten characters, and touches nothing else; a
    failed load leaves the state as it was, the TRUNCATE included. *)
Theorem load_staging_replaces_or_keeps (env : Env) (st st' : State) (e : option exn) :
  _load_staging env st = (st', e) ->
  match e with
  | Some _ => st' = st
  | None =>
      exists path data,
        xcom_pull "locate_csv" "csv_path" st = Some path
        /\ fs env !! path = Some (Fields <$> data)
        /\ st' = with_wh st (set_staging (wh st) (Some (map stored_row data)))
  end.
Proof.
  unfold _load_staging.
  destruct (staging (wh st)); [|by intros [= <- <-]].
  destruct (xcom_pull _ _ st) as [path|]; [|by intros [= <- <-]].
  destruct (fs env !! path) as [data_file|] eqn:Hfs; [|by intros [= <- <-]].
  destruct (COPY_staging_cases data_file []) as [[_ [d ->]]|(data & -> & _ & ->)];
    intros [= <- <-].
  - reflexivity.
  - exists path, data. repeat split; [exact Hfs].
Qed.

Lemma load_staging_replaces_or_keeps_witness :
  _load_staging (env_of xyz_quotes) (after_locate earlier_warehouse)
  = (after_load earlier_warehouse xyz_quotes, None)
  /\ exists path data,
       xcom_pull "locate_csv" "csv_path" (after_locate earlier_warehouse) = Some path
       /\ fs (env_of xyz_quotes) !! path = Some (Fields <$> data)
       /\ after_load earlier_warehouse xyz_quotes
          = with_wh (after_locate earlier_warehouse)
              (set_staging (wh (after_locate earlier_warehouse))
                 (Some (map stored_row data))).
Proof.
  assert (H : _load_staging (env_of xyz_quotes) (after_locate earlier_warehouse)
              = (after_load earlier_warehouse xyz_quotes, None))
    by (vm_compute; reflexivity).
  split; [exact H|].
  exact (load_staging_replaces_or_keeps _ _ _ None H).
Defined.

Lemma overflow_unloadable (r : Staging.row) :
  overflows 10 (Staging.symbol r) -> unloadable (Fields r).
Proof. intros Ho (_ & Hno & _). exact (Hno Ho). Qed.

(** X5.  With the table there and the file found, [load_staging] fails
    exactly when some line of the file is one [COPY] cannot read or a
    record with a field its column refuses: a date outside [DATE], a
    symbol that overflows VARCHAR(10) (more than ten characters, not all
    blank beyond the tenth), a price outside the [NUMERIC] format or a
    volume outside [BIGINT].  One such line fails the whole load and
    leaves the state as it was; so does, in particular, a record with a
    symbol that overflows. *)
Theorem load_staging_refuses_long_symbol (env : Env) (st : State) (path : string)
  (data_file : list csv_line) :
  is_Some (staging (wh st)) ->
  xcom_pull "locate_csv" "csv_path" st = Some path ->
  fs env !! path = Some data_file ->
  ((exists st' e, _load_staging env st = (st', Some e))
   <-> Exists unloadable data_file)
  /\ (Exists (fun l => exists r, l = Fields r /\ overflows 10 (Staging.symbol r))
             data_file ->
      exists d, _load_staging env st = (st, Some (DatabaseError d))).
Proof.
  intros [old Hst] Hpull Hfs. unfold _load_staging. rewrite Hst, Hpull, Hfs.
  destruct (COPY_staging_cases data_file []) as [[He [d ->]]|(data & -> & Hall & ->)].
  - split; [split; [done|]; intros _; eexists _, _; reflexivity|].
    intros _. by exists d.
  - assert (Hno : ~ Exists unloadable (Fields <$> data)).
    { intros (l & Hl & Hun)%Exists_exists.
      apply list_elem_of_fmap in Hl as (r & -> & Hr).
      exact (Hun (proj1 (Forall_forall _ _) Hall r Hr)). }
    split; [split; [intros (st' & e & [=]) | done]|].
    intros (l & Hl & r & -> & Ho)%Exists_exists. exfalso. apply Hno.
    apply Exists_exists. exists (Fields r). split; [exact Hl|].
    by apply overflow_unloadable.
Qed.

Lemma load_staging_refuses_long_symbol_witness :
  (exists st' e,
     _load_staging (env_of [quote 19723 "XYZ" 10; big_volume_quote])
       (after_locate earlier_warehouse) = (st', Some e))
  /\ exists d,
       _load_staging (env_of [quote 19723 "XYZ" 10; long_symbol_quote])
         (after_locate earlier_warehouse)
       = (after_locate earlier_warehouse, Some (DatabaseError d)).
Proof.
  split.
  - apply (proj1 (load_staging_refuses_long_symbol
                    (env_of [quote 19723 "XYZ" 10; big_volume_quote])
                    (after_locate earlier_warehouse) csv_path
                    (Fields <$> [quote 19723 "XYZ" 10; big_volume_quote])
                    (ex_intro _ _ eq_refl) eq_refl eq_refl)).
    right. left. intros (_ & _ & _ & _ & _ & _ & Hv).
    specialize (Hv _ eq_refl). lia.
  - apply (proj2 (load_staging_refuses_long_symbol
                    (env_of [quote 19723 "XYZ" 10; long_symbol_quote])
                    (after_locate earlier_warehouse) csv_path
                    (Fields <$> [quote 19723 "XYZ" 10; long_symbol_quote])
                    (ex_intro _ _ eq_refl) eq_refl eq_refl)).
    right. left. exists long_symbol_quote. split; [reflexivity|].
    exists "PETROBRAS4PN". repeat split. simpl. lia.
Defined.

(** ** run_data_quality_checks *)

(** X6.  The value of the check is never NULL.  On an empty table the SUM
    is NULL, but the comparison of the count with 750000 is false and so is the
    conjunction. *)
Theorem quality_check_is_never_null (rows : list Staging.row) :
  quality_check_sql [] = Some false
  /\ exists b, quality_check_sql rows = Some b.
Proof.
  split; [reflexivity|]. unfold quality_check_sql.
  destruct rows as [|r rows]; [by exists false|].
  cbn [map SUM sql_eqZ].
  destruct (COUNT_star (r :: rows) =? 750000), (_ =? 0); simpl; eauto.
Qed.

(** ** create_dim_tables *)

Lemma elem_of_select_instrumentos (rows : list Staging.row) x :
  x ∈ select_instrumentos rows
  <-> exists r, r ∈ rows
                /\ x = (Staging.symbol r,
                        sql_concat (Some "Ativo ") (Staging.symbol r), Some "Acao").
Proof.
  unfold select_instrumentos. rewrite elem_of_remove_dups, list_elem_of_fmap.
  split; intros (r & H1 & H2); exists r; tauto.
Qed.

Lemma elem_of_select_tempos (rows : list Staging.row) x :
  x ∈ select_tempos rows
  <-> exists r, r ∈ rows
                /\ x = (Staging.date r, EXTRACT_YEAR <$> Staging.date r,
                        EXTRACT_MONTH <$> Staging.date r,
                        EXTRACT_DOW <$> Staging.date r).
Proof.
  unfold select_tempos. rewrite elem_of_remove_dups, list_elem_of_fmap.
  split; intros (r & H1 & H2); exists r; tauto.
Qed.

(** X7.  After [create_dim_tables] succeeded, every staged row has a symbol
    and a date, and both are keys of their dimensions. *)
Theorem create_dim_tables_covers_staging (st st' : State) (rows : list Staging.row)
  (r : Staging.row) :
  staging (wh st) = Some rows ->
  create_dim_tables st = (st', None) ->
  r ∈ rows ->
  exists t d,
    Staging.symbol r = Some t /\ Staging.date r = Some d
    /\ t ∈ map DimInstrumento.ticker (instrumentos (wh st'))
    /\ d ∈ map DimTempo.data_id (tempos (wh st')).
Proof.
  intros Hst Hrun Hr. unfold create_dim_tables in Hrun. rewrite Hst in Hrun.
  destruct (insert_dim_instrumento _ _) as [di|] eqn:Hi; [|discriminate].
  destruct (insert_dim_tempo _ _) as [dt|] eqn:Ht; [|discriminate].
  injection Hrun as <-.
  apply insert_dim_instrumento_keys in Hi. apply insert_dim_tempo_keys in Ht.
  destruct (proj1 (Forall_forall _ _) Hi
              (Staging.symbol r, sql_concat (Some "Ativo ") (Staging.symbol r),
               Some "Acao")) as (t & Hs & Hint).
  { apply elem_of_select_instrumentos. eauto. }
  destruct (proj1 (Forall_forall _ _) Ht
              (Staging.date r, EXTRACT_YEAR <$> Staging.date r,
               EXTRACT_MONTH <$> Staging.date r,
               EXTRACT_DOW <$> Staging.date r)) as (d & Hd & Hind).
  { apply elem_of_select_tempos. eauto. }
  exists t, d. simpl in Hs, Hd. repeat split; assumption.
Qed.

Lemma create_dim_tables_covers_staging_witness :
  exists t d,
    Staging.symbol (quote 19724 "XYZ" 12) = Some t
    /\ Staging.date (quote 19724 "XYZ" 12) = Some d
    /\ t ∈ map DimInstrumento.ticker
             (instrumentos (wh (fst (create_dim_tables overlapping_state))))
    /\ d ∈ map DimTempo.data_id
             (tempos (wh (fst (create_dim_tables overlapping_state)))).
Proof.
  apply (create_dim_tables_covers_staging overlapping_state _ two_ticker_quotes).
  - reflexivity.
  - vm_compute. reflexivity.
  - right. right. left.
Defined.

Lemma insert_dim_instrumento_new sel :
  forall table table' t nome tipo,
    insert_dim_instrumento sel table = Ok table' ->
    (Some t, nome, tipo) ∈ sel ->
    t ∉ map DimInstrumento.ticker table ->
    (forall nome' tipo', (Some t, nome', tipo') ∈ sel -> nome' = nome /\ tipo' = tipo) ->
    {| DimInstrumento.ticker := t; DimInstrumento.nome_ativo := nome;
       DimInstrumento.tipo_ativo := tipo |} ∈ table'.
Proof.
  induction sel as [|[[[t0|] n0] tp0] rest IH];
    intros table table' t nome tipo; simpl.
  - intros _ H. by apply elem_of_nil in H.
  - intros Hins Hin Hnew Huniq. case_bool_decide as Hkey.
    + apply elem_of_cons in Hin as [[= <- <- <-] | Hin]; [contradiction|].
      apply (IH _ _ _ _ _ Hins Hin Hnew). intros n' tp' H'. apply Huniq. by right.
    + destruct (decide (t0 = t)) as [->|Hne].
      * destruct (Huniq n0 tp0) as [-> ->]; [by left|].
        apply insert_dim_instrumento_prefix in Hins as [k ->].
        apply elem_of_app. left. apply elem_of_app. right. left.
      * apply elem_of_cons in Hin as [[= <- <- <-] | Hin]; [contradiction|].
        apply (IH _ _ _ _ _ Hins Hin).
        -- rewrite map_app, elem_of_app. simpl. intros [H|H]; [contradiction|].
           apply list_elem_of_singleton in H. congruence.
        -- intros n' tp' H'. apply Huniq. by right.
  - discriminate.
Qed.

Lemma insert_dim_tempo_new sel :
  forall table table' d y m dow,
    insert_dim_tempo sel table = Ok table' ->
    (Some d, y, m, dow) ∈ sel ->
    d ∉ map DimTempo.data_id table ->
    (forall y' m' dow', (Some d, y', m', dow') ∈ sel -> y' = y /\ m' = m /\ dow' = dow) ->
    {| DimTempo.data_id := d; DimTempo.ano := y; DimTempo.mes := m;
       DimTempo.dia_da_semana := dow |} ∈ table'.
Proof.
  induction sel as [|[[[[d0|] y0] m0] dow0] rest IH];
    intros table table' d y m dow; simpl.
  - intros _ H. by apply elem_of_nil in H.
  - intros Hins Hin Hnew Huniq. case_bool_decide as Hkey.
    + apply elem_of_cons in Hin as [[= <- <- <- <-] | Hin]; [contradiction|].
      apply (IH _ _ _ _ _ _ Hins Hin Hnew). intros y' m' dow' H'. apply Huniq. by right.
    + destruct (decide (d0 = d)) as [->|Hne].
      * destruct (Huniq y0 m0 dow0) as (-> & -> & ->); [by left|].
        apply insert_dim_tempo_prefix in Hins as [k ->].
        apply elem_of_app. left. apply elem_of_app. right. left.
      * apply elem_of_cons in Hin as [[= <- <- <- <-] | Hin]; [contradiction|].
        apply (IH _ _ _ _ _ _ Hins Hin).
        -- rewrite map_app, elem_of_app. simpl. intros [H|H]; [contradiction|].
           apply list_elem_of_singleton in H. congruence.
        -- intros y' m' dow' H'. apply Huniq. by right.
  - discriminate.
Qed.

(** X8.  A staged symbol that was not yet a key of [dim_instrumento] gets
    the row (symbol, 'Ativo ' || symbol, 'Acao'), and a staged date that was
    not yet a key of [dim_tempo] gets the row with its year, month and day
    of the week. *)
Theorem create_dim_tables_describes_new_keys (st st' : State)
  (rows : list Staging.row) (r : Staging.row) (t : string) (d : Z) :
  staging (wh st) = Some rows ->
  create_dim_tables st = (st', None) ->
  r ∈ rows -> Staging.symbol r = Some t -> Staging.date r = Some d ->
  (t ∉ map DimInstrumento.ticker (instrumentos (wh st)) ->
   instrumento_of t ∈ instrumentos (wh st'))
  /\ (d ∉ map DimTempo.data_id (tempos (wh st)) ->
      tempo_of d ∈ tempos (wh st')).
Proof.
  intros Hst Hrun Hr Hs Hd. unfold create_dim_tables in Hrun. rewrite Hst in Hrun.
  destruct (insert_dim_instrumento _ _) as [di|] eqn:Hi; [|discriminate].
  destruct (insert_dim_tempo _ _) as [dt|] eqn:Ht; [|discriminate].
  injection Hrun as <-. split; intros Hnew.
  - apply (insert_dim_instrumento_new _ _ _ _ _ _ Hi); [|exact Hnew|].
    + apply elem_of_select_instrumentos. exists r. by rewrite Hs.
    + intros n' tp' (r' & _ & [= Hs' -> ->])%elem_of_select_instrumentos.
      by rewrite <- Hs'.
  - apply (insert_dim_tempo_new _ _ _ _ _ _ _ Ht); [|exact Hnew|].
    + apply elem_of_select_tempos. exists r. by rewrite Hd.
    + intros y' m' dow' (r' & _ & [= Hd' -> -> ->])%elem_of_select_tempos.
      by rewrite <- Hd'.
Qed.

Lemma create_dim_tables_describes_new_keys_witness :
  instrumento_of "XYZ" ∈ instrumentos (wh (fst (create_dim_tables overlapping_state)))
  /\ tempo_of 19724 ∈ tempos (wh (fst (create_dim_tables overlapping_state))).
Proof.
  destruct (create_dim_tables_describes_new_keys overlapping_state
              (fst (create_dim_tables overlapping_state)) two_ticker_quotes
              (quote 19724 "XYZ" 12) "XYZ" 19724) as [Hi Ht].
  - reflexivity.
  - vm_compute. reflexivity.
  - right. right. left.
  - reflexivity.
  - reflexivity.
  - split; [apply Hi | apply Ht].
    + apply (bool_decide_unpack _). vm_compute. exact I.
    + apply (bool_decide_unpack _). vm_compute. exact I.
Defined.





(** X10.  [create_dim_tables] followed by [load_fact_table]: once the
    dimensions are filled from staging, loading the facts finds its tables
    and never violates a foreign key.  When it succeeds, it leaves one fact
    row for each staged row; it does not succeed when the sequence has no
    id left for every row, and the fact table then keeps the rows it had.
    Over the five quotes of ABC and XYZ and a dimension that has ABC only,
    the two tasks succeed and leave five facts. *)
Theorem dimensions_then_facts :
  (forall st st1 : State,
     create_dim_tables st = (st1, None) ->
     exists rows st2 e,
       staging (wh st) = Some rows
       /\ load_fact_table st1 = (st2, e)
       /\ e <> Some (DatabaseError ForeignKeyViolation)
       /\ e <> Some (DatabaseError UndefinedTable)
       /\ (e = None ->
           exists facts, fact_movimentacao_diaria (wh st2) = Some facts
                         /\ length facts = length rows)
       /\ (ids_left (wh st1) (length rows) = false ->
           e <> None
           /\ fact_movimentacao_diaria (wh st2) = fact_movimentacao_diaria (wh st1)))
  /\ snd (create_dim_tables overlapping_state) = None
  /\ snd (load_fact_table (fst (create_dim_tables overlapping_state))) = None
  /\ length <$> fact_movimentacao_diaria
                  (wh (fst (load_fact_table (fst (create_dim_tables overlapping_state)))))
     = Some 5%nat.
Proof.
  split; [|repeat split; vm_compute; reflexivity].
  intros st st1. unfold create_dim_tables.
  destruct (staging (wh st)) as [rows|] eqn:Hst; [|discriminate].
  destruct (insert_dim_instrumento _ _) as [di|] eqn:Hi; [|discriminate].
  destruct (insert_dim_tempo _ _) as [dt|] eqn:Ht; [|discriminate].
  intros [= <-]. exists rows.
  set (st1 := with_wh st (set_dims (wh st) (Some di) (Some dt))).
  pose proof (fact_rows_fk_ok rows _ _ _ _ 0 Hi Ht) as Hfk.
  destruct (load_fact_table_cases st1 di dt rows eq_refl eq_refl Hst)
    as [(Hids & _ & ->)|[(_ & Hno & _)|(Hids & st2 & -> & _ & _ & _ & _ & _ & Hf & _)]].
  - eexists _, None. split; [reflexivity|]. split; [reflexivity|].
    split; [discriminate|]. split; [discriminate|]. split.
    + intros _. eexists. split; [reflexivity|].
      by rewrite fact_rows_length, window_length.
    + congruence.
  - congruence.
  - eexists st2, _. split; [reflexivity|]. split; [reflexivity|].
    split; [discriminate|]. split; [discriminate|].
    split; [discriminate|]. intros _. split; [discriminate | exact Hf].
Qed.

Lemma dimensions_then_facts_witness :
  exists rows st2 e,
    staging (wh overlapping_state) = Some rows
    /\ load_fact_table (fst (create_dim_tables overlapping_state)) = (st2, e)
    /\ e <> Some (DatabaseError ForeignKeyViolation)
    /\ e <> Some (DatabaseError UndefinedTable)
    /\ (e = None ->
        exists facts, fact_movimentacao_diaria (wh st2) = Some facts
                      /\ length facts = length rows)
    /\ (ids_left (wh (fst (create_dim_tables overlapping_state))) (length rows)
        = false ->
        e <> None
        /\ fact_movimentacao_diaria (wh st2)
           = fact_movimentacao_diaria (wh (fst (create_dim_tables overlapping_state)))).
Proof.
  apply (proj1 dimensions_then_facts overlapping_state). vm_compute. reflexivity.
Defined.

(** ** load_fact_table *)

Lemma quote_of_fact_rows (sel : list (Staging.row * option numeric)) :
  forall seq, map quote_of (fact_rows seq sel) = map fst sel.
Proof.
  induction sel as [|[s lag] rest IH]; intros seq; simpl; [reflexivity|].
  rewrite IH. f_equal. by destruct s.
Qed.

Lemma map_fst_with_lag_close (l : list Staging.row) :
  forall prev, map fst (with_lag_close prev l) = l.
Proof.
  induction l as [|r rest IH]; intros prev; [reflexivity|].
  rewrite with_lag_close_head. simpl. by rewrite IH.
Qed.

(** X11.  The fact table [load_fact_table] leaves is staging re-ordered:
    one fact row for each staged row, duplicates included, with the
    symbol, date, prices and volume of that row; what the table held
    before is gone. *)
Theorem load_fact_table_keeps_quotes (st st' : State) (rows : list Staging.row) :
  staging (wh st) = Some rows ->
  load_fact_table st = (st', None) ->
  exists facts,
    fact_movimentacao_diaria (wh st') = Some facts
    /\ map quote_of facts ≡ₚ rows.
Proof.
  intros Hst Hrun.
  destruct (load_fact_table_done st st' rows Hst Hrun) as [seq Hfacts].
  eexists. split; [exact Hfacts|].
  rewrite quote_of_fact_rows, map_fst_with_lag_close. apply window_sort_perm.
Qed.

Lemma load_fact_table_keeps_quotes_witness :
  exists facts,
    fact_movimentacao_diaria (wh (fst (load_fact_table (staged repeated_quotes))))
    = Some facts
    /\ map quote_of facts ≡ₚ repeated_quotes.
Proof.
  apply (load_fact_table_keeps_quotes (staged repeated_quotes)).
  - reflexivity.
  - vm_compute. reflexivity.
Defined.

Lemma fact_rows_ids (sel : list (Staging.row * option numeric)) :
  forall seq,
    map Fact.id (fact_rows seq sel) = seqZ (seq + 1) (Z.of_nat (length sel)).
Proof.
  induction sel as [|[s lag] rest IH]; intros seq; [reflexivity|].
  cbn [fact_rows map length fact_row Fact.id].
  rewrite seqZ_cons by lia. rewrite IH. do 2 f_equal; lia.
Qed.

(** X12.  The ids of a loaded fact table are consecutive and unique: they
    start right after the value the sequence stands at (0 when the table
    is new, the last id ever handed out otherwise, TRUNCATE not resetting
    it), and the sequence ends at the last of them. *)
Theorem load_fact_table_numbers_rows (st st' : State) (rows : list Staging.row) :
  staging (wh st) = Some rows ->
  load_fact_table st = (st', None) ->
  exists facts,
    fact_movimentacao_diaria (wh st') = Some facts
    /\ map Fact.id facts
       = seqZ (seq_base (wh st) + 1) (Z.of_nat (length rows))
    /\ NoDup (map Fact.id facts)
    /\ fact_id_seq (wh st') = seq_base (wh st) + Z.of_nat (length rows).
Proof.
  intros Hst Hrun.
  destruct (dim_instrumento (wh st)) as [di|] eqn:Hdi;
    [|unfold load_fact_table in Hrun; rewrite Hdi in Hrun; discriminate].
  destruct (dim_tempo (wh st)) as [dt|] eqn:Hdt;
    [|unfold load_fact_table in Hrun; rewrite Hdi, Hdt in Hrun; discriminate].
  destruct (load_fact_table_cases st di dt rows Hdi Hdt Hst)
    as [(_ & _ & Hok)|[(_ & _ & st1 & H1 & _)|(_ & st1 & H1 & _)]];
    [|congruence..].
  rewrite Hok in Hrun. injection Hrun as <-.
  assert (Hids : map Fact.id (fact_rows (seq_base (wh st)) (window rows))
                 = seqZ (seq_base (wh st) + 1) (Z.of_nat (length rows)))
    by (by rewrite fact_rows_ids, window_length).
  eexists. split; [reflexivity|]. split; [exact Hids|]. split.
  - rewrite Hids. apply NoDup_seqZ.
  - reflexivity.
Qed.

Lemma load_fact_table_numbers_rows_witness :
  exists facts,
    fact_movimentacao_diaria (wh (fst (load_fact_table (staged xyz_quotes))))
    = Some facts
    /\ map Fact.id facts = seqZ (seq_base (wh (staged xyz_quotes)) + 1) 3
    /\ NoDup (map Fact.id facts)
    /\ fact_id_seq (wh (fst (load_fact_table (staged xyz_quotes))))
       = seq_base (wh (staged xyz_quotes)) + 3.
Proof.
  apply (load_fact_table_numbers_rows (staged xyz_quotes) _ xyz_quotes).
  - reflexivity.
  - vm_compute. reflexivity.
Defined.

Lemma window_elem_of (rows : list Staging.row) (r : Staging.row) :
  r ∈ rows -> exists lag, (r, lag) ∈ window rows.
Proof.
  intros Hr. rewrite <- (window_sort_perm rows) in Hr.
  apply list_elem_of_split in Hr as (l1 & l2 & Hl).
  exists (lag_after (predecessor None l1) r). unfold window. rewrite Hl.
  apply with_lag_close_elem_of.
Qed.

Lemma fk_ok_fact_row di dt (i : Z) (s : Staging.row) (lag : option numeric) :
  fk_ok di dt (fact_row i s lag) = true <-> ~ dangling di dt s.
Proof.
  unfold fk_ok, references, dangling. cbn [fact_row Fact.ticker Fact.data_id].
  rewrite andb_true_iff. split.
  - intros [Ht Hd] [(t & Hs & Hno)|(d & Hs & Hno)]; rewrite Hs in *;
      apply bool_decide_eq_true_1 in Ht || apply bool_decide_eq_true_1 in Hd;
      contradiction.
  - intros Hno. split.
    + destruct (Staging.symbol s) as [t|]; [|reflexivity].
      apply bool_decide_eq_true_2.
      destruct (decide (t ∈ map DimInstrumento.ticker di)) as [|Hn]; [done|].
      exfalso. apply Hno. left. eauto.
    + destruct (Staging.date s) as [d|]; [|reflexivity].
      apply bool_decide_eq_true_2.
      destruct (decide (d ∈ map DimTempo.data_id dt)) as [|Hn]; [done|].
      exfalso. apply Hno. right. eauto.
Qed.

Lemma forallb_fk_ok_window di dt (rows : list Staging.row) (seq : Z) :
  forallb (fk_ok di dt) (fact_rows seq (window rows)) = true
  <-> Forall (fun r => ~ dangling di dt r) rows.
Proof.
  rewrite forallb_forall, Forall_forall. split.
  - intros H r Hr. destruct (window_elem_of rows r Hr) as [lag Hin].
    destruct (fact_rows_elem_of _ _ _ Hin seq) as [i Hf].
    apply (fk_ok_fact_row di dt i r lag), H, list_elem_of_In, Hf.
  - intros H f Hf.
    apply list_elem_of_In, elem_of_fact_rows in Hf as (i & s & lag & Hin & ->).
    apply fk_ok_fact_row, H. exact (elem_of_window _ _ _ Hin).
Qed.

Lemma forallb_false {A : Type} (f : A -> bool) (l : list A) :
  forallb f l = false -> exists x, x ∈ l /\ f x = false.
Proof.
  induction l as [|a l IH]; simpl; [discriminate|].
  destruct (f a) eqn:Ha; simpl.
  - intros (x & Hx & Hf)%IH. exists x. split; [by right | exact Hf].
  - intros _. exists a. split; [left | exact Ha].
Qed.

Lemma fk_ok_fact_row_false di dt (i : Z) (s : Staging.row) (lag : option numeric) :
  fk_ok di dt (fact_row i s lag) = false -> dangling di dt s.
Proof.
  unfold fk_ok, references, dangling. cbn [fact_row Fact.ticker Fact.data_id].
  rewrite andb_false_iff. intros [H|H]; [left | right].
  - destruct (Staging.symbol s) as [t|]; [|discriminate].
    exists t. split; [reflexivity|]. exact (proj1 (bool_decide_eq_false _) H).
  - destruct (Staging.date s) as [d|]; [|discriminate].
    exists d. split; [reflexivity|]. exact (proj1 (bool_decide_eq_false _) H).
Qed.

(** X13.  With the dimensions and staging there, [load_fact_table] does
    not succeed when some staged row has a symbol or a date that is not a
    key of its dimension (a NULL one refers to nothing and passes), and a
    foreign-key violation is raised only then.  The fact table of a failed
    load keeps the rows it had.  Over a dimension that has XYZ only, the
    quotes of XYZ are loaded and the quotes of ABC and XYZ raise a
    foreign-key violation. *)
Theorem load_fact_table_fails_on_missing_key :
  (forall (st : State) (di : list DimInstrumento.row) (dt : list DimTempo.row)
          (rows : list Staging.row),
     dim_instrumento (wh st) = Some di -> dim_tempo (wh st) = Some dt ->
     staging (wh st) = Some rows ->
     (Exists (dangling di dt) rows ->
      exists st' e,
        load_fact_table st = (st', Some e)
        /\ fact_movimentacao_diaria (wh st') = fact_movimentacao_diaria (wh st))
     /\ (forall st',
           load_fact_table st = (st', Some (DatabaseError ForeignKeyViolation)) ->
           Exists (dangling di dt) rows
           /\ fact_movimentacao_diaria (wh st') = fact_movimentacao_diaria (wh st))
     /\ (forall st', load_fact_table st = (st', None) ->
           Forall (fun r => ~ dangling di dt r) rows))
  /\ snd (load_fact_table (staged xyz_quotes)) = None
  /\ snd (load_fact_table (staged two_ticker_quotes))
     = Some (DatabaseError ForeignKeyViolation).
Proof.
  split; [|split; vm_compute; reflexivity].
  intros st di dt rows Hdi Hdt Hst.
  assert (Hfk : forallb (fk_ok di dt) (fact_rows 0 (window rows)) = false
                -> Exists (dangling di dt) rows).
  { intros (f & Hf & Hno)%forallb_false.
    apply elem_of_fact_rows in Hf as (i & r & lag & Hin & ->).
    apply Exists_exists. exists r. split; [exact (elem_of_window _ _ _ Hin)|].
    exact (fk_ok_fact_row_false _ _ _ _ _ Hno). }
  assert (Hok : forallb (fk_ok di dt) (fact_rows 0 (window rows)) = true
                -> Forall (fun r => ~ dangling di dt r) rows)
    by apply forallb_fk_ok_window.
  destruct (load_fact_table_cases st di dt rows Hdi Hdt Hst)
    as [(_ & Hyes & ->)|[(_ & Hno & st1 & -> & _ & _ & _ & _ & _ & Hf & _)
                        |(_ & st1 & -> & _ & _ & _ & _ & _ & Hf & _)]].
  - split; [|split; [intros st' [=] | intros st' _; by apply Hok]].
    intros (r & Hr & Hd)%Exists_exists. exfalso.
    exact (proj1 (Forall_forall _ _) (Hok Hyes) r Hr Hd).
  - split; [intros _; by eexists _, _|].
    split; [|intros st' [=]]. intros st' [= <-]. split; [by apply Hfk | exact Hf].
  - split; [intros _; by eexists _, _|].
    split; intros st' [=].
Qed.

Lemma load_fact_table_fails_on_missing_key_witness :
  Exists (dangling [instrumento_of "XYZ"] (map tempo_of [19723; 19724; 19725]))
         two_ticker_quotes
  /\ exists st' e,
       load_fact_table (staged two_ticker_quotes) = (st', Some e)
       /\ fact_movimentacao_diaria (wh st')
          = fact_movimentacao_diaria (wh (staged two_ticker_quotes)).
Proof.
  assert (Hd : Exists (dangling [instrumento_of "XYZ"]
                         (map tempo_of [19723; 19724; 19725])) two_ticker_quotes).
  { right. left. left. exists "ABC". split; [reflexivity|].
    apply (bool_decide_unpack _). vm_compute. exact I. }
  split; [exact Hd|].
  exact (proj1 (proj1 load_fact_table_fails_on_missing_key (staged two_ticker_quotes)
                  _ _ two_ticker_quotes eq_refl eq_refl eq_refl) Hd).
Defined.

(** ** calculate_volatility_view *)

Lemma volatility_query_keys (facts : list Fact.row) :
  map vol_key (volatility_query facts)
  = remove_dups
      (map week_key (filter (fun f => is_Some (Fact.variacao_diaria f)) facts)).
Proof.
  unfold volatility_query. rewrite map_map.
  rewrite <- (map_id (remove_dups _)) at 2. apply map_ext. by intros [t wk].
Qed.

(** X14.  The weekly view has one row for each (ticker, week) in which
    some fact has a daily change that is not NULL, and no other row: its
    keys are unique, and a week holding only first quotes, whose change is
    NULL, has no row. *)
Theorem volatility_view_groups (facts : list Fact.row) :
  NoDup (map vol_key (volatility_query facts))
  /\ forall k,
       k ∈ map vol_key (volatility_query facts)
       <-> exists f, f ∈ facts /\ is_Some (Fact.variacao_diaria f) /\ week_key f = k.
Proof.
  rewrite volatility_query_keys. split; [apply NoDup_remove_dups|].
  intros k. rewrite elem_of_remove_dups.
  change (map week_key ?l) with (week_key <$> l). rewrite list_elem_of_fmap.
  split.
  - intros (f & -> & Hf). apply list_elem_of_filter in Hf as [Hv Hf]. eauto.
  - intros (f & Hf & Hv & <-). exists f. split; [reflexivity|].
    apply list_elem_of_filter. auto.
Qed.

Lemma num_value_nonneg (x : numeric) :
  0 <= unscaled x -> (0 <= num_value x)%Q.
Proof.
  intros Hx. rewrite num_value_ten. apply Qmult_le_0_compat.
  - change 0%Q with (inject_Z 0). by rewrite <- Zle_Qle.
  - apply Qlt_le_weak, ten_pos.
Qed.

Lemma sqrt_var_nonneg (x : numeric) (rscale : nat) :
  0 <= unscaled (sqrt_var x rscale).
Proof.
  unfold sqrt_var. cbn [unscaled]. apply Z.div_pos; [|lia].
  pose proof (Z.sqrt_nonneg (4 * unscaled x * pow10 (2 * rscale) / pow10 (dscale x))).
  lia.
Qed.

Lemma STDDEV_SAMP_cases (xs : list numeric) :
  (STDDEV_SAMP xs = None /\ (length xs <= 1)%nat)
  \/ (exists x, STDDEV_SAMP xs = Some x /\ (0 <= num_value x)%Q
                 /\ (2 <= length xs)%nat).
Proof.
  unfold STDDEV_SAMP.
  destruct (Z.leb_spec (Z.of_nat (length xs)) 1) as [Hle|Hgt].
  - left. split; [reflexivity | lia].
  - right. cbv zeta. destruct (_ <=? 0); eexists; (split; [reflexivity|]); split;
      try lia; apply num_value_nonneg; [reflexivity | apply sqrt_var_nonneg].
Qed.

(** X15.  Every row of the view stands for at least one daily change; its
    volatility is NULL exactly when it stands for one only, and is never
    negative otherwise. *)
Theorem volatility_is_null_or_nonnegative (facts : list Fact.row) (v : Vol.row) :
  v ∈ volatility_query facts ->
  (1 <= length (changes_of facts (vol_key v)))%nat
  /\ (Vol.vol v = None <-> length (changes_of facts (vol_key v)) = 1%nat)
  /\ forall x, Vol.vol v = Some x -> (0 <= num_value x)%Q.
Proof.
  unfold volatility_query, changes_of. intros Hv.
  apply list_elem_of_fmap in Hv as (k & -> & Hk).
  rewrite <- list_filter_filter.
  set (rows := filter (fun f => is_Some (Fact.variacao_diaria f)) facts) in *.
  unfold vol_key. cbn [Vol.ticker Vol.week Vol.vol].
  replace (k.1, k.2) with k by (by destruct k).
  set (group := filter (fun f => week_key f = k) rows).
  assert (Hlen : length (omap Fact.variacao_diaria group) = length group).
  { apply omap_length_all, Forall_forall. intros f Hf.
    apply list_elem_of_filter in Hf as [_ Hf].
    by apply list_elem_of_filter in Hf as [Hf _]. }
  assert (Hone : (1 <= length group)%nat).
  { apply elem_of_remove_dups, list_elem_of_fmap in Hk as (f & -> & Hf).
    assert (Hin : f ∈ group) by (by apply list_elem_of_filter).
    destruct group; [by apply elem_of_nil in Hin | simpl; lia]. }
  split; [exact Hone|].
  destruct (STDDEV_SAMP_cases (omap Fact.variacao_diaria group))
    as [[-> Hle]|(x & -> & Hx & Hge)]; rewrite Hlen in *.
  - split; [split; [lia | reflexivity] | discriminate].
  - split; [split; [discriminate | lia]|]. by intros x' [= <-].
Qed.

Lemma volatility_is_null_or_nonnegative_witness :
  Vol.vol {| Vol.ticker := Some "ABC"; Vol.week := Some 19723; Vol.vol := None |} = None
  <-> length (changes_of week_facts (Some "ABC", Some 19723)) = 1%nat.
Proof.
  apply (volatility_is_null_or_nonnegative week_facts
           {| Vol.ticker := Some "ABC"; Vol.week := Some 19723; Vol.vol := None |}).
  apply list_elem_of_In. vm_compute. left. reflexivity.
Defined.

(** ** report_top_volatility and log_execution_summary *)

Lemma top_volatility_query_in (view : list Vol.row) t a :
  top_volatility_query view = [(t, a)] ->
  a = avg_volatility view t /\ t ∈ map Vol.ticker view.
Proof.
  unfold top_volatility_query. intros Htop.
  set (rows := map _ (remove_dups (map Vol.ticker view))) in *.
  assert (Hin : (t, a) ∈ rows).
  { rewrite <- (merge_sort_Permutation desc_nulls_first rows).
    destruct (merge_sort desc_nulls_first rows) as [|x l]; [discriminate|].
    injection Htop as ->. left. }
  apply list_elem_of_fmap in Hin as (t' & [= -> ->] & Ht).
  split; [reflexivity|]. exact (proj1 (elem_of_remove_dups _ _) Ht).
Qed.

(** X16.  Over a view that is not empty, a report that succeeds names a
    ticker of the view whose average no other ticker exceeds, and pushes
    the message that carries that average with two decimals, as [.2f]
    writes the float nearest to it; a report that fails with [TypeError]
    had a ticker without an average.  So over XYZ at 2.675 and ABC at 0.5
    and 2.0 it names XYZ with 2.67, the float nearest to 2.675 being
    below it. *)
Theorem report_names_highest_average (st st' : State) (view : list Vol.row)
  (e : option exn) :
  volatility_weekly (wh st) = Some view ->
  view <> [] ->
  _report_top_volatility st = (st', e) ->
  (e = None ->
   exists t x,
     t ∈ map Vol.ticker view
     /\ avg_volatility view t = Some x
     /\ (forall v, v ∈ view ->
           exists y, avg_volatility view (Vol.ticker v) = Some y
                     /\ (num_value y <= num_value x)%Q)
     /\ st' = xcom_push "report_top_volatility" "report_message"
                (top_message t x) st)
  /\ (e = Some TypeError ->
      exists v, v ∈ view /\ avg_volatility view (Vol.ticker v) = None)
  /\ _report_top_volatility (with_view full_view)
     = (xcom_push "report_top_volatility" "report_message"
          "Ativo XYZ registrou maior volatilidade média (2.67%) na semana. Recomenda-se revisar hedge e limites."
          (with_view full_view), None)
  /\ format_2f (Numeric 2675 3) = "2.67"
  /\ format_2f (Numeric 2685 3) = "2.69"
  /\ format_2f (Numeric 125 3) = "0.12"
  /\ format_2f (Numeric (-4) 3) = "-0.00".
Proof.
  intros Hview Hne Hrun.
  split; [|split; [|repeat split; vm_compute; reflexivity]].
  - intros ->. unfold _report_top_volatility in Hrun. rewrite Hview in Hrun.
    destruct (top_volatility_query_one view Hne) as (t & a & Htop).
    destruct (top_volatility_query_in view t a Htop) as [Ha Ht].
    rewrite Htop in Hrun. cbn [report_message] in Hrun.
    destruct a as [x|]; [|discriminate]. injection Hrun as <-.
    exists t, x. split; [exact Ht|]. split; [by symmetry|].
    split; [exact (top_volatility_query_highest view t x Htop) | reflexivity].
  - intros ->. unfold _report_top_volatility in Hrun. rewrite Hview in Hrun.
    destruct (top_volatility_query_one view Hne) as (t & a & Htop).
    destruct (top_volatility_query_in view t a Htop) as [Ha Ht].
    rewrite Htop in Hrun. cbn [report_message] in Hrun.
    destruct a as [x|]; [discriminate|].
    apply list_elem_of_fmap in Ht as (v & -> & Hv). exists v. by split.
Qed.

Lemma report_names_highest_average_witness :
  exists t x,
    t ∈ map Vol.ticker full_view
    /\ avg_volatility full_view t = Some x
    /\ (forall v, v ∈ full_view ->
          exists y, avg_volatility full_view (Vol.ticker v) = Some y
                    /\ (num_value y <= num_value x)%Q)
    /\ fst (_report_top_volatility (with_view full_view))
       = xcom_push "report_top_volatility" "report_message" (top_message t x)
           (with_view full_view).
Proof.
  apply (proj1 (report_names_highest_average (with_view full_view)
                  (fst (_report_top_volatility (with_view full_view)))
                  full_view None eq_refl ltac:(discriminate)
                  ltac:(vm_compute; reflexivity))).
  reflexivity.
Defined.

(** X17.  [report_top_volatility] followed by [log_execution_summary]: the
    message the report pushed is the one the log task pulls, and the log
    gains the one line 'Resumo executivo: ' followed by it; over an empty
    view that message says that no volatility data is available.  The log
    task does not fail and leaves the warehouse and XCom alone. *)
Theorem report_is_logged (st st1 : State) :
  _report_top_volatility st = (st1, None) ->
  exists message,
    xcom_pull "report_top_volatility" "report_message" st1 = Some message
    /\ (volatility_weekly (wh st) = Some [] -> message = no_data_message)
    /\ _log_execution_summary st1
       = ({| wh := wh st; xcom := xcom st1;
             log := log st ++ [("Resumo executivo: " ++ message)%string] |}, None).
Proof.
  unfold _report_top_volatility.
  destruct (volatility_weekly (wh st)) as [view|]; [|discriminate].
  destruct (report_message (top_volatility_query view)) as [message|] eqn:Hmsg;
    [|discriminate].
  intros [= <-]. exists message.
  assert (Hpull : xcom_pull "report_top_volatility" "report_message"
                    (xcom_push "report_top_volatility" "report_message" message st)
                  = Some message).
  { unfold xcom_pull, xcom_push. cbn [xcom]. apply lookup_insert_eq. }
  split; [exact Hpull|]. split.
  - intros [= ->]. by injection Hmsg as <-.
  - unfold _log_execution_summary. rewrite Hpull. reflexivity.
Qed.

Lemma report_is_logged_witness :
  exists message,
    xcom_pull "report_top_volatility" "report_message"
      (fst (_report_top_volatility (with_view []))) = Some message
    /\ (volatility_weekly (wh (with_view [])) = Some [] -> message = no_data_message)
    /\ _log_execution_summary (fst (_report_top_volatility (with_view [])))
       = ({| wh := wh (with_view []);
             xcom := xcom (fst (_report_top_volatility (with_view [])));
             log := log (with_view [])
                    ++ [("Resumo executivo: " ++ message)%string] |}, None).
Proof.
  apply (report_is_logged (with_view [])). reflexivity.
Defined.

(** ** The run as a whole *)

Lemma upstream_wh_cases (env : Env) (w : Warehouse) :
  (exists s, pipeline_wh env w = set_staging w s)
  \/ exists data,
       fs env !! csv_path = Some (Fields <$> data)
       /\ quality_check_sql (map stored_row data) = Some true
       /\ pipeline_wh env w
          = downstream_wh
              (set_staging (set_staging w (create_table_if_not_exists (staging w)))
                 (Some (map stored_row data))).
Proof.
  unfold pipeline_wh, upstream_wh.
  destruct (fs env !! csv_path) as [data_file|] eqn:Hfs; [|left; eauto].
  destruct (COPY_staging_cases data_file []) as [[_ [d ->]]|(data & -> & _ & ->)];
    [left; eauto|].
  case_bool_decide as Hq; [|left; by eexists].
  right. exists data. auto.
Qed.

(** X18.  A run changes a dimension, the fact table, its sequence or the
    view only when the file was found and its records, as staged, passed
    the quality check: 750000 rows, none with a NULL date or close.  In
    every other run all of them are left as they were. *)
Theorem downstream_changes_only_past_the_gate (env : Env) (w : Warehouse) :
  dim_instrumento (run_pipeline env w) <> dim_instrumento w
  \/ dim_tempo (run_pipeline env w) <> dim_tempo w
  \/ fact_movimentacao_diaria (run_pipeline env w) <> fact_movimentacao_diaria w
  \/ fact_id_seq (run_pipeline env w) <> fact_id_seq w
  \/ volatility_weekly (run_pipeline env w) <> volatility_weekly w ->
  exists data,
    fs env !! csv_path = Some (Fields <$> data)
    /\ staging (run_pipeline env w) = Some (map stored_row data)
    /\ COUNT_star data = 750000
    /\ Forall complete (map stored_row data).
Proof.
  rewrite run_pipeline_eq.
  destruct (upstream_wh_cases env w) as [[s ->]|(data & Hfs & Hq & ->)].
  - intros H. exfalso. cbn in H. tauto.
  - intros _. exists data. split; [exact Hfs|].
    rewrite downstream_wh_staging. split; [reflexivity|].
    destruct (quality_check_holds _ Hq) as [Hcount Hall].
    split; [|exact Hall].
    unfold COUNT_star in *. by rewrite length_map in Hcount.
Qed.

Lemma downstream_changes_only_past_the_gate_witness :
  exists data,
    fs (env_of full_csv) !! csv_path = Some (Fields <$> data)
    /\ staging (run_pipeline (env_of full_csv)
                  (run_pipeline (env_of full_csv) empty_warehouse))
       = Some (map stored_row data)
    /\ COUNT_star data = 750000
    /\ Forall complete (map stored_row data).
Proof.
  apply (downstream_changes_only_past_the_gate (env_of full_csv)
           (run_pipeline (env_of full_csv) empty_warehouse)).
  right. right. left.
  exact (proj2 (proj2 (second_run_renumbers full_csv full_csv_fits
                         full_csv_complete full_csv_count))).
Defined.

Lemma run_pipeline_invariant (P : Warehouse -> Prop) :
  (forall w s, P w -> P (set_staging w s)) ->
  (forall w rows di dt,
     P w ->
     insert_dim_instrumento (select_instrumentos rows) (instrumentos w) = Ok di ->
     insert_dim_tempo (select_tempos rows) (tempos w) = Ok dt ->
     P (refreshed w rows di dt)) ->
  (forall w rows di dt,
     P w ->
     insert_dim_instrumento (select_instrumentos rows) (instrumentos w) = Ok di ->
     insert_dim_tempo (select_tempos rows) (tempos w) = Ok dt ->
     P (exhausted w rows di dt)) ->
  forall env w, P w -> P (run_pipeline env w).
Proof.
  intros Hstaging Hrefreshed Hexhausted env w Hw. rewrite run_pipeline_eq.
  destruct (upstream_wh_cases env w) as [[s ->]|(data & _ & _ & ->)]; [by apply Hstaging|].
  set (w' := set_staging (set_staging w _) _).
  assert (Hw' : P w') by (by do 2 apply Hstaging).
  destruct (downstream_wh_cases w')
    as [-> | (rows & di & dt & _ & Hi & Ht & [[_ ->]|[_ ->]])];
    [exact Hw' | by apply Hrefreshed | by apply Hexhausted].
Qed.

(** A reference that holds still holds when the dimensions have grown. *)
Lemma fk_ok_grown (di di' : list DimInstrumento.row) (dt dt' : list DimTempo.row)
  (f : Fact.row) :
  di `prefix_of` di' -> dt `prefix_of` dt' ->
  fk_ok di dt f = true -> fk_ok di' dt' f = true.
Proof.
  intros [k1 ->] [k2 ->]. unfold fk_ok, references.
  rewrite !andb_true_iff, !map_app. intros [H1 H2]. split.
  - destruct (Fact.ticker f); [|reflexivity].
    apply bool_decide_eq_true in H1. apply bool_decide_eq_true.
    apply elem_of_app. by left.
  - destruct (Fact.data_id f); [|reflexivity].
    apply bool_decide_eq_true in H2. apply bool_decide_eq_true.
    apply elem_of_app. by left.
Qed.

Lemma run_pipelines_invariant (P : Warehouse -> Prop) :
  (forall env w, P w -> P (run_pipeline env w)) ->
  forall envs w, P w -> P (run_pipelines envs w).
Proof.
  intros Hrun envs. unfold run_pipelines.
  induction envs as [|env envs IH]; intros w Hw; [exact Hw|].
  simpl. apply IH, Hrun, Hw.
Qed.


(** X20.  After any number of scheduled runs on a new warehouse, every
    fact row refers to a ticker of [dim_instrumento] and a date of
    [dim_tempo], or to none. *)
Theorem references_always_hold (envs : list Env) :
  references_hold (run_pipelines envs empty_warehouse).
Proof.
  apply run_pipelines_invariant; [|constructor].
  apply run_pipeline_invariant.
  - intros w s Hw. exact Hw.
  - intros w rows di dt _ Hi Ht. unfold references_hold, refreshed.
    cbn [fact_movimentacao_diaria table_or_empty instrumentos tempos
         dim_instrumento dim_tempo].
    apply Forall_forall. intros f Hf.
    pose proof (fact_rows_fk_ok rows _ _ _ _ (seq_base w) Hi Ht) as Hall.
    rewrite forallb_forall in Hall. apply Hall, list_elem_of_In, Hf.
  - intros w rows di dt Hw Hi Ht. unfold references_hold, exhausted.
    cbn [fact_movimentacao_diaria table_or_empty instrumentos tempos
         dim_instrumento dim_tempo].
    eapply Forall_impl; [exact Hw|]. intros f. cbv beta.
    apply fk_ok_grown.
    + exact (insert_dim_instrumento_prefix _ _ _ Hi).
    + exact (insert_dim_tempo_prefix _ _ _ Ht).
Qed.

(** X21.  After any number of scheduled runs on a new warehouse, the ids
    of the fact rows are unique and positive, and none is beyond the value
    of the sequence: a later load never hands out an id in use. *)
Theorem ids_stay_in_sequence (envs : list Env) :
  ids_in_sequence (run_pipelines envs empty_warehouse).
Proof.
  apply run_pipelines_invariant;
    [|by (split; [reflexivity|]; split; constructor)].
  apply run_pipeline_invariant.
  - intros w s Hw. exact Hw.
  - intros w rows di dt (Hseq & _ & _) _ _. unfold ids_in_sequence, refreshed.
    cbn [fact_movimentacao_diaria table_or_empty fact_id_seq].
    assert (Hbase : 0 <= seq_base w).
    { unfold seq_base. destruct (fact_movimentacao_diaria w); lia. }
    rewrite fact_rows_length. split; [lia|]. split.
    + rewrite fact_rows_ids. apply NoDup_seqZ.
    + apply Forall_forall. intros f Hf.
      assert (Hid : Fact.id f ∈ map Fact.id (fact_rows (seq_base w) (window rows)))
        by (apply list_elem_of_fmap; eauto).
      rewrite fact_rows_ids in Hid. apply elem_of_seqZ in Hid. lia.
  - intros w rows di dt (Hseq & Hnd & Hids) _ _. unfold ids_in_sequence, exhausted.
    cbn [fact_movimentacao_diaria table_or_empty fact_id_seq].
    split; [destruct (fact_movimentacao_diaria w); lia|].
    split; [exact Hnd|].
    eapply Forall_impl; [exact Hids|]. intros f. cbv beta.
    destruct (fact_movimentacao_diaria w); lia.
Qed.

(** ** Values the tasks compute *)

Lemma num_value_pos (x : numeric) : 0 < unscaled x -> (0 < num_value x)%Q.
Proof.
  intros Hx. rewrite num_value_ten. apply Qmult_lt_0_compat; [|apply ten_pos].
  change 0%Q with (inject_Z 0). by rewrite <- Zlt_Qlt.
Qed.

Lemma num_value_nonpos (x : numeric) : unscaled x <= 0 -> (num_value x <= 0)%Q.
Proof.
  intros Hx. rewrite num_value_ten.
  pose proof (ten_pos (- Z.of_nat (dscale x))) as Hp.
  assert (Hu : (inject_Z (unscaled x) <= 0)%Q)
    by (change 0%Q with (inject_Z 0); by rewrite <- Zle_Qle).
  nra.
Qed.

Lemma num_value_neg (x : numeric) : unscaled x < 0 -> (num_value x < 0)%Q.
Proof.
  intros Hx. rewrite num_value_ten.
  pose proof (ten_pos (- Z.of_nat (dscale x))) as Hp.
  assert (Hu : (inject_Z (unscaled x) < 0)%Q)
    by (change 0%Q with (inject_Z 0); by rewrite <- Zlt_Qlt).
  nra.
Qed.

Lemma unscaled_pos (x : numeric) : (0 < num_value x)%Q -> 0 < unscaled x.
Proof.
  intros Hx. destruct (Z.lt_ge_cases 0 (unscaled x)) as [|Hle]; [assumption|].
  pose proof (num_value_nonpos x Hle). lra.
Qed.

Lemma unscaled_nonneg (x : numeric) : (0 <= num_value x)%Q -> 0 <= unscaled x.
Proof.
  intros Hx. destruct (Z.le_gt_cases 0 (unscaled x)) as [|Hlt]; [assumption|].
  pose proof (num_value_neg x Hlt). lra.
Qed.

Lemma unscaled_nonpos (x : numeric) : (num_value x <= 0)%Q -> unscaled x <= 0.
Proof.
  intros Hx. destruct (Z.le_gt_cases (unscaled x) 0) as [|Hlt]; [assumption|].
  pose proof (num_value_pos x Hlt). lra.
Qed.

(** Rounding a quotient keeps it on its side of zero. *)
Lemma div_round_sign (n d : Z) :
  0 < d -> (0 <= n -> 0 <= div_round n d) /\ (n <= 0 -> div_round n d <= 0).
Proof.
  intros Hd. unfold div_round. rewrite (Z.sgn_pos d Hd).
  assert (Hk : 0 <= (2 * Z.abs n + Z.abs d) / (2 * Z.abs d))
    by (apply Z.div_pos; lia).
  split; intros Hn.
  - pose proof (Z.sgn_nonneg n). nia.
  - pose proof (Z.sgn_nonpos n). nia.
Qed.

Lemma numeric_div_sign (x y : numeric) :
  0 < unscaled y ->
  (0 <= unscaled x -> 0 <= unscaled (numeric_div x y))
  /\ (unscaled x <= 0 -> unscaled (numeric_div x y) <= 0).
Proof.
  intros Hy. unfold numeric_div, div_var. cbn [unscaled].
  pose proof (pow10_pos (dscale x)). pose proof (pow10_pos (dscale y + select_div_scale x y)).
  destruct (div_round_sign (unscaled x * pow10 (dscale y + select_div_scale x y))
              (unscaled y * pow10 (dscale x))) as [H1 H2]; [nia|].
  split; intros Hx; [apply H1 | apply H2]; nia.
Qed.

(** X22.  The daily change over a positive previous close [p] is never on
    the wrong side of zero: it is not negative when the close did not
    fall, not positive when it did not rise, and zero when it stayed; a
    positive change means the close rose and a negative one that it fell.
    It gives the close back up to the rounding of the quotient:
    [p + p * v / 100] is within [p] times the bound on the quotient of
    the close. *)
Theorem variacao_follows_the_close (c p : numeric) (v : option numeric) :
  (0 < num_value p)%Q ->
  variacao_expr (Some c) (Some p) = Ok v ->
  exists x,
    v = Some x
    /\ ((num_value p <= num_value c)%Q -> (0 <= num_value x)%Q)
    /\ ((num_value c <= num_value p)%Q -> (num_value x <= 0)%Q)
    /\ ((num_value c == num_value p)%Q -> (num_value x == 0)%Q)
    /\ ((0 < num_value x)%Q -> (num_value p < num_value c)%Q)
    /\ ((num_value x < 0)%Q -> (num_value c < num_value p)%Q)
    /\ (Qabs (num_value p + num_value p * num_value x / 100 - num_value c)
        <= num_value p * div_bound ((num_value c - num_value p) / num_value p))%Q.
Proof.
  intros Hp Hv. apply unscaled_pos in Hp as Hup.
  rewrite variacao_expr_ok, variacao_value in Hv by lia. injection Hv as <-.
  eexists. split; [reflexivity|].
  set (d := numeric_sub c p). set (q := numeric_div d p).
  assert (Hx : (num_value (numeric_mul q (numeric_of_Z 100)) == num_value q * 100)%Q).
  { rewrite num_value_mul, num_value_of_Z; [reflexivity|].
    pose proof (select_div_scale_le d p).
    unfold q, numeric_div, div_var, numeric_of_Z, NUMERIC_DSCALE_MAX.
    cbn [dscale]. lia. }
  assert (Hd : (num_value d == num_value c - num_value p)%Q)
    by apply num_value_sub.
  destruct (numeric_div_sign d p Hup) as [Hq1 Hq2]. fold q in Hq1, Hq2.
  assert (Hup' : (num_value p <= num_value c)%Q
                 -> (0 <= num_value (numeric_mul q (numeric_of_Z 100)))%Q).
  { intros Hle. rewrite Hx.
    assert (Hd0 : (0 <= num_value d)%Q) by (rewrite Hd; lra).
    pose proof (num_value_nonneg q (Hq1 (unscaled_nonneg d Hd0))). lra. }
  assert (Hdown : (num_value c <= num_value p)%Q
                  -> (num_value (numeric_mul q (numeric_of_Z 100)) <= 0)%Q).
  { intros Hle. rewrite Hx.
    assert (Hd0 : (num_value d <= 0)%Q) by (rewrite Hd; lra).
    pose proof (num_value_nonpos q (Hq2 (unscaled_nonpos d Hd0))). lra. }
  split; [exact Hup'|]. split; [exact Hdown|].
  split.
  { intros Heq.
    assert (H1 : (num_value p <= num_value c)%Q) by (rewrite Heq; apply Qle_refl).
    assert (H2 : (num_value c <= num_value p)%Q) by (rewrite Heq; apply Qle_refl).
    specialize (Hup' H1). specialize (Hdown H2).
    by apply Qle_antisym. }
  split.
  { intros Hpos. destruct (Qlt_le_dec (num_value p) (num_value c)) as [|Hle];
      [assumption|]. specialize (Hdown Hle). lra. }
  split.
  { intros Hneg. destruct (Qlt_le_dec (num_value c) (num_value p)) as [|Hle];
      [assumption|]. specialize (Hup' Hle). lra. }
  assert (Hnz : unscaled p <> 0) by lia.
  pose proof (numeric_div_error d p Hnz) as Herr. fold q in Herr.
  unfold div_bound in *. rewrite Hd in Herr. rewrite Hx.
  set (vp := num_value p) in *. set (vc := num_value c) in *.
  set (vq := num_value q) in *.
  assert (E : (vp + vp * (vq * 100) / 100 - vc
               == vp * (vq - (vc - vp) / vp))%Q) by (field; lra).
  rewrite E, Qabs_Qmult, (Qabs_pos vp) by lra.
  apply Qmult_le_l; [exact Hp | exact Herr].
Qed.

Lemma variacao_follows_the_close_witness :
  (0 < num_value (numeric_of_Z 10))%Q
  /\ exists x,
       Some (percent 20) = Some x
       /\ ((num_value (numeric_of_Z 10) <= num_value (numeric_of_Z 12))%Q
           -> (0 <= num_value x)%Q)
       /\ ((0 < num_value x)%Q
           -> (num_value (numeric_of_Z 10) < num_value (numeric_of_Z 12))%Q).
Proof.
  split; [reflexivity|].
  destruct (variacao_follows_the_close (numeric_of_Z 12) (numeric_of_Z 10)
              (Some (percent 20)) eq_refl eq_refl)
    as (x & Hx & Hup & _ & _ & Hpos & _).
  exists x. auto.
Defined.

Lemma DATE_TRUNC_week_monday (d : Z) :
  EXTRACT_DOW (DATE_TRUNC_week d) = 1
  /\ DATE_TRUNC_week d <= d <= DATE_TRUNC_week d + 6.
Proof. unfold EXTRACT_DOW, DATE_TRUNC_week. Z.div_mod_to_equations. lia. Qed.

(** X23.  The week of a row of the view is a Monday, and every fact the
    row stands for has its date on that Monday or on one of the six days
    after it. *)
Theorem view_weeks_start_on_monday (facts : list Fact.row) (v : Vol.row)
  (f : Fact.row) (d : Z) :
  v ∈ volatility_query facts ->
  f ∈ changes_of facts (vol_key v) ->
  Fact.data_id f = Some d ->
  exists wk, Vol.week v = Some wk /\ EXTRACT_DOW wk = 1 /\ wk <= d <= wk + 6.
Proof.
  intros _ Hf Hd. apply list_elem_of_filter in Hf as [[Hk _] _].
  unfold week_key, vol_key in Hk. injection Hk as _ Hwk. rewrite Hd in Hwk.
  exists (DATE_TRUNC_week d). split; [by rewrite <- Hwk|].
  apply DATE_TRUNC_week_monday.
Qed.

Lemma view_weeks_start_on_monday_witness :
  exists wk,
    Vol.week {| Vol.ticker := Some "ABC"; Vol.week := Some 19723; Vol.vol := None |}
    = Some wk
    /\ EXTRACT_DOW wk = 1 /\ wk <= 19724 <= wk + 6.
Proof.
  apply (view_weeks_start_on_monday week_facts _
           (fact_of 2 "ABC" 19724 42 (Some (percent 5)))).
  - apply list_elem_of_In. vm_compute. left. reflexivity.
  - apply list_elem_of_In. vm_compute. left. reflexivity.
  - reflexivity.
Defined.

Lemma EXTRACT_MONTH_range (d : Z) : 1 <= EXTRACT_MONTH d <= 12.
Proof.
  unfold EXTRACT_MONTH, civil_from_days. cbv zeta. cbn [snd].
  match goal with |- context [if ?b <? 10 then _ else _] =>
    destruct (Z.ltb_spec b 10) end;
    Z.div_mod_to_equations; lia.
Qed.

Lemma EXTRACT_DOW_range (d : Z) : 0 <= EXTRACT_DOW d <= 6.
Proof. unfold EXTRACT_DOW. Z.div_mod_to_equations. lia. Qed.

Lemma insert_dim_instrumento_elem sel :
  forall table table' x,
    insert_dim_instrumento sel table = Ok table' -> x ∈ table' ->
    x ∈ table
    \/ exists nome tipo,
         (Some (DimInstrumento.ticker x), nome, tipo) ∈ sel
         /\ DimInstrumento.nome_ativo x = nome /\ DimInstrumento.tipo_ativo x = tipo.
Proof.
  induction sel as [|[[[t|] nome] tipo] rest IH]; intros table table' x; simpl.
  - intros [= <-]. by left.
  - case_bool_decide; intros Hins Hx;
      destruct (IH _ _ _ Hins Hx) as [Hold|(n & tp & Hin & Hn)].
    + by left.
    + right. exists n, tp. split; [by right | exact Hn].
    + apply elem_of_app in Hold as [Hold|Hnew]; [by left|].
      apply list_elem_of_singleton in Hnew as ->. right.
      exists nome, tipo. split; [by left | by split].
    + right. exists n, tp. split; [by right | exact Hn].
  - discriminate.
Qed.

Lemma insert_dim_tempo_elem sel :
  forall table table' x,
    insert_dim_tempo sel table = Ok table' -> x ∈ table' ->
    x ∈ table
    \/ (Some (DimTempo.data_id x), DimTempo.ano x, DimTempo.mes x,
        DimTempo.dia_da_semana x) ∈ sel.
Proof.
  induction sel as [|[[[[d|] y] m] dow] rest IH]; intros table table' x; simpl.
  - intros [= <-]. by left.
  - case_bool_decide; intros Hins Hx;
      destruct (IH _ _ _ Hins Hx) as [Hold|Hin].
    + by left.
    + right. by right.
    + apply elem_of_app in Hold as [Hold|Hnew]; [by left|].
      apply list_elem_of_singleton in Hnew as ->. right. by left.
    + right. by right.
  - discriminate.
Qed.

(** X24.  [create_dim_tables] adds nothing but what staging gives: a row
    of a dimension after the task is one that was there, or the row
    derived from the symbol (the date) of a staged row; a derived date row
    has a month from 1 to 12 and a day of the week from 0 to 6. *)
Theorem create_dim_tables_adds_only_staged_keys (st st' : State)
  (rows : list Staging.row) :
  staging (wh st) = Some rows ->
  create_dim_tables st = (st', None) ->
  (forall x, x ∈ instrumentos (wh st') ->
     x ∈ instrumentos (wh st)
     \/ exists r, r ∈ rows /\ Staging.symbol r = Some (DimInstrumento.ticker x)
                  /\ x = instrumento_of (DimInstrumento.ticker x))
  /\ (forall x, x ∈ tempos (wh st') ->
        x ∈ tempos (wh st)
        \/ exists r m dow,
             r ∈ rows /\ Staging.date r = Some (DimTempo.data_id x)
             /\ x = tempo_of (DimTempo.data_id x)
             /\ DimTempo.mes x = Some m /\ 1 <= m <= 12
             /\ DimTempo.dia_da_semana x = Some dow /\ 0 <= dow <= 6).
Proof.
  intros Hst Hrun. unfold create_dim_tables in Hrun. rewrite Hst in Hrun.
  destruct (insert_dim_instrumento _ _) as [di|] eqn:Hi; [|discriminate].
  destruct (insert_dim_tempo _ _) as [dt|] eqn:Ht; [|discriminate].
  injection Hrun as <-. split; intros x Hx.
  - destruct (insert_dim_instrumento_elem _ _ _ _ Hi Hx)
      as [Hold|(n & tp & Hin & Hn & Htp)]; [by left|].
    right. apply elem_of_select_instrumentos in Hin as (r & Hr & [= Hs -> ->]).
    exists r. split; [exact Hr|]. split; [by symmetry|].
    destruct x as [t nome tipo]. simpl in *. subst nome tipo.
    by rewrite <- Hs.
  - destruct (insert_dim_tempo_elem _ _ _ _ Ht Hx) as [Hold|Hin]; [by left|].
    right. apply elem_of_select_tempos in Hin as (r & Hr & [= Hd Hy Hm Hdow]).
    rewrite <- Hd in Hy, Hm, Hdow. simpl in Hy, Hm, Hdow.
    exists r, (EXTRACT_MONTH (DimTempo.data_id x)),
      (EXTRACT_DOW (DimTempo.data_id x)).
    split; [exact Hr|]. split; [by symmetry|].
    split; [destruct x; simpl in *; by subst|].
    split; [exact Hm|]. split; [apply EXTRACT_MONTH_range|].
    split; [exact Hdow | apply EXTRACT_DOW_range].
Qed.

Lemma create_dim_tables_adds_only_staged_keys_witness :
  instrumento_of "XYZ" ∈ instrumentos (wh overlapping_state)
  \/ exists r, r ∈ two_ticker_quotes
               /\ Staging.symbol r = Some (DimInstrumento.ticker (instrumento_of "XYZ"))
               /\ instrumento_of "XYZ"
                  = instrumento_of (DimInstrumento.ticker (instrumento_of "XYZ")).
Proof.
  apply (proj1 (create_dim_tables_adds_only_staged_keys overlapping_state
                  (fst (create_dim_tables overlapping_state)) two_ticker_quotes
                  eq_refl eq_refl)).
  apply list_elem_of_In. vm_compute. right. left. reflexivity.
Defined.

(** ** What a failed run leaves in staging *)

Lemma set_staging_twice (w : Warehouse) (s s' : option (list Staging.row)) :
  set_staging (set_staging w s) s' = set_staging w s'.
Proof. reflexivity. Qed.

(** X25.  A file that is loaded but rejected by the quality check stays
    staged.  When the quality check of a run is failed, every line of the
    file was a record with fields its columns take, the run is failed,
    staging holds the records of the rejected file in place of what it
    held, and every other relation is as it was. *)
Theorem rejected_file_stays_staged (env : Env) (w : Warehouse) (t : TaskInstance) :
  get_task_instance "run_data_quality_checks" (dag_run env w) = Some t ->
  ti_state t = failed ->
  exists data,
    fs env !! csv_path = Some (Fields <$> data)
    /\ Forall storable data
    /\ quality_check_sql (map stored_row data) <> Some true
    /\ run_state (dag_run env w) = run_failed
    /\ run_pipeline env w = set_staging w (Some (map stored_row data)).
Proof.
  intros Hget Hfailed.
  destruct (gate_failed_inv _ _ _ Hget Hfailed)
    as (data_file & rows & Hfs & Hcopy & Hq).
  destruct (COPY_staging_cases data_file [])
    as [[_ [d Hraise]]|(data & -> & Hall & Hok)]; [congruence|].
  rewrite Hok in Hcopy. injection Hcopy as <-.
  exists data. split; [exact Hfs|]. split; [exact Hall|]. split; [exact Hq|].
  unfold run_pipeline, dag_run.
  rewrite (run_chain_rejected env w _ _ Hfs Hok Hq).
  split; reflexivity.
Qed.

Lemma rejected_file_stays_staged_witness :
  get_task_instance "run_data_quality_checks" (dag_run (env_of xyz_quotes) earlier_warehouse)
  = Some (ti "run_data_quality_checks" failed 4)
  /\ exists data,
       fs (env_of xyz_quotes) !! csv_path = Some (Fields <$> data)
       /\ Forall storable data
       /\ quality_check_sql (map stored_row data) <> Some true
       /\ run_state (dag_run (env_of xyz_quotes) earlier_warehouse) = run_failed
       /\ run_pipeline (env_of xyz_quotes) earlier_warehouse
          = set_staging earlier_warehouse (Some (map stored_row data)).
Proof.
  assert (H : get_task_instance "run_data_quality_checks"
                (dag_run (env_of xyz_quotes) earlier_warehouse)
              = Some (ti "run_data_quality_checks" failed 4))
    by (vm_compute; reflexivity).
  split; [exact H|].
  exact (rejected_file_stays_staged (env_of xyz_quotes) earlier_warehouse _ H eq_refl).
Defined.

(** X26.  When the file is missing, or has a line that [COPY] cannot read
    or a record with a field its column refuses -- a symbol that overflows
    its column, for one -- the run is failed and the rows staged by an
    earlier run stay: the run only creates the staging table if it was not
    there, the TRUNCATE of a failed load being undone with it. *)
Theorem unloadable_file_keeps_staged_rows (env : Env) (w : Warehouse) :
  fs env !! csv_path = None
  \/ (exists data_file, fs env !! csv_path = Some data_file
                        /\ Exists unloadable data_file)
  \/ (exists data_file,
        fs env !! csv_path = Some data_file
        /\ Exists (fun l => exists r, l = Fields r
                                      /\ overflows 10 (Staging.symbol r)) data_file) ->
  run_state (dag_run env w) = run_failed
  /\ run_pipeline env w = set_staging w (create_table_if_not_exists (staging w)).
Proof.
  unfold run_pipeline, dag_run.
  assert (Hun : forall data_file,
             fs env !! csv_path = Some data_file -> Exists unloadable data_file ->
             run_state (let '(tis, st) := run_chain env dag true (fresh_run w) in
                        {| task_instances := tis; final_state := st;
                           run_state := leaf_state tis |}) = run_failed
             /\ wh (final_state
                      (let '(tis, st) := run_chain env dag true (fresh_run w) in
                       {| task_instances := tis; final_state := st;
                          run_state := leaf_state tis |}))
                = set_staging w (create_table_if_not_exists (staging w))).
  { intros data_file Hfs He.
    destruct (COPY_staging_cases data_file [])
      as [[_ [d Hcopy]]|(data & -> & Hall & _)].
    - rewrite (run_chain_refused env w data_file _ Hfs Hcopy). split; reflexivity.
    - exfalso. apply Exists_exists in He as (l & Hl & Hno).
      apply list_elem_of_fmap in Hl as (r & -> & Hr).
      exact (Hno (proj1 (Forall_forall _ _) Hall r Hr)). }
  intros [Hfs|[(data_file & Hfs & He)|(data_file & Hfs & He)]].
  - rewrite (run_chain_missing env w Hfs). split; reflexivity.
  - by apply (Hun data_file).
  - apply (Hun data_file Hfs).
    apply Exists_exists in He as (l & Hl & r & -> & Ho).
    apply Exists_exists. exists (Fields r). split; [exact Hl|].
    by apply overflow_unloadable.
Qed.

Lemma unloadable_file_keeps_staged_rows_witness :
  run_state (dag_run (env_of [long_symbol_quote]) earlier_warehouse) = run_failed
  /\ run_pipeline (env_of [long_symbol_quote]) earlier_warehouse
     = set_staging earlier_warehouse
         (create_table_if_not_exists (staging earlier_warehouse)).
Proof.
  apply (unloadable_file_keeps_staged_rows (env_of [long_symbol_quote])
           earlier_warehouse).
  right. right. exists (Fields <$> [long_symbol_quote]). split; [reflexivity|].
  left. exists long_symbol_quote. split; [reflexivity|].
  exists "PETROBRAS4PN". repeat split. simpl. lia.
Defined.

(** ** The log *)

Lemma run_chain_app (env : Env) (tasks tasks2 : list Operator) :
  forall b st,
    run_chain env (tasks ++ tasks2) b st
    = let '(tis, st1) := run_chain env tasks b st in
      let '(tis', st2) := run_chain env tasks2 (b && all_succeeded tis) st1 in
      (tis ++ tis', st2).
Proof.
  induction tasks as [|t0 rest IH]; intros b st.
  - cbn [app run_chain all_succeeded forallb]. rewrite andb_true_r.
    by destruct (run_chain env tasks2 b st).
  - change ((t0 :: rest) ++ tasks2) with (t0 :: (rest ++ tasks2)).
    cbn [run_chain]. destruct b.
    + destruct (attempt (execute t0 env) default_args.retries 1 st) as [[s n] st'].
      rewrite IH.
      destruct (run_chain env rest (bool_decide (s = success)) st') as [tis st1].
      cbn [all_succeeded forallb ti_state andb].
      fold (all_succeeded tis).
      by destruct (run_chain env tasks2
                     (bool_decide (s = success) && all_succeeded tis) st1).
    + rewrite IH. destruct (run_chain env rest false st) as [tis st1].
      cbn [andb]. by destruct (run_chain env tasks2 false st1).
Qed.

Lemma upstream_of_log_keeps_log (env : Env) :
  Forall (fun t => keeps_log (execute t env)) upstream_of_log.
Proof.
  unfold upstream_of_log, dag. cbn [take].
  repeat (first [apply List.Forall_nil | apply List.Forall_cons]);
    cbn [execute]; intros st st' e;
    unfold setup_staging_table, _locate_csv, _load_staging, run_data_quality_checks,
      create_dim_tables, load_fact_table, calculate_volatility_view,
      _report_top_volatility, done, failed_with;
    repeat case_match; intros Hrun; injection Hrun as <- _; reflexivity.
Qed.

(** X27.  The summary is logged exactly in the runs that succeed.  A run
    that succeeded wrote one line to the log, 'Resumo executivo: '
    followed by the message of the report; a failed run wrote nothing. *)
Theorem summary_is_logged_iff_success (env : Env) (w : Warehouse) :
  log (final_state (dag_run env w))
  = if bool_decide (run_state (dag_run env w) = run_success)
    then [("Resumo executivo: "
           ++ str (xcom_pull "report_top_volatility" "report_message"
                     (final_state (dag_run env w))))%string]
    else [].
Proof.
  unfold dag_run.
  change dag with (upstream_of_log ++ [log_task]). rewrite run_chain_app.
  pose proof (run_chain_preserves (fun st => log st = []) env upstream_of_log) as Hlog.
  specialize (Hlog (proj2 (Forall_forall _ _) (fun t Ht st st' e Hst Hrun =>
    eq_trans (proj1 (Forall_forall _ _) (upstream_of_log_keeps_log env) t Ht st st' e Hrun)
             Hst)) true (fresh_run w) eq_refl).
  destruct (run_chain env upstream_of_log true (fresh_run w)) as [tis st1].
  cbn [snd] in Hlog. cbn [andb run_chain].
  destruct (all_succeeded tis).
  - cbn [log_task execute task_id].
    rewrite (attempt_success _log_execution_summary _ _ st1 _ eq_refl).
    cbn [final_state run_state log xcom_pull xcom]. unfold leaf_state.
    rewrite last_snoc. cbn [ti_state]. rewrite Hlog. reflexivity.
  - cbn [final_state run_state]. unfold leaf_state.
    rewrite last_snoc. cbn [ti_state]. exact Hlog.
Qed.
